(** * Haiku selection and notification glue (haiku_select.cc)

    A shallow embedding of the clipboard, message and notification
    wrappers of [haiku_select.cc].  Every wrapper forwards to the host
    (BClipboard, BMessage, BEntry, BNotification ...), so a wrapper is
    embedded as a finite tree of host calls: at each call the host's
    reply selects the continuation.  The file-level [static] variables
    are threaded explicitly through every function.

    Conventions:
    - a property of a wrapper is stated over [exec p tr o], for every
      trace [tr] of host calls and replies the wrapper [p] can go
      through and the outcome [o] it ends in;
    - [int64] and [intmax_t] values are integers with the wrap-around
      written out; the three stored counters only ever hold -1 or a
      system count, which the host reports as a [uint32];
    - a [BClipboard] object is identified by the name it was created
      with, so the three pointers set by [be_clipboard_init] designate
      three different clipboards; calling a method through a pointer
      that is still [NULL] stops the run;
    - an output pointer of a wrapper is a cell of its caller: the cell's
      content goes in and its final content comes out. *)

From Stdlib Require Import ZArith List String Bool Lia DecimalString.
From Stdlib Require DecimalPos DecimalZ.
Import ListNotations.
Open Scope Z_scope.

(** ** Fixed-width integers *)

Definition int64_min : Z := - 2 ^ 63.
Definition int64_max : Z := 2 ^ 63 - 1.
Definition uint32_max : Z := 2 ^ 32 - 1.

Definition in_int64 (z : Z) : Prop := int64_min <= z <= int64_max.
Definition in_uint32 (z : Z) : Prop := 0 <= z <= uint32_max.

(** Two's complement reduction of a mathematical integer to 64 bits. *)
Definition wrap64 (z : Z) : Z := (z + 2 ^ 63) mod 2 ^ 64 - 2 ^ 63.

(** [a + b] on [int64] operands. *)
Definition add64 (a b : Z) : Z := wrap64 (a + b).

(** [ckd_add (&r, a, b)] of <stdckdint.h> at type [intmax_t] (64 bits
    on this host): the wrapped sum is stored in [r] and the result
    tells whether the mathematical sum did not fit. *)
Definition ckd_add (a b : Z) : Z * bool :=
  (wrap64 (a + b), negb (Z.eqb (wrap64 (a + b)) (a + b))).

Definition in_int32 (z : Z) : Prop := - 2 ^ 31 <= z <= 2 ^ 31 - 1.

(** The implicit conversions between the two 32-bit types the message
    accessors mix: an [int32] argument handed to a [uint32] parameter
    (the host's [type_code]) and a [uint32] assigned to an [int32]
    object. *)
Definition to_uint32 (z : Z) : Z := z mod 2 ^ 32.
Definition to_int32 (z : Z) : Z := (z + 2 ^ 31) mod 2 ^ 32 - 2 ^ 31.

(** ** Host vocabulary *)

(** [enum haiku_clipboard] (haikuselect.h). *)
Inductive haiku_clipboard : Type :=
| CLIPBOARD_PRIMARY
| CLIPBOARD_SECONDARY
| CLIPBOARD_CLIPBOARD.

Definition haiku_clipboard_eqb (a b : haiku_clipboard) : bool :=
  match a, b with
  | CLIPBOARD_PRIMARY, CLIPBOARD_PRIMARY
  | CLIPBOARD_SECONDARY, CLIPBOARD_SECONDARY
  | CLIPBOARD_CLIPBOARD, CLIPBOARD_CLIPBOARD => true
  | _, _ => false
  end.

(** A [BClipboard] object is the handle of the host clipboard whose name
    was given to its constructor. *)
Inductive BClipboard : Type :=
| new_BClipboard (name : string).

(** [BClipboard *]: [None] is [NULL]. *)
Definition BClipboard_ptr : Type := option BClipboard.

(** Addresses of host objects the wrappers only pass around
    ([BMessage *], [BBitmap *], [void *], [char *]); [0] is [NULL]. *)
Definition pointer : Type := Z.
Definition NULL : pointer := 0.
Definition is_null (p : pointer) : bool := Z.eqb p NULL.

Definition status_t : Type := Z.
Definition type_code : Type := Z.

(** The 32 bits of a [float]; the wrappers move floats, they never
    compute with them. *)
Definition float : Type := Z.

Record BPoint : Type := mkBPoint { point_x : float; point_y : float }.

(** [entry_ref], [BEntry] and [BPath] objects are opaque to the wrappers:
    a value stands for the state of the object. *)
Inductive entry_ref : Type := mk_entry_ref (token : Z).
Inductive BEntry : Type := mk_BEntry (token : Z).
Inductive BPath : Type := mk_BPath (token : Z).

Inductive notification_type : Type :=
| B_INFORMATION_NOTIFICATION
| B_IMPORTANT_NOTIFICATION
| B_ERROR_NOTIFICATION.

(** Constants of the host headers that the wrappers compare against or
    pass on.  Their values are the host's business: the development is
    parametric in them. *)
Class HostConstants : Type := {
  B_OK : status_t;
  B_NAME_NOT_FOUND : status_t;
  B_MIME_TYPE : type_code;
  B_ANY_TYPE : type_code;
  B_SIMPLE_DATA : Z
}.

(** What a callee did with an output argument: [Some v] when it stored
    [v] through the pointer, [None] when it left the pointee alone. *)
Definition stored (V : Type) : Type := option V.

(** A memory cell of the caller: [None] while its content is
    indeterminate. *)
Definition cell (V : Type) : Type := option V.

Definition store_to {V : Type} (w : stored V) (c : cell V) : cell V :=
  match w with
  | Some v => Some v
  | None => c
  end.

(** ** Host calls

    One constructor per host function or method the file calls; the
    index is the type of what comes back: the result together with,
    for each local variable or object of the wrapper handed over by
    address, its content after the call, and for each pointer of the
    wrapper's caller passed on to the host, what the host stored through
    it. *)

Inductive host_call : Type -> Type :=
(* BClipboard *)
| BClipboard_Lock (cb : BClipboard) : host_call bool
| BClipboard_Unlock (cb : BClipboard) : host_call unit
| BClipboard_Clear (cb : BClipboard) : host_call status_t
| BClipboard_Data (cb : BClipboard) : host_call pointer
| BClipboard_Commit (cb : BClipboard) : host_call status_t
| BClipboard_Revert (cb : BClipboard) : host_call status_t
| BClipboard_SystemCount (cb : BClipboard) : host_call Z
| BClipboard_StartWatching (cb : BClipboard) : host_call status_t
(* BMessage *)
| BMessage_FindData (msg : pointer) (name : string) (type : type_code)
    : host_call (status_t * pointer * Z)
| BMessage_FindData_at (msg : pointer) (name : string) (type : type_code)
    (index : Z) : host_call (status_t * stored pointer * stored Z)
| BMessage_ReplaceData (msg : pointer) (name : string) (type : type_code)
    (data : pointer) (len : Z) : host_call status_t
| BMessage_AddData (msg : pointer) (name : string) (type : type_code)
    (data : pointer) (len : Z) : host_call status_t
| BMessage_RemoveName (msg : pointer) (name : string) : host_call status_t
| BMessage_GetInfo (msg : pointer) (type : type_code) (index : Z)
    : host_call (status_t * pointer * type_code * stored Z)
| BMessage_FindRef (msg : pointer) (name : string) (index : Z)
    : host_call (status_t * entry_ref)
| BMessage_FindPoint (msg : pointer) (name : string) (index : Z)
    : host_call (status_t * BPoint)
| BMessage_AddRef (msg : pointer) (name : string) (ref : entry_ref)
    : host_call status_t
| BMessage_AddPoint (msg : pointer) (name : string) (point : BPoint)
    : host_call status_t
| BMessage_AddMessage (msg : pointer) (name : string) (data : pointer)
    : host_call status_t
| BMessage_FindMessage (msg : pointer) (name : string) (index : Z)
    (out : pointer) : host_call status_t
| BMessage_what (msg : pointer) : host_call Z
| BMessage_set_what (msg : pointer) (what : Z) : host_call unit
| BMessage_new_nothrow : host_call pointer
| BMessage_new (what : Z) : host_call pointer
| delete_BMessage (msg : pointer) : host_call unit
(* BEntry, BPath *)
| BEntry_new (filename : string) : host_call BEntry
| BEntry_InitCheck (entry : BEntry) : host_call status_t
| BEntry_GetRef (entry : BEntry) : host_call (status_t * entry_ref)
| BEntry_SetTo (ref : entry_ref) (traverse : bool)
    : host_call (status_t * BEntry)
| BEntry_GetPath (entry : BEntry) : host_call (status_t * BPath)
| BPath_Path (path : BPath) : host_call pointer
(* libc *)
| strdup (s : pointer) : host_call pointer
| malloc (size : Z) : host_call pointer
| memcpy (dst src : pointer) (size : Z) : host_call unit
(* BNotification and friends *)
| BNotification_new (type : notification_type) : host_call unit
| BNotification_SetTitle (title : string) : host_call unit
| BNotification_SetContent (body : string) : host_call unit
| BNotification_SetMessageID (id : string) : host_call unit
| BNotification_SetIcon (bitmap : pointer) : host_call status_t
| BNotification_Send : host_call status_t
| BTranslationUtils_GetBitmap (icon : string) : host_call pointer
| delete_BBitmap (bitmap : pointer) : host_call unit
| find_thread : host_call Z
| get_thread_info (id : Z) : host_call (status_t * Z)
(* haikuselect.c *)
| haiku_selection_disowned (id : haiku_clipboard) (count : Z) : host_call unit.

(** A host call together with its reply. *)
Inductive event : Type :=
| Event (X : Type) (c : host_call X) (reply : X).

Arguments Event {X} c reply.

(** Why a run stops without returning: [abort] was called, or a method
    was called through a null pointer. *)
Inductive stop : Type :=
| abort_called
| undefined_behaviour.

(** Programs: finite trees of host calls. *)
Inductive Prog (R : Type) : Type :=
| Ret (r : R)
| Call (X : Type) (c : host_call X) (k : X -> Prog R)
| Halt (why : stop).

Arguments Ret {R} r.
Arguments Call {R X} c k.
Arguments Halt {R} why.

Fixpoint bind {A B : Type} (p : Prog A) (f : A -> Prog B) : Prog B :=
  match p with
  | Ret a => f a
  | Call c k => Call c (fun x => bind (k x) f)
  | Halt why => Halt why
  end.

Definition call {X : Type} (c : host_call X) : Prog X := Call c Ret.

Declare Scope prog_scope.
Delimit Scope prog_scope with prog.
Notation "x <- p ;; q" := (bind p (fun x => q))
  (at level 61, p at next level, right associativity) : prog_scope.
Notation "' pat <- p ;; q" := (bind p (fun x => match x with pat => q end))
  (at level 61, pat pattern, p at next level, right associativity) : prog_scope.
Notation "p ;; q" := (bind p (fun _ => q))
  (at level 61, right associativity) : prog_scope.
Open Scope prog_scope.

(** How a run ends. *)
Inductive outcome (R : Type) : Type :=
| Returned (r : R)
| Stopped (why : stop).

Arguments Returned {R} r.
Arguments Stopped {R} why.

(** Replies the host can give: a reply lies in the range of the C type
    it has.  Only [BClipboard::SystemCount], which the host declares
    with result type [uint32], has a range the wrappers depend on: its
    result is assigned to [int64] counters and compared with them. *)
Definition reply_ok {X : Type} (c : host_call X) : X -> Prop :=
  match c in host_call X return X -> Prop with
  | BClipboard_SystemCount _ => fun n => in_uint32 n
  | _ => fun _ => True
  end.

(** [exec p tr o]: some behaviour of the host makes [p] perform exactly
    the calls of [tr], with the replies recorded there, and end in [o]. *)
Fixpoint exec {R : Type} (p : Prog R) (tr : list event) (o : outcome R) : Prop :=
  match p with
  | Ret r => tr = [] /\ o = Returned r
  | Halt why => tr = [] /\ o = Stopped why
  | Call c k =>
      exists x tr', reply_ok c x /\ tr = Event c x :: tr' /\ exec (k x) tr' o
  end.

(** A host that answers every call by a fixed function of the call:
    the calls made and the outcome are then computed. *)
Fixpoint run_with {R : Type} (answer : forall X, host_call X -> X)
  (p : Prog R) : list event * outcome R :=
  match p with
  | Ret r => ([], Returned r)
  | Halt why => ([], Stopped why)
  | Call c k =>
      let x := answer _ c in
      let '(tr, o) := run_with answer (k x) in
      (Event c x :: tr, o)
  end.

(** ** The file's static variables *)

Record statics : Type := mkStatics {
  primary : BClipboard_ptr;
  secondary : BClipboard_ptr;
  system_clipboard : BClipboard_ptr;
  count_clipboard : Z;
  count_primary : Z;
  count_secondary : Z;
  owned_primary : bool;
  owned_secondary : bool;
  owned_clipboard : bool;
  last_notification_id : Z
}.

(** The values the variables have when the program starts. *)
Definition statics_at_startup : statics :=
  {| primary := None;
     secondary := None;
     system_clipboard := None;
     count_clipboard := -1;
     count_primary := -1;
     count_secondary := -1;
     owned_primary := false;
     owned_secondary := false;
     owned_clipboard := false;
     last_notification_id := 0 |}.

Definition set_clipboards (p q r : BClipboard_ptr) (s : statics) : statics :=
  {| primary := p; secondary := q; system_clipboard := r;
     count_clipboard := count_clipboard s;
     count_primary := count_primary s;
     count_secondary := count_secondary s;
     owned_primary := owned_primary s;
     owned_secondary := owned_secondary s;
     owned_clipboard := owned_clipboard s;
     last_notification_id := last_notification_id s |}.

Definition set_clipboard_state (n : Z) (o : bool) (s : statics) : statics :=
  {| primary := primary s; secondary := secondary s;
     system_clipboard := system_clipboard s;
     count_clipboard := n;
     count_primary := count_primary s;
     count_secondary := count_secondary s;
     owned_primary := owned_primary s;
     owned_secondary := owned_secondary s;
     owned_clipboard := o;
     last_notification_id := last_notification_id s |}.

Definition set_primary_state (n : Z) (o : bool) (s : statics) : statics :=
  {| primary := primary s; secondary := secondary s;
     system_clipboard := system_clipboard s;
     count_clipboard := count_clipboard s;
     count_primary := n;
     count_secondary := count_secondary s;
     owned_primary := o;
     owned_secondary := owned_secondary s;
     owned_clipboard := owned_clipboard s;
     last_notification_id := last_notification_id s |}.

Definition set_secondary_state (n : Z) (o : bool) (s : statics) : statics :=
  {| primary := primary s; secondary := secondary s;
     system_clipboard := system_clipboard s;
     count_clipboard := count_clipboard s;
     count_primary := count_primary s;
     count_secondary := n;
     owned_primary := owned_primary s;
     owned_secondary := o;
     owned_clipboard := owned_clipboard s;
     last_notification_id := last_notification_id s |}.

Definition set_last_notification_id (n : Z) (s : statics) : statics :=
  {| primary := primary s; secondary := secondary s;
     system_clipboard := system_clipboard s;
     count_clipboard := count_clipboard s;
     count_primary := count_primary s;
     count_secondary := count_secondary s;
     owned_primary := owned_primary s;
     owned_secondary := owned_secondary s;
     owned_clipboard := owned_clipboard s;
     last_notification_id := n |}.

(** The stored change counter and the owned flag that belong to [id]. *)
Definition stored_count (id : haiku_clipboard) (s : statics) : Z :=
  match id with
  | CLIPBOARD_PRIMARY => count_primary s
  | CLIPBOARD_SECONDARY => count_secondary s
  | CLIPBOARD_CLIPBOARD => count_clipboard s
  end.

Definition owned_flag (id : haiku_clipboard) (s : statics) : bool :=
  match id with
  | CLIPBOARD_PRIMARY => owned_primary s
  | CLIPBOARD_SECONDARY => owned_secondary s
  | CLIPBOARD_CLIPBOARD => owned_clipboard s
  end.

(** A method call through a [BClipboard *]: calling through [NULL] is
    undefined. *)
Definition through {X : Type} (cb : BClipboard_ptr)
  (method : BClipboard -> host_call X) : Prog X :=
  match cb with
  | Some o => call (method o)
  | None => Halt undefined_behaviour
  end.

Definition int_of_bool (b : bool) : Z := if b then 1 else 0.

(** ** C++ clipboard support *)

Section Wrappers.

Context {host : HostConstants}.

Definition get_clipboard_object (clipboard : haiku_clipboard) (s : statics)
  : BClipboard_ptr :=
  match clipboard with
  | CLIPBOARD_PRIMARY => primary s
  | CLIPBOARD_SECONDARY => secondary s
  | CLIPBOARD_CLIPBOARD => system_clipboard s
  end.

(** [len] is [None] when the caller passes [NULL]. *)
Definition be_find_clipboard_data_1 (cb : BClipboard_ptr) (type : string)
  (len : option (cell Z)) : Prog (pointer * option (cell Z)) :=
  locked <- through cb BClipboard_Lock ;;
  if negb locked then Ret (NULL, len)
  else
    data <- through cb BClipboard_Data ;;
    if is_null data then
      through cb BClipboard_Unlock ;;
      Ret (NULL, len)
    else
      '(_, ptr, nbytes) <- call (BMessage_FindData data type B_MIME_TYPE) ;;
      if is_null ptr then
        through cb BClipboard_Unlock ;;
        Ret (NULL, len)
      else
        let len' := match len with
                    | Some _ => Some (Some nbytes)
                    | None => None
                    end in
        value <- call (malloc nbytes) ;;
        if is_null data then
          through cb BClipboard_Unlock ;;
          Ret (NULL, len')
        else
          call (memcpy value ptr nbytes) ;;
          through cb BClipboard_Unlock ;;
          Ret (value, len').

(** [data] may be [NULL]. *)
Definition be_set_clipboard_data_1 (cb : BClipboard_ptr) (type : string)
  (data : pointer) (len : Z) (clear : bool) : Prog unit :=
  locked <- through cb BClipboard_Lock ;;
  if negb locked then Ret tt
  else
    (if clear then through cb BClipboard_Clear ;; Ret tt else Ret tt) ;;
    message_data <- through cb BClipboard_Data ;;
    if is_null message_data then
      through cb BClipboard_Unlock ;;
      Ret tt
    else
      (if negb (is_null data) then
         rc <- call (BMessage_ReplaceData message_data type B_MIME_TYPE data len) ;;
         if rc =? B_NAME_NOT_FOUND then
           call (BMessage_AddData message_data type B_MIME_TYPE data len) ;;
           Ret tt
         else Ret tt
       else
         call (BMessage_RemoveName message_data type) ;;
         Ret tt) ;;
      through cb BClipboard_Commit ;;
      through cb BClipboard_Unlock ;;
      Ret tt.

Definition be_update_clipboard_count (id : haiku_clipboard) (s : statics)
  : Prog statics :=
  match id with
  | CLIPBOARD_CLIPBOARD =>
      n <- through (system_clipboard s) BClipboard_SystemCount ;;
      Ret (set_clipboard_state n true s)
  | CLIPBOARD_PRIMARY =>
      n <- through (primary s) BClipboard_SystemCount ;;
      Ret (set_primary_state n true s)
  | CLIPBOARD_SECONDARY =>
      n <- through (secondary s) BClipboard_SystemCount ;;
      Ret (set_secondary_state n true s)
  end.

Definition be_find_clipboard_data (id : haiku_clipboard) (type : string)
  (len : option (cell Z)) (s : statics) : Prog (pointer * option (cell Z)) :=
  be_find_clipboard_data_1 (get_clipboard_object id s) type len.

Definition be_set_clipboard_data (id : haiku_clipboard) (type : string)
  (data : pointer) (len : Z) (clear : bool) (s : statics) : Prog statics :=
  s' <- be_update_clipboard_count id s ;;
  be_set_clipboard_data_1 (get_clipboard_object id s') type data len clear ;;
  Ret s'.

Definition clipboard_owner_p (s : statics) : Prog bool :=
  if 0 <=? count_clipboard s then
    n <- through (system_clipboard s) BClipboard_SystemCount ;;
    Ret (add64 (count_clipboard s) 1 =? n)
  else Ret false.

Definition primary_owner_p (s : statics) : Prog bool :=
  if 0 <=? count_primary s then
    n <- through (primary s) BClipboard_SystemCount ;;
    Ret (add64 (count_primary s) 1 =? n)
  else Ret false.

Definition secondary_owner_p (s : statics) : Prog bool :=
  if 0 <=? count_secondary s then
    n <- through (secondary s) BClipboard_SystemCount ;;
    Ret (add64 (count_secondary s) 1 =? n)
  else Ret false.

Definition be_clipboard_owner_p (clipboard : haiku_clipboard) (s : statics)
  : Prog bool :=
  match clipboard with
  | CLIPBOARD_PRIMARY => primary_owner_p s
  | CLIPBOARD_SECONDARY => secondary_owner_p s
  | CLIPBOARD_CLIPBOARD => clipboard_owner_p s
  end.

Definition be_clipboard_init (s : statics) : statics :=
  set_clipboards (Some (new_BClipboard "primary"))
                 (Some (new_BClipboard "secondary"))
                 (Some (new_BClipboard "system")) s.

(** ** Message accessors

    Each returns the [int] result together with the final content of the
    caller's cells its output arguments point to. *)

Definition be_enum_message (message : pointer) (tc : cell Z) (index : Z)
  (count : cell Z) (name_return : cell pointer)
  : Prog (Z * (cell Z * cell Z * cell pointer)) :=
  '(rc, name, type, w_count) <-
     call (BMessage_GetInfo message B_ANY_TYPE index) ;;
  let count := store_to w_count count in
  if negb (rc =? B_OK) then Ret (1, (tc, count, name_return))
  else Ret (0, (Some (to_int32 type), count, Some name)).

Definition be_get_refs_data (message : pointer) (name : string) (index : Z)
  (path_buffer : cell pointer) : Prog (Z * cell pointer) :=
  '(rc, ref) <- call (BMessage_FindRef message name index) ;;
  if negb (rc =? B_OK) then Ret (1, path_buffer)
  else
    '(rc, entry) <- call (BEntry_SetTo ref false) ;;
    if negb (rc =? B_OK) then Ret (1, path_buffer)
    else
      '(rc, path) <- call (BEntry_GetPath entry) ;;
      if negb (rc =? B_OK) then Ret (1, path_buffer)
      else
        p <- call (BPath_Path path) ;;
        copy <- call (strdup p) ;;
        Ret (0, Some copy).

Definition be_get_point_data (message : pointer) (name : string) (index : Z)
  (x y : cell float) : Prog (Z * (cell float * cell float)) :=
  '(rc, point) <- call (BMessage_FindPoint message name index) ;;
  if negb (rc =? B_OK) then Ret (1, (x, y))
  else Ret (0, (Some (point_x point), Some (point_y point))).

Definition be_get_message_data (message : pointer) (name : string)
  (type_code : type_code) (index : Z)
  (buf_return : cell pointer) (size_return : cell Z)
  : Prog (Z * (cell pointer * cell Z)) :=
  '(rc, w_buf, w_size) <-
     call (BMessage_FindData_at message name (to_uint32 type_code) index) ;;
  Ret (int_of_bool (negb (rc =? B_OK)),
       (store_to w_buf buf_return, store_to w_size size_return)).

Definition be_get_message_type (message : pointer) : Prog Z :=
  call (BMessage_what message).

Definition be_set_message_type (message : pointer) (what : Z) : Prog unit :=
  call (BMessage_set_what message what).

Definition be_get_message_message (message : pointer) (name : string)
  (index : Z) : Prog pointer :=
  out <- call BMessage_new_nothrow ;;
  if is_null out then Ret NULL
  else
    rc <- call (BMessage_FindMessage message name index out) ;;
    if negb (rc =? B_OK) then
      call (delete_BMessage out) ;;
      Ret NULL
    else Ret out.

Definition be_create_simple_message : Prog pointer :=
  call (BMessage_new B_SIMPLE_DATA).

Definition be_add_message_data (message : pointer) (name : string)
  (type_code : type_code) (buf : pointer) (buf_size : Z) : Prog Z :=
  rc <- call (BMessage_AddData message name (to_uint32 type_code)
                buf buf_size) ;;
  Ret (int_of_bool (negb (rc =? B_OK))).

Definition be_add_refs_data (message : pointer) (name : string)
  (filename : string) : Prog Z :=
  entry <- call (BEntry_new filename) ;;
  rc <- call (BEntry_InitCheck entry) ;;
  if negb (rc =? B_OK) then Ret 1
  else
    '(rc, ref) <- call (BEntry_GetRef entry) ;;
    if negb (rc =? B_OK) then Ret 1
    else
      rc <- call (BMessage_AddRef message name ref) ;;
      Ret (int_of_bool (negb (rc =? B_OK))).

Definition be_add_point_data (message : pointer) (name : string)
  (x y : float) : Prog Z :=
  rc <- call (BMessage_AddPoint message name (mkBPoint x y)) ;;
  Ret (int_of_bool (negb (rc =? B_OK))).

Definition be_add_message_message (message : pointer) (name : string)
  (data : pointer) : Prog Z :=
  rc <- call (BMessage_AddMessage message name data) ;;
  if negb (rc =? B_OK) then Ret 1 else Ret 0.

(** ** Locking, change tracking *)

Definition be_lock_clipboard_message (clipboard : haiku_clipboard)
  (message_return : cell pointer) (clear : bool) (s : statics)
  : Prog (Z * cell pointer) :=
  let board := get_clipboard_object clipboard s in
  locked <- through board BClipboard_Lock ;;
  if negb locked then Ret (1, message_return)
  else
    (if clear then through board BClipboard_Clear ;; Ret tt else Ret tt) ;;
    data <- through board BClipboard_Data ;;
    Ret (0, Some data).

Definition be_unlock_clipboard (clipboard : haiku_clipboard) (discard : bool)
  (s : statics) : Prog unit :=
  let board := get_clipboard_object clipboard s in
  (if discard then through board BClipboard_Revert
   else through board BClipboard_Commit) ;;
  through board BClipboard_Unlock.

Definition be_handle_clipboard_changed_message (s : statics) : Prog statics :=
  n_clipboard <- through (system_clipboard s) BClipboard_SystemCount ;;
  n_primary <- through (primary s) BClipboard_SystemCount ;;
  n_secondary <- through (secondary s) BClipboard_SystemCount ;;
  s <- (if negb (count_clipboard s =? -1)
           && (n_clipboard >? add64 (count_clipboard s) 1)
           && owned_clipboard s
        then
          let s := set_clipboard_state (count_clipboard s) false s in
          call (haiku_selection_disowned CLIPBOARD_CLIPBOARD n_clipboard) ;;
          Ret s
        else Ret s) ;;
  s <- (if negb (count_primary s =? -1)
           && (n_primary >? add64 (count_primary s) 1)
           && owned_primary s
        then
          let s := set_primary_state (count_primary s) false s in
          call (haiku_selection_disowned CLIPBOARD_PRIMARY n_primary) ;;
          Ret s
        else Ret s) ;;
  (if negb (count_secondary s =? -1)
      && (n_secondary >? add64 (count_secondary s) 1)
      && owned_secondary s
   then
     let s := set_secondary_state (count_secondary s) false s in
     call (haiku_selection_disowned CLIPBOARD_SECONDARY n_secondary) ;;
     Ret s
   else Ret s).

Definition be_start_watching_selection (id : haiku_clipboard) (s : statics)
  : Prog unit :=
  let clipboard := get_clipboard_object id s in
  through clipboard BClipboard_StartWatching ;;
  Ret tt.

Definition be_selection_outdated_p (id : haiku_clipboard) (count : Z)
  (s : statics) : bool :=
  if haiku_clipboard_eqb id CLIPBOARD_CLIPBOARD && (count_clipboard s >? count)
  then true
  else if haiku_clipboard_eqb id CLIPBOARD_PRIMARY && (count_primary s >? count)
  then true
  else if haiku_clipboard_eqb id CLIPBOARD_SECONDARY
          && (count_secondary s >? count)
  then true
  else false.

Definition be_get_clipboard_count (id : haiku_clipboard) (s : statics)
  : Prog Z :=
  let clipboard := get_clipboard_object id s in
  through clipboard BClipboard_SystemCount.

(** ** C++ notifications support *)

Definition type_for_type (type : Z) : Prog notification_type :=
  match type with
  | 0 => Ret B_INFORMATION_NOTIFICATION
  | 1 => Ret B_IMPORTANT_NOTIFICATION
  | 2 => Ret B_ERROR_NOTIFICATION
  | _ => Halt abort_called
  end.

Definition my_team_id : Prog Z :=
  id <- call find_thread ;;
  '(_, info_team) <- call (get_thread_info id) ;;
  Ret info_team.

(** The text [printf] produces for a [%d] or [%jd] conversion. *)
Definition decimal (z : Z) : string := NilZero.string_of_int (Z.to_int z).

(** [icon] is [None] when the caller passes [NULL]. *)
Definition be_display_notification (title body : string) (supersedes : Z)
  (type : Z) (icon : option string) (s : statics) : Prog (Z * statics) :=
  ty <- type_for_type type ;;
  call (BNotification_new ty) ;;
  let '(id, s) :=
    if supersedes <? 0 then
      let s := set_last_notification_id
                 (fst (ckd_add (last_notification_id s) 1)) s in
      (last_notification_id s, s)
    else (supersedes, s) in
  call (BNotification_SetTitle title) ;;
  call (BNotification_SetContent body) ;;
  team <- my_team_id ;;
  let buffer := (decimal team ++ "." ++ decimal id)%string in
  call (BNotification_SetMessageID buffer) ;;
  match icon with
  | Some file =>
      bitmap <- call (BTranslationUtils_GetBitmap file) ;;
      if negb (is_null bitmap) then
        call (BNotification_SetIcon bitmap) ;;
        call (delete_BBitmap bitmap)
      else Ret tt
  | None => Ret tt
  end ;;
  call BNotification_Send ;;
  Ret (id, s).

End Wrappers.

(** ** Which clipboard a program touches *)

(** The clipboard object a host call is made on, for the [BClipboard]
    methods. *)
Definition call_target {X : Type} (c : host_call X) : option BClipboard :=
  match c with
  | BClipboard_Lock cb | BClipboard_Unlock cb | BClipboard_Clear cb
  | BClipboard_Data cb | BClipboard_Commit cb | BClipboard_Revert cb
  | BClipboard_SystemCount cb | BClipboard_StartWatching cb => Some cb
  | _ => None
  end.

(** Every host call [p] can make, under any replies, satisfies [Q]. *)
Fixpoint all_calls {R : Type} (Q : forall X, host_call X -> Prop)
  (p : Prog R) : Prop :=
  match p with
  | Ret _ | Halt _ => True
  | Call c k => Q _ c /\ forall x, all_calls Q (k x)
  end.

(** If [c] is a [BClipboard] method call, it is made on the object [cb]
    points to. *)
Definition on_clipboard (cb : BClipboard_ptr) (X : Type) (c : host_call X)
  : Prop :=
  forall o, call_target c = Some o -> cb = Some o.

Definition only_on {R : Type} (cb : BClipboard_ptr) (p : Prog R) : Prop :=
  all_calls (on_clipboard cb) p.

Definition is_disown {X : Type} (c : host_call X) : bool :=
  match c with
  | haiku_selection_disowned _ _ => true
  | _ => false
  end.

(** [c] is not a call of [haiku_selection_disowned]. *)
Definition not_disown (X : Type) (c : host_call X) : Prop :=
  is_disown c = false.

(** ** Observing a trace *)

Definition BClipboard_eqb (a b : BClipboard) : bool :=
  match a, b with
  | new_BClipboard x, new_BClipboard y => String.eqb x y
  end.

(** The clipboard object the call of an event is made on. *)
Definition clipboard_target (e : event) : option BClipboard :=
  match e with
  | Event c _ => call_target c
  end.

(** The system count the host reported for [cb], when [e] is such a
    report. *)
Definition count_reply (cb : BClipboard) (e : event) : option Z :=
  match e with
  | Event c x =>
      match c in host_call X return X -> option Z with
      | BClipboard_SystemCount cb' =>
          fun n => if BClipboard_eqb cb cb' then Some n else None
      | _ => fun _ => None
      end x
  end.

Fixpoint count_replies (cb : BClipboard) (tr : list event) : list Z :=
  match tr with
  | [] => []
  | e :: tr' =>
      match count_reply cb e with
      | Some n => n :: count_replies cb tr'
      | None => count_replies cb tr'
      end
  end.

(** The calls of [haiku_selection_disowned] in a trace, in order. *)
Fixpoint disowned (tr : list event) : list (haiku_clipboard * Z) :=
  match tr with
  | [] => []
  | Event c _ :: tr' =>
      match c with
      | haiku_selection_disowned id n => (id, n) :: disowned tr'
      | _ => disowned tr'
      end
  end.

(** The status a host call came back with, for the calls that have one. *)
Definition status_of (e : event) : option status_t :=
  match e with
  | Event c x =>
      match c in host_call X return X -> option status_t with
      | BClipboard_Clear _ | BClipboard_Commit _ | BClipboard_Revert _
      | BClipboard_StartWatching _
      | BMessage_ReplaceData _ _ _ _ _ | BMessage_AddData _ _ _ _ _
      | BMessage_RemoveName _ _ | BMessage_AddRef _ _ _
      | BMessage_AddPoint _ _ _ | BMessage_AddMessage _ _ _
      | BMessage_FindMessage _ _ _ _
      | BEntry_InitCheck _ | BNotification_SetIcon _ | BNotification_Send =>
          fun rc => Some rc
      | BMessage_FindData _ _ _ | BMessage_FindData_at _ _ _ _ =>
          fun r => Some (fst (fst r))
      | BMessage_GetInfo _ _ _ => fun r => Some (fst (fst (fst r)))
      | BMessage_FindRef _ _ _ | BMessage_FindPoint _ _ _ | BEntry_GetRef _
      | BEntry_SetTo _ _ | BEntry_GetPath _ | get_thread_info _ =>
          fun r => Some (fst r)
      | _ => fun _ => None
      end x
  end.

Fixpoint statuses (tr : list event) : list status_t :=
  match tr with
  | [] => []
  | e :: tr' =>
      match status_of e with
      | Some rc => rc :: statuses tr'
      | None => statuses tr'
      end
  end.

Fixpoint nondecreasing (l : list Z) : Prop :=
  match l with
  | [] => True
  | x :: l' => (forall y, In y l' -> x <= y) /\ nondecreasing l'
  end.

(** ** Sequences of calls into the file *)

Inductive api_call : Type :=
| call_clipboard_init
| call_update_clipboard_count (id : haiku_clipboard)
| call_find_clipboard_data (id : haiku_clipboard) (type : string)
    (len : option (cell Z))
| call_set_clipboard_data (id : haiku_clipboard) (type : string)
    (data : pointer) (len : Z) (clear : bool)
| call_clipboard_owner_p (id : haiku_clipboard)
| call_lock_clipboard_message (id : haiku_clipboard)
    (message_return : cell pointer) (clear : bool)
| call_unlock_clipboard (id : haiku_clipboard) (discard : bool)
| call_handle_clipboard_changed_message
| call_start_watching_selection (id : haiku_clipboard)
| call_selection_outdated_p (id : haiku_clipboard) (count : Z)
| call_get_clipboard_count (id : haiku_clipboard)
| call_display_notification (title body : string) (supersedes : Z)
    (type : Z) (icon : option string)
| call_enum_message (message : pointer) (tc : cell Z) (index : Z)
    (count : cell Z) (name_return : cell pointer)
| call_get_refs_data (message : pointer) (name : string) (index : Z)
    (path_buffer : cell pointer)
| call_get_point_data (message : pointer) (name : string) (index : Z)
    (x y : cell float)
| call_get_message_data (message : pointer) (name : string)
    (type_code : type_code) (index : Z) (buf_return : cell pointer)
    (size_return : cell Z)
| call_get_message_type (message : pointer)
| call_set_message_type (message : pointer) (what : Z)
| call_get_message_message (message : pointer) (name : string) (index : Z)
| call_create_simple_message
| call_add_message_data (message : pointer) (name : string)
    (type_code : type_code) (buf : pointer) (buf_size : Z)
| call_add_refs_data (message : pointer) (name filename : string)
| call_add_point_data (message : pointer) (name : string) (x y : float)
| call_add_message_message (message : pointer) (name : string)
    (data : pointer).

(** The clipboard identifier a call takes, if it takes one. *)
Definition api_clipboard (a : api_call) : option haiku_clipboard :=
  match a with
  | call_update_clipboard_count id
  | call_find_clipboard_data id _ _
  | call_set_clipboard_data id _ _ _ _
  | call_clipboard_owner_p id
  | call_lock_clipboard_message id _ _
  | call_unlock_clipboard id _
  | call_start_watching_selection id
  | call_selection_outdated_p id _
  | call_get_clipboard_count id => Some id
  | _ => None
  end.

(** Whether a call is [be_update_clipboard_count] or
    [be_set_clipboard_data] for [id]. *)
Definition updates_count (id : haiku_clipboard) (a : api_call) : bool :=
  match a with
  | call_update_clipboard_count id'
  | call_set_clipboard_data id' _ _ _ _ => haiku_clipboard_eqb id id'
  | _ => false
  end.

Section Sessions.

Context {host : HostConstants}.

(** One call of a function of the file, keeping only what it does to the
    static variables. *)
Definition api_prog (a : api_call) (s : statics) : Prog statics :=
  match a with
  | call_clipboard_init => Ret (be_clipboard_init s)
  | call_update_clipboard_count id => be_update_clipboard_count id s
  | call_find_clipboard_data id type len =>
      be_find_clipboard_data id type len s ;; Ret s
  | call_set_clipboard_data id type data len clear =>
      be_set_clipboard_data id type data len clear s
  | call_clipboard_owner_p id => be_clipboard_owner_p id s ;; Ret s
  | call_lock_clipboard_message id message_return clear =>
      be_lock_clipboard_message id message_return clear s ;; Ret s
  | call_unlock_clipboard id discard =>
      be_unlock_clipboard id discard s ;; Ret s
  | call_handle_clipboard_changed_message =>
      be_handle_clipboard_changed_message s
  | call_start_watching_selection id =>
      be_start_watching_selection id s ;; Ret s
  | call_selection_outdated_p id count =>
      let _ := be_selection_outdated_p id count s in Ret s
  | call_get_clipboard_count id => be_get_clipboard_count id s ;; Ret s
  | call_display_notification title body supersedes type icon =>
      '(_, s') <- be_display_notification title body supersedes type icon s ;;
      Ret s'
  | call_enum_message message tc index count name_return =>
      be_enum_message message tc index count name_return ;; Ret s
  | call_get_refs_data message name index path_buffer =>
      be_get_refs_data message name index path_buffer ;; Ret s
  | call_get_point_data message name index x y =>
      be_get_point_data message name index x y ;; Ret s
  | call_get_message_data message name type_code index buf_return
      size_return =>
      be_get_message_data message name type_code index buf_return
        size_return ;; Ret s
  | call_get_message_type message => be_get_message_type message ;; Ret s
  | call_set_message_type message what =>
      be_set_message_type message what ;; Ret s
  | call_get_message_message message name index =>
      be_get_message_message message name index ;; Ret s
  | call_create_simple_message => be_create_simple_message ;; Ret s
  | call_add_message_data message name type_code buf buf_size =>
      be_add_message_data message name type_code buf buf_size ;; Ret s
  | call_add_refs_data message name filename =>
      be_add_refs_data message name filename ;; Ret s
  | call_add_point_data message name x y =>
      be_add_point_data message name x y ;; Ret s
  | call_add_message_message message name data =>
      be_add_message_message message name data ;; Ret s
  end.

Fixpoint session (calls : list api_call) (s : statics) : Prog statics :=
  match calls with
  | [] => Ret s
  | a :: rest => s' <- api_prog a s ;; session rest s'
  end.

End Sessions.

(** The values of the host constants in Haiku's Errors.h, TypeConstants.h
    and AppDefs.h, for running the wrappers on concrete inputs. *)
Definition haiku_constants : HostConstants :=
  {| B_OK := 0;
     B_NAME_NOT_FOUND := -2147483648 + 7;
     B_MIME_TYPE := 0x4d494d45;
     B_ANY_TYPE := 0x414e5954;
     B_SIMPLE_DATA := 0x44415441 |}.

(** A reply every host call accepts. *)
Definition some_reply {X : Type} (c : host_call X) : X :=
  match c in host_call X return X with
  | BClipboard_Lock _ => true
  | BClipboard_Unlock _ | memcpy _ _ _ | BNotification_new _
  | BNotification_SetTitle _ | BNotification_SetContent _
  | BNotification_SetMessageID _ | delete_BBitmap _
  | BMessage_set_what _ _ | delete_BMessage _
  | haiku_selection_disowned _ _ => tt
  | BClipboard_Clear _ | BClipboard_Commit _ | BClipboard_Revert _
  | BClipboard_StartWatching _ | BMessage_ReplaceData _ _ _ _ _
  | BMessage_AddData _ _ _ _ _ | BMessage_RemoveName _ _
  | BMessage_AddRef _ _ _ | BMessage_AddPoint _ _ _
  | BMessage_AddMessage _ _ _ | BMessage_FindMessage _ _ _ _
  | BEntry_InitCheck _
  | BNotification_SetIcon _ | BNotification_Send => 0
  | BClipboard_Data _ | BPath_Path _ | strdup _ | malloc _
  | BMessage_new_nothrow | BMessage_new _
  | BTranslationUtils_GetBitmap _ => NULL
  | BClipboard_SystemCount _ | BMessage_what _ | find_thread => 0
  | BMessage_FindData _ _ _ => (0, NULL, 0)
  | BMessage_FindData_at _ _ _ _ => (0, None, None)
  | BMessage_GetInfo _ _ _ => (0, NULL, 0, None)
  | BMessage_FindRef _ _ _ | BEntry_GetRef _ => (0, mk_entry_ref 0)
  | BMessage_FindPoint _ _ _ => (0, mkBPoint 0 0)
  | BEntry_new _ => mk_BEntry 0
  | BEntry_SetTo _ _ => (0, mk_BEntry 0)
  | BEntry_GetPath _ => (0, mk_BPath 0)
  | get_thread_info _ => (0, 0)
  end.

(** ** Disowning *)

Definition disown_event (d : haiku_clipboard * Z) : event :=
  Event (haiku_selection_disowned (fst d) (snd d)) tt.

(** The selection [id] has been taken over by somebody else: the file
    recorded a count for it, thinks it owns it, and the system count [n]
    is more than one change ahead of the recorded one. *)
Definition lost (id : haiku_clipboard) (s : statics) (n : Z) : Prop :=
  stored_count id s <> -1 /\ owned_flag id s = true
  /\ n > stored_count id s + 1.

(** ** Shape of a clipboard write *)

Section WriteShape.

Context {host : HostConstants}.

(** The calls made for the [clear] argument: [Clear] when it is set,
    nothing otherwise. *)
Definition clear_part (cb : BClipboard) (clear : bool) (tr : list event)
  : Prop :=
  if clear then exists rc, tr = [Event (BClipboard_Clear cb) rc]
  else tr = [].

(** The calls that edit the message [m]: with data, [ReplaceData]
    followed by [AddData] exactly when [ReplaceData] answered
    [B_NAME_NOT_FOUND]; without data, [RemoveName]. *)
Definition edit_part (m : pointer) (type : string) (data : pointer) (len : Z)
  (tr : list event) : Prop :=
  if is_null data then
    exists rc, tr = [Event (BMessage_RemoveName m type) rc]
  else
    exists rc,
      (rc <> B_NAME_NOT_FOUND /\
       tr = [Event (BMessage_ReplaceData m type B_MIME_TYPE data len) rc])
      \/ (rc = B_NAME_NOT_FOUND /\
          exists rc',
            tr = [Event (BMessage_ReplaceData m type B_MIME_TYPE data len) rc;
                  Event (BMessage_AddData m type B_MIME_TYPE data len) rc']).

(** The three ways a write on [cb] can go. *)
Inductive write_run (cb : BClipboard) (type : string) (data : pointer)
  (len : Z) (clear : bool) : list event -> Prop :=
| write_not_locked :
    write_run cb type data len clear [Event (BClipboard_Lock cb) false]
| write_no_message (pre : list event) :
    clear_part cb clear pre ->
    write_run cb type data len clear
      (Event (BClipboard_Lock cb) true
         :: pre ++ [Event (BClipboard_Data cb) NULL;
                    Event (BClipboard_Unlock cb) tt])
| write_done (pre edit : list event) (m : pointer) (rc : status_t) :
    m <> NULL ->
    clear_part cb clear pre ->
    edit_part m type data len edit ->
    write_run cb type data len clear
      (Event (BClipboard_Lock cb) true
         :: pre ++ Event (BClipboard_Data cb) m
         :: edit ++ [Event (BClipboard_Commit cb) rc;
                     Event (BClipboard_Unlock cb) tt]).

End WriteShape.

(** Calls that edit a clipboard's message or commit it. *)
Definition is_write (e : event) : bool :=
  match e with
  | Event c _ =>
      match c with
      | BClipboard_Commit _
      | BMessage_ReplaceData _ _ _ _ _ | BMessage_AddData _ _ _ _ _
      | BMessage_RemoveName _ _ => true
      | _ => false
      end
  end.

(** The static variables after [be_update_clipboard_count (id)] has read
    the system count [n]. *)
Definition record_count (id : haiku_clipboard) (n : Z) (s : statics)
  : statics :=
  match id with
  | CLIPBOARD_CLIPBOARD => set_clipboard_state n true s
  | CLIPBOARD_PRIMARY => set_primary_state n true s
  | CLIPBOARD_SECONDARY => set_secondary_state n true s
  end.

(** ** After initialisation *)

(** The clipboard [be_clipboard_init] creates for [id]. *)
Definition clipboard_named (id : haiku_clipboard) : BClipboard :=
  match id with
  | CLIPBOARD_PRIMARY => new_BClipboard "primary"
  | CLIPBOARD_SECONDARY => new_BClipboard "secondary"
  | CLIPBOARD_CLIPBOARD => new_BClipboard "system"
  end.

(** [be_clipboard_init] has run. *)
Definition initialised (s : statics) : Prop :=
  forall id, get_clipboard_object id s = Some (clipboard_named id).

(** The state in which the first call after [be_clipboard_init] is made. *)
Definition statics_after_init : statics :=
  be_clipboard_init statics_at_startup.

(** What a call that went from [s] to [s'] with trace [tr] did to the
    counter and the flag of [id].  A call that records a count for [id]
    starts by reading it and leaves it in the counter, with the flag
    set; any other call keeps the counter, does not raise the flag, and
    disowns [id] only if it had a recorded count and the flag set. *)
Definition effect_on (id : haiku_clipboard) (records : bool)
  (s s' : statics) (tr : list event) : Prop :=
  if records then
    exists n rest,
      in_uint32 n
      /\ tr = Event (BClipboard_SystemCount (clipboard_named id)) n :: rest
      /\ stored_count id s' = n /\ owned_flag id s' = true
  else
    stored_count id s' = stored_count id s
    /\ (owned_flag id s' = true -> owned_flag id s = true)
    /\ (forall m, In (id, m) (disowned tr) ->
                  stored_count id s <> -1 /\ owned_flag id s = true).

(** Whether a call is [be_display_notification] asked to allocate a new
    identifier. *)
Definition allocates_id (a : api_call) : bool :=
  match a with
  | call_display_notification _ _ supersedes _ _ => supersedes <? 0
  | _ => false
  end.

(** ** The [int] convention of the message accessors *)

Section Convention.

Context {host : HostConstants}.

(** Every host call of the trace that reports a status reported [B_OK]. *)
Definition all_ok (tr : list event) : bool :=
  forallb (fun rc => rc =? B_OK) (statuses tr).

(** [r] is the translation of the statuses of [tr]: 0 when all are
    [B_OK], 1 otherwise. *)
Definition translated (r : Z) (tr : list event) : Prop :=
  (all_ok tr = true /\ r = 0) \/ (all_ok tr = false /\ r = 1).

End Convention.

(** ** Concrete inputs

    States and clipboards on which the properties below are
    exercised. *)

Definition system_cb : BClipboard := clipboard_named CLIPBOARD_CLIPBOARD.
Definition primary_cb : BClipboard := clipboard_named CLIPBOARD_PRIMARY.
Definition secondary_cb : BClipboard := clipboard_named CLIPBOARD_SECONDARY.

(** After initialisation and a [be_update_clipboard_count
    (CLIPBOARD_PRIMARY)] that read the count 41. *)
Definition primary_recorded : statics :=
  record_count CLIPBOARD_PRIMARY 41 statics_after_init.

(** The host reports 43 for the primary selection, two changes after
    the recorded 41: somebody else has taken it. *)
Definition primary_taken_trace : list event :=
  [Event (BClipboard_SystemCount system_cb) 0;
   Event (BClipboard_SystemCount primary_cb) 43;
   Event (BClipboard_SystemCount secondary_cb) 0;
   Event (haiku_selection_disowned CLIPBOARD_PRIMARY 43) tt].

(** A write to the system clipboard that finds no entry to replace. *)
Definition add_text_trace : list event :=
  [Event (BClipboard_SystemCount system_cb) 7;
   Event (BClipboard_Lock system_cb) true;
   Event (BClipboard_Clear system_cb) 0;
   Event (BClipboard_Data system_cb) 4096;
   Event (BMessage_ReplaceData 4096 "text/plain" 1296649541 8192 5)
         (-2147483641);
   Event (BMessage_AddData 4096 "text/plain" 1296649541 8192 5) 0;
   Event (BClipboard_Commit system_cb) 0;
   Event (BClipboard_Unlock system_cb) tt].

(** A first notification, sent by team 77. *)
Definition first_notification_trace : list event :=
  [Event (BNotification_new B_INFORMATION_NOTIFICATION) tt;
   Event (BNotification_SetTitle "title") tt;
   Event (BNotification_SetContent "body") tt;
   Event find_thread 12;
   Event (get_thread_info 12) (0, 77);
   Event (BNotification_SetMessageID "77.1") tt;
   Event BNotification_Send 0].

Definition second_notification_trace : list event :=
  [Event (BNotification_new B_ERROR_NOTIFICATION) tt;
   Event (BNotification_SetTitle "again") tt;
   Event (BNotification_SetContent "body") tt;
   Event find_thread 12;
   Event (get_thread_info 12) (0, 77);
   Event (BNotification_SetMessageID "77.2") tt;
   Event BNotification_Send 0].

(** A run of calls that never records a count for the primary
    selection, with the host's replies. *)
Definition calls_without_primary : list api_call :=
  [call_handle_clipboard_changed_message;
   call_update_clipboard_count CLIPBOARD_SECONDARY;
   call_get_clipboard_count CLIPBOARD_PRIMARY].

Definition trace_without_primary : list event :=
  [Event (BClipboard_SystemCount system_cb) 3;
   Event (BClipboard_SystemCount primary_cb) 8;
   Event (BClipboard_SystemCount secondary_cb) 2;
   Event (BClipboard_SystemCount secondary_cb) 2;
   Event (BClipboard_SystemCount primary_cb) 9].

(** ** The locking protocol

    [BClipboard::Data], [Clear], [Commit] and [Revert] are for the holder
    of the clipboard's lock, and the message [Data] hands out belongs to
    the clipboard: reading or editing it, or copying out of it, is for
    the holder too. *)

(** The lock state after the event [e] when it was [held] before, or
    [None] when [e] breaks the protocol: locking twice, unlocking without
    holding the lock, or touching the clipboard's data without it. *)
Definition lock_step (held : bool) (e : event) : option bool :=
  match e with
  | Event c x =>
      match c in host_call X return X -> option bool with
      | BClipboard_Lock _ => fun locked => if held then None else Some locked
      | BClipboard_Unlock _ => fun _ => if held then Some false else None
      | BClipboard_Clear _ | BClipboard_Data _ | BClipboard_Commit _
      | BClipboard_Revert _
      | BMessage_FindData _ _ _ | BMessage_ReplaceData _ _ _ _ _
      | BMessage_AddData _ _ _ _ _ | BMessage_RemoveName _ _
      | memcpy _ _ _ =>
          fun _ => if held then Some true else None
      | _ => fun _ => Some held
      end x
  end.

Fixpoint lock_protocol (held : bool) (tr : list event) : option bool :=
  match tr with
  | [] => Some held
  | e :: tr' =>
      match lock_step held e with
      | Some held' => lock_protocol held' tr'
      | None => None
      end
  end.
(** Reading the text entry of the system clipboard. *)
Definition read_text_trace : list event :=
  [Event (BClipboard_Lock system_cb) true;
   Event (BClipboard_Data system_cb) 4096;
   Event (BMessage_FindData 4096 "text/plain" 1296649541) (0, 12288, 5);
   Event (malloc 5) 16384;
   Event (memcpy 16384 12288 5) tt;
   Event (BClipboard_Unlock system_cb) tt].

(** ** Allocation *)

Definition as_malloc (e : event) : option (Z * pointer) :=
  match e with
  | Event c x =>
      match c in host_call X return X -> option (Z * pointer) with
      | malloc size => fun block => Some (size, block)
      | _ => fun _ => None
      end x
  end.

Definition as_memcpy (e : event) : option (pointer * pointer * Z) :=
  match e with
  | Event c _ =>
      match c with
      | memcpy dst src size => Some (dst, src, size)
      | _ => None
      end
  end.

(** Every [malloc] of the trace is directly followed by a [memcpy] of
    the requested size into the block [malloc] returned, whether or not
    that block is [NULL]. *)
Fixpoint copies_into_every_block (tr : list event) : bool :=
  match tr with
  | [] => true
  | e :: tr' =>
      match as_malloc e with
      | Some (size, block) =>
          match tr' with
          | e' :: _ =>
              match as_memcpy e' with
              | Some (dst, _, size') => (dst =? block) && (size' =? size)
              | None => false
              end
          | [] => false
          end
      | None => true
      end && copies_into_every_block tr'
  end.

(** The messages [delete] is called on, in order. *)
Fixpoint deleted_messages (tr : list event) : list pointer :=
  match tr with
  | [] => []
  | Event c _ :: tr' =>
      match c with
      | delete_BMessage msg => msg :: deleted_messages tr'
      | _ => deleted_messages tr'
      end
  end.

(** The messages [new] returned, in order. *)
Fixpoint new_messages (tr : list event) : list pointer :=
  match tr with
  | [] => []
  | Event c x :: tr' =>
      match c in host_call X return X -> list pointer with
      | BMessage_new_nothrow | BMessage_new _ =>
          fun msg => msg :: new_messages tr'
      | _ => fun _ => new_messages tr'
      end x
  end.

(** ** Files in messages *)

(** The strings [strdup] returned, in order. *)
Fixpoint duplicated (tr : list event) : list pointer :=
  match tr with
  | [] => []
  | Event c x :: tr' =>
      match c in host_call X return X -> list pointer with
      | strdup _ => fun copy => copy :: duplicated tr'
      | _ => fun _ => duplicated tr'
      end x
  end.

(** Method calls on a [BMessage]. *)
Definition touches_message (e : event) : bool :=
  match e with
  | Event c _ =>
      match c with
      | BMessage_FindData _ _ _ | BMessage_FindData_at _ _ _ _
      | BMessage_ReplaceData _ _ _ _ _ | BMessage_AddData _ _ _ _ _
      | BMessage_RemoveName _ _ | BMessage_GetInfo _ _ _
      | BMessage_FindRef _ _ _ | BMessage_FindPoint _ _ _
      | BMessage_AddRef _ _ _ | BMessage_AddPoint _ _ _
      | BMessage_AddMessage _ _ _ | BMessage_FindMessage _ _ _ _
      | BMessage_what _ | BMessage_set_what _ _ => true
      | _ => false
      end
  end.

(** The counts [haiku_selection_disowned] was called with for [id]. *)
Definition disowned_of (id : haiku_clipboard) (tr : list event)
  : list (haiku_clipboard * Z) :=
  filter (fun d => haiku_clipboard_eqb (fst d) id) (disowned tr).

(** ** The bookkeeping invariant *)

(** The clipboards are set up; every stored counter is -1 or a count in
    the range of [uint32]; and a selection thought to be owned has a
    recorded count. *)
Definition bookkeeping_ok (s : statics) : Prop :=
  initialised s
  /\ forall id,
      (stored_count id s = -1 \/ in_uint32 (stored_count id s))
      /\ (owned_flag id s = true -> in_uint32 (stored_count id s)).

(** ** Notification identifiers *)

(** The identifiers handed to [SetMessageID], in order. *)
Fixpoint message_ids (tr : list event) : list string :=
  match tr with
  | [] => []
  | Event c _ :: tr' =>
      match c with
      | BNotification_SetMessageID id => id :: message_ids tr'
      | _ => message_ids tr'
      end
  end.

(** The team [get_thread_info] reported, per call. *)
Fixpoint teams (tr : list event) : list Z :=
  match tr with
  | [] => []
  | Event c x :: tr' =>
      match c in host_call X return X -> list Z with
      | get_thread_info _ => fun r => snd r :: teams tr'
      | _ => fun _ => teams tr'
      end x
  end.

(** The urgency a notification is created with. *)
Definition urgency_of (type : Z) : option notification_type :=
  if type =? 0 then Some B_INFORMATION_NOTIFICATION
  else if type =? 1 then Some B_IMPORTANT_NOTIFICATION
  else if type =? 2 then Some B_ERROR_NOTIFICATION
  else None.

(** The character that separates team and identifier. *)
Definition dot : Ascii.ascii :=
  match "."%string with
  | String a _ => a
  | EmptyString => Ascii.zero
  end.

Fixpoint has_dot (s : string) : bool :=
  match s with
  | EmptyString => false
  | String a s' => Ascii.eqb a dot || has_dot s'
  end.

(** ** Calls that change a clipboard *)

Definition is_modification {X : Type} (c : host_call X) : bool :=
  match c with
  | BClipboard_Clear _ | BClipboard_Commit _ | BClipboard_Revert _
  | BMessage_ReplaceData _ _ _ _ _ | BMessage_AddData _ _ _ _ _
  | BMessage_RemoveName _ _ => true
  | _ => false
  end.

Definition not_modification (X : Type) (c : host_call X) : Prop :=
  is_modification c = false.

Definition modifies (e : event) : bool :=
  match e with
  | Event c _ => is_modification c
  end.

(** ** More concrete runs *)

(** Handing out the message of the primary selection, cleared first. *)
Definition lock_primary_trace : list event :=
  [Event (BClipboard_Lock primary_cb) true;
   Event (BClipboard_Clear primary_cb) 0;
   Event (BClipboard_Data primary_cb) 4096].

Definition discard_primary_trace : list event :=
  [Event (BClipboard_Revert primary_cb) 0;
   Event (BClipboard_Unlock primary_cb) tt].

(** Fetching a nested message that is not there. *)
Definition missing_message_trace : list event :=
  [Event BMessage_new_nothrow 20480;
   Event (BMessage_FindMessage 4096 "be:originator" 0 20480) (-2147483641);
   Event (delete_BMessage 20480) tt].

(** Fetching the path of the first ref of a message. *)
Definition refs_path_trace : list event :=
  [Event (BMessage_FindRef 4096 "refs" 0) (0, mk_entry_ref 1);
   Event (BEntry_SetTo (mk_entry_ref 1) false) (0, mk_BEntry 2);
   Event (BEntry_GetPath (mk_BEntry 2)) (0, mk_BPath 3);
   Event (BPath_Path (mk_BPath 3)) 24576;
   Event (strdup 24576) 28672].

(** Adding a file that does not exist. *)
Definition missing_file_trace : list event :=
  [Event (BEntry_new "/nonexistent") (mk_BEntry 2);
   Event (BEntry_InitCheck (mk_BEntry 2)) (-2147459069)].

(** Two change notifications after the count 41 was recorded for the
    primary selection: the first finds the count at 43, the second at
    44. *)
Definition two_notifications : list api_call :=
  [call_handle_clipboard_changed_message;
   call_handle_clipboard_changed_message].

Definition two_notifications_trace : list event :=
  [Event (BClipboard_SystemCount system_cb) 0;
   Event (BClipboard_SystemCount primary_cb) 43;
   Event (BClipboard_SystemCount secondary_cb) 0;
   Event (haiku_selection_disowned CLIPBOARD_PRIMARY 43) tt;
   Event (BClipboard_SystemCount system_cb) 0;
   Event (BClipboard_SystemCount primary_cb) 44;
   Event (BClipboard_SystemCount secondary_cb) 0].

Definition primary_disowned : statics :=
  set_primary_state 41 false primary_recorded.

(** * Properties *)

(** ** Integer facts *)

Lemma wrap64_id (z : Z) : in_int64 z -> wrap64 z = z.
Proof.
  unfold in_int64, int64_min, int64_max, wrap64; intros Hz.
  rewrite Z.mod_small; lia.
Qed.

Lemma wrap64_range (z : Z) : in_int64 (wrap64 z).
Proof.
  unfold in_int64, int64_min, int64_max, wrap64.
  pose proof (Z.mod_pos_bound (z + 2 ^ 63) (2 ^ 64) ltac:(lia)); lia.
Qed.

Lemma add64_succ (c : Z) : int64_min <= c < int64_max -> add64 c 1 = c + 1.
Proof.
  unfold add64; intros Hc; apply wrap64_id.
  unfold in_int64, int64_min, int64_max in *; lia.
Qed.

Lemma add64_max : add64 int64_max 1 = int64_min.
Proof. reflexivity. Qed.

(** Adding one to a 64-bit counter and comparing with a [uint32] gives
    the mathematical answer, even at the top of the range. *)
Lemma add64_succ_eqb_uint32 (c n : Z) :
  in_int64 c -> in_uint32 n -> (add64 c 1 =? n) = (c + 1 =? n).
Proof.
  intros Hc Hn.
  destruct (Z.eq_dec c int64_max) as [-> | Hne].
  - rewrite add64_max.
    unfold in_uint32, uint32_max, int64_min, int64_max in *.
    destruct (Z.eqb_spec (- 2 ^ 63) n), (Z.eqb_spec (2 ^ 63 - 1 + 1) n);
      try reflexivity; lia.
  - rewrite add64_succ; [reflexivity|].
    unfold in_int64 in Hc; lia.
Qed.

Lemma to_uint32_range (z : Z) : in_uint32 (to_uint32 z).
Proof.
  unfold in_uint32, uint32_max, to_uint32.
  pose proof (Z.mod_pos_bound z (2 ^ 32) ltac:(lia)); lia.
Qed.

Lemma to_int32_range (z : Z) : in_int32 (to_int32 z).
Proof.
  unfold in_int32, to_int32.
  pose proof (Z.mod_pos_bound (z + 2 ^ 31) (2 ^ 32) ltac:(lia)); lia.
Qed.

(** A type code that is not negative goes to the host as it is. *)
Lemma to_uint32_id (z : Z) : in_uint32 z -> to_uint32 z = z.
Proof.
  unfold in_uint32, uint32_max, to_uint32; intros Hz.
  apply Z.mod_small; lia.
Qed.

(** A negative one goes as its two's complement. *)
Lemma to_uint32_negative (z : Z) :
  - 2 ^ 31 <= z < 0 -> to_uint32 z = z + 2 ^ 32.
Proof.
  unfold to_uint32; intros Hz.
  rewrite <- (Z.mod_small (z + 2 ^ 32) (2 ^ 32)) by lia.
  replace (z + 2 ^ 32) with (z + 1 * 2 ^ 32) by lia.
  rewrite Z.mod_add by lia; reflexivity.
Qed.

(** The two conversions undo each other: the type code [be_enum_message]
    stores is the one [be_get_message_data] hands back to the host. *)
Lemma to_uint32_to_int32 (z : Z) : in_uint32 z -> to_uint32 (to_int32 z) = z.
Proof.
  unfold in_uint32, uint32_max, to_uint32, to_int32; intros Hz.
  destruct (Z_lt_le_dec z (2 ^ 31)) as [Hlow | Hhigh].
  - rewrite (Z.mod_small (z + 2 ^ 31)) by lia.
    replace (z + 2 ^ 31 - 2 ^ 31) with z by lia.
    apply Z.mod_small; lia.
  - replace (z + 2 ^ 31) with (z - 2 ^ 31 + 1 * 2 ^ 32) by lia.
    rewrite Z.mod_add by lia.
    rewrite (Z.mod_small (z - 2 ^ 31)) by lia.
    replace (z - 2 ^ 31 - 2 ^ 31) with (z + (-1) * 2 ^ 32) by lia.
    rewrite Z.mod_add by lia.
    apply Z.mod_small; lia.
Qed.

Lemma to_int32_to_uint32 (z : Z) : in_int32 z -> to_int32 (to_uint32 z) = z.
Proof.
  unfold in_int32, to_uint32, to_int32; intros Hz.
  rewrite Zplus_mod_idemp_l.
  rewrite Z.mod_small; lia.
Qed.

(** ** Clipboard identifiers *)

Lemma haiku_clipboard_eqb_eq (a b : haiku_clipboard) :
  haiku_clipboard_eqb a b = true <-> a = b.
Proof. destruct a, b; simpl; split; congruence. Qed.

Lemma BClipboard_eqb_refl (cb : BClipboard) : BClipboard_eqb cb cb = true.
Proof. destruct cb; simpl; apply String.eqb_refl. Qed.

Lemma BClipboard_eqb_eq (a b : BClipboard) :
  BClipboard_eqb a b = true <-> a = b.
Proof.
  destruct a as [x], b as [y]; simpl; rewrite String.eqb_eq.
  split; congruence.
Qed.

(** ** Runs *)

Lemma some_reply_ok {X : Type} (c : host_call X) : reply_ok c (some_reply c).
Proof.
  destruct c; simpl; try exact I.
  unfold in_uint32, uint32_max; lia.
Qed.

(** Running against a host whose answers are in range is a run. *)
Lemma run_with_exec {R : Type} (answer : forall X, host_call X -> X)
  (p : Prog R) :
  (forall X (c : host_call X), reply_ok c (answer X c)) ->
  exec p (fst (run_with answer p)) (snd (run_with answer p)).
Proof.
  intros Hok; induction p as [r | X c k IH | why]; simpl; auto.
  specialize (IH (answer X c)).
  destruct (run_with answer (k (answer X c))) as [tr o]; simpl in *.
  exists (answer X c), tr; auto.
Qed.

(** Every program ends, whatever the host answers: a program is a finite
    tree, and every call has a reply. *)
Lemma exec_total {R : Type} (p : Prog R) : exists tr o, exec p tr o.
Proof.
  exists (fst (run_with (@some_reply) p)), (snd (run_with (@some_reply) p)).
  apply run_with_exec; intros X c; apply some_reply_ok.
Qed.

Lemma exec_bind {A B : Type} (p : Prog A) (f : A -> Prog B) tr o :
  exec (bind p f) tr o <->
  (exists tr1 tr2 a,
      tr = tr1 ++ tr2 /\ exec p tr1 (Returned a) /\ exec (f a) tr2 o)
  \/ (exists why, exec p tr (Stopped why) /\ o = Stopped why).
Proof.
  revert tr; induction p as [r | X c k IH | why]; intros tr; simpl.
  - split.
    + intros Hex; left; exists [], tr, r; auto.
    + intros [(tr1 & tr2 & a & -> & [-> Heq] & Hex) | (why & [_ Heq] & _)].
      * injection Heq as ->; exact Hex.
      * discriminate.
  - split.
    + intros (x & tr' & Hok & -> & Hex).
      apply IH in Hex as [(tr1 & tr2 & a & -> & Hp & Hf) | (why & Hp & ->)].
      * left; exists (Event c x :: tr1), tr2, a; simpl; eauto 8.
      * right; exists why; eauto 8.
    + intros [(tr1 & tr2 & a & -> & (x & tr' & Hok & -> & Hp) & Hf)
             | (why & (x & tr' & Hok & -> & Hp) & ->)].
      * exists x, (tr' ++ tr2); repeat split; auto.
        apply IH; left; eauto 8.
      * exists x, tr'; repeat split; auto.
        apply IH; right; eauto.
  - split.
    + intros [-> ->]; right; exists why; auto.
    + intros [(tr1 & tr2 & a & _ & [_ Heq] & _) | (why' & [-> Heq] & ->)].
      * discriminate.
      * injection Heq as ->; auto.
Qed.

Ltac exec_call H :=
  let x := fresh "x" in
  let tr := fresh "tr" in
  let Hok := fresh "Hok" in
  destruct H as (x & tr & Hok & -> & H); simpl in H.

Ltac exec_ret H := destruct H as [-> ->].

Lemma count_replies_report (cb : BClipboard) (n : Z) :
  count_replies cb [Event (BClipboard_SystemCount cb) n] = [n].
Proof. simpl; rewrite BClipboard_eqb_refl; reflexivity. Qed.

(** ** Ownership test *)

(** The three static helpers differ only in the variables they read. *)
Lemma owner_p_unfold (id : haiku_clipboard) (s : statics) :
  be_clipboard_owner_p id s =
  if 0 <=? stored_count id s then
    n <- through (get_clipboard_object id s) BClipboard_SystemCount ;;
    Ret (add64 (stored_count id s) 1 =? n)
  else Ret false.
Proof. destruct id; reflexivity. Qed.

(** C1: [be_clipboard_owner_p (id)] returns true exactly when the stored
    change counter of [id] is non-negative and the system count the host
    reports for that clipboard is the stored counter plus one.  Nothing
    but the reading of that count and the two comparisons takes part.
    While the counter is negative the function returns false without
    asking the host.  Once it is non-negative the function makes exactly
    one host call, [SystemCount] on the clipboard of [id], and returns
    whether the count read is the counter plus one: whatever count the
    host reports, that run exists, so the answer is true when the count
    is the counter plus one and false for every other count. *)
Theorem be_clipboard_owner_p_iff :
  forall (id : haiku_clipboard) (s : statics) (cb : BClipboard),
    get_clipboard_object id s = Some cb ->
    in_int64 (stored_count id s) ->
    (forall (tr : list event) (o : outcome bool),
        exec (be_clipboard_owner_p id s) tr o ->
        exists r : bool,
          o = Returned r /\
          ((stored_count id s < 0 /\ tr = [] /\ r = false)
           \/ (0 <= stored_count id s /\
               exists n, in_uint32 n /\
                         tr = [Event (BClipboard_SystemCount cb) n] /\
                         r = (stored_count id s + 1 =? n))) /\
          (r = true <->
           0 <= stored_count id s /\
           count_replies cb tr = [stored_count id s + 1]))
    /\ (stored_count id s < 0 ->
        exec (be_clipboard_owner_p id s) [] (Returned false))
    /\ (0 <= stored_count id s ->
        forall n, in_uint32 n ->
          exec (be_clipboard_owner_p id s)
               [Event (BClipboard_SystemCount cb) n]
               (Returned (stored_count id s + 1 =? n))).
Proof.
  intros id s cb Hcb Hrange.
  rewrite owner_p_unfold, Hcb.
  destruct (Z.leb_spec 0 (stored_count id s)) as [Hnonneg | Hneg]; simpl.
  - split; [|split].
    + intros tr o Hex.
      exec_call Hex. exec_ret Hex.
      simpl in Hok.
      rewrite add64_succ_eqb_uint32 by assumption.
      exists (stored_count id s + 1 =? x); split; [reflexivity|].
      split.
      * right; split; [assumption|].
        exists x; repeat split; apply Hok.
      * rewrite count_replies_report, Z.eqb_eq; split.
        -- intros <-; auto.
        -- intros [_ Heq]; congruence.
    + intros Hneg; lia.
    + intros _ n Hn.
      exists n, []; split; [exact Hn|]. split; [reflexivity|].
      rewrite add64_succ_eqb_uint32 by assumption.
      split; reflexivity.
  - split; [|split].
    + intros tr o Hex. exec_ret Hex.
      exists false; split; [reflexivity|].
      split; [left; auto|].
      split; [discriminate | lia].
    + intros _; split; reflexivity.
    + intros Hnonneg; lia.
Qed.

(** ** Outdated selections *)

(** C6: [be_selection_outdated_p (id, count)] is true exactly when the
    stored change counter of [id] is strictly greater than [count]. *)
Theorem be_selection_outdated_p_iff :
  forall (id : haiku_clipboard) (count : Z) (s : statics),
    be_selection_outdated_p id count s = true <-> stored_count id s > count.
Proof.
  intros id count s; unfold be_selection_outdated_p.
  destruct id; simpl;
    match goal with
    | |- context [?a >? ?b] => destruct (Z.gtb_spec a b)
    end; split; (lia || congruence || auto).
Qed.

(** ** Change notifications *)

Lemma lost_test (id : haiku_clipboard) (s : statics) (n : Z) :
  int64_min <= stored_count id s < int64_max ->
  negb (stored_count id s =? -1) && (n >? add64 (stored_count id s) 1)
    && owned_flag id s = true <-> lost id s n.
Proof.
  intros Hc; unfold lost; rewrite add64_succ by assumption.
  rewrite !andb_true_iff, negb_true_iff, Z.eqb_neq, Z.gtb_gt.
  tauto.
Qed.

Ltac settle_lost L :=
  match type of L with
  | true = true <-> _ => apply proj1 in L; specialize (L eq_refl)
  | false = true <-> ?P =>
      let H := fresh in
      assert (H : ~ P) by (intros H; apply L in H; discriminate H);
      clear L
  end.

(** C2: [be_handle_clipboard_changed_message] reads the three system
    counts and then, for each selection, clears the owned flag and calls
    [haiku_selection_disowned] with the count just read exactly when the
    stored counter is not -1, the owned flag is set and the count read
    exceeds the stored counter plus one.  A count equal to the stored
    counter plus one disowns nothing.  The stored counters are below the
    top of [int64], so that adding one does not overflow. *)
Theorem be_handle_clipboard_changed_message_disowns :
  forall (s : statics) (cc cp cs : BClipboard)
         (tr : list event) (o : outcome statics),
    system_clipboard s = Some cc ->
    primary s = Some cp ->
    secondary s = Some cs ->
    (forall id, int64_min <= stored_count id s < int64_max) ->
    exec (be_handle_clipboard_changed_message s) tr o ->
    exists (n : haiku_clipboard -> Z) (s' : statics),
      o = Returned s' /\
      tr = [Event (BClipboard_SystemCount cc) (n CLIPBOARD_CLIPBOARD);
            Event (BClipboard_SystemCount cp) (n CLIPBOARD_PRIMARY);
            Event (BClipboard_SystemCount cs) (n CLIPBOARD_SECONDARY)]
           ++ map disown_event (disowned tr) /\
      (forall id, stored_count id s' = stored_count id s) /\
      (forall id m,
          In (id, m) (disowned tr) <-> lost id s (n id) /\ m = n id) /\
      (forall id, lost id s (n id) -> owned_flag id s' = false) /\
      (forall id, ~ lost id s (n id) -> owned_flag id s' = owned_flag id s) /\
      (forall id, n id = stored_count id s + 1 ->
                  owned_flag id s' = owned_flag id s /\
                  forall m, ~ In (id, m) (disowned tr)).
Proof.
  intros s cc cp cs tr o Hcc Hcp Hcs Hrange Hex.
  unfold be_handle_clipboard_changed_message in Hex.
  rewrite Hcc, Hcp, Hcs in Hex; simpl in Hex.
  exec_call Hex; exec_call Hex; exec_call Hex.
  rename x into nc, x0 into np, x1 into ns.
  pose proof (lost_test CLIPBOARD_CLIPBOARD s nc (Hrange _)) as Lc.
  pose proof (lost_test CLIPBOARD_PRIMARY s np (Hrange _)) as Lp.
  pose proof (lost_test CLIPBOARD_SECONDARY s ns (Hrange _)) as Ls.
  simpl in Lc, Lp, Ls.
  exists (fun id => match id with
                    | CLIPBOARD_CLIPBOARD => nc
                    | CLIPBOARD_PRIMARY => np
                    | CLIPBOARD_SECONDARY => ns
                    end).
  destruct (negb (count_clipboard s =? -1) && _ && owned_clipboard s) eqn:Ec;
    simpl in Hex; [exec_call Hex; clear Hok2 |];
    (destruct (negb (count_primary s =? -1) && _ && owned_primary s) eqn:Ep;
     simpl in Hex; [exec_call Hex; clear Hok2 |]);
    (destruct (negb (count_secondary s =? -1) && _ && owned_secondary s) eqn:Es;
     simpl in Hex; [exec_call Hex; clear Hok2 |]);
    exec_ret Hex;
    settle_lost Lc; settle_lost Lp; settle_lost Ls;
    (eexists; split; [reflexivity|]);
    (split; [repeat match goal with u : unit |- _ => destruct u end;
             reflexivity|]);
    (split; [intros []; reflexivity|]);
    (split; [intros [] m; simpl; intuition congruence|]);
    (split; [intros []; simpl; tauto|]);
    (split; [intros []; simpl; tauto|]);
    intros [] Hn; unfold lost in *; simpl in *;
    (split; [| intros m]); intuition (congruence || lia).
Qed.

(** ** Writing to a clipboard *)

Lemma is_null_false (p : pointer) : is_null p = false <-> p <> NULL.
Proof. unfold is_null; apply Z.eqb_neq. Qed.

Lemma is_null_true (p : pointer) : is_null p = true <-> p = NULL.
Proof. unfold is_null; apply Z.eqb_eq. Qed.

Section WriteFacts.

Context {host : HostConstants}.

Lemma be_set_clipboard_data_1_runs (cb : BClipboard) (type : string)
  (data : pointer) (len : Z) (clear : bool) (tr : list event)
  (o : outcome unit) :
  exec (be_set_clipboard_data_1 (Some cb) type data len clear) tr o ->
  o = Returned tt /\ write_run cb type data len clear tr.
Proof.
  unfold be_set_clipboard_data_1; simpl; intros Hex.
  exec_call Hex. destruct x as [|]; simpl in Hex.
  2: { exec_ret Hex; split; [reflexivity | constructor]. }
  assert (Hclear : exists pre tr',
             tr0 = pre ++ tr' /\ clear_part cb clear pre /\
             exec (message_data <- through (Some cb) BClipboard_Data ;;
                   if is_null message_data then
                     through (Some cb) BClipboard_Unlock ;; Ret tt
                   else
                     (if negb (is_null data) then
                        rc <- call (BMessage_ReplaceData message_data type
                                      B_MIME_TYPE data len) ;;
                        if rc =? B_NAME_NOT_FOUND then
                          call (BMessage_AddData message_data type
                                  B_MIME_TYPE data len) ;;
                          Ret tt
                        else Ret tt
                      else
                        call (BMessage_RemoveName message_data type) ;;
                        Ret tt) ;;
                     through (Some cb) BClipboard_Commit ;;
                     through (Some cb) BClipboard_Unlock ;;
                     Ret tt) tr' o).
  { destruct clear; simpl in Hex.
    - exec_call Hex.
      exists [Event (BClipboard_Clear cb) x], tr; simpl; eauto.
    - exists [], tr0; simpl; auto. }
  clear Hex; destruct Hclear as (pre & tr' & -> & Hpre & Hex); simpl in Hex.
  exec_call Hex. rename x into m.
  destruct (is_null m) eqn:Hm; simpl in Hex.
  { apply is_null_true in Hm; subst m.
    exec_call Hex. exec_ret Hex. destruct x.
    split; [reflexivity | constructor; assumption]. }
  apply is_null_false in Hm.
  assert (Hedit : exists edit rc,
             tr = edit ++ [Event (BClipboard_Commit cb) rc;
                           Event (BClipboard_Unlock cb) tt] /\
             edit_part m type data len edit /\ o = Returned tt).
  { unfold edit_part.
    destruct (is_null data); simpl in Hex.
    - exec_call Hex. exec_call Hex. exec_call Hex. exec_ret Hex.
      destruct x1.
      exists [Event (BMessage_RemoveName m type) x], x0; simpl; eauto.
    - exec_call Hex.
      destruct (Z.eqb_spec x B_NAME_NOT_FOUND) as [-> | Hne]; simpl in Hex.
      + exec_call Hex. exec_call Hex. exec_call Hex. exec_ret Hex.
        destruct x1.
        eexists _, x0; split; [| split; [exists B_NAME_NOT_FOUND; right;
                                         split; [reflexivity | exists x;
                                                 reflexivity]
                                        | reflexivity]].
        reflexivity.
      + exec_call Hex. exec_call Hex. exec_ret Hex. destruct x1.
        eexists _, x0; split; [| split; [exists x; left; split;
                                         [assumption | reflexivity]
                                        | reflexivity]].
        reflexivity. }
  destruct Hedit as (edit & rc & -> & Hedit & ->).
  split; [reflexivity | constructor; assumption].
Qed.

End WriteFacts.

(** ** Recording a change count *)

Lemma record_count_own (id : haiku_clipboard) (n : Z) (s : statics) :
  stored_count id (record_count id n s) = n
  /\ owned_flag id (record_count id n s) = true.
Proof. destruct id; simpl; auto. Qed.

Lemma record_count_other (id id' : haiku_clipboard) (n : Z) (s : statics) :
  id' <> id ->
  stored_count id' (record_count id n s) = stored_count id' s
  /\ owned_flag id' (record_count id n s) = owned_flag id' s.
Proof. destruct id, id'; simpl; intros Hne; auto; congruence. Qed.

Lemma record_count_objects (id id' : haiku_clipboard) (n : Z) (s : statics) :
  get_clipboard_object id' (record_count id n s) = get_clipboard_object id' s.
Proof. destruct id, id'; reflexivity. Qed.

Lemma record_count_notification (id : haiku_clipboard) (n : Z) (s : statics) :
  last_notification_id (record_count id n s) = last_notification_id s.
Proof. destruct id; reflexivity. Qed.

Lemma be_update_clipboard_count_unfold (id : haiku_clipboard) (s : statics) :
  be_update_clipboard_count id s =
  n <- through (get_clipboard_object id s) BClipboard_SystemCount ;;
  Ret (record_count id n s).
Proof. destruct id; reflexivity. Qed.

Lemma be_update_clipboard_count_runs (id : haiku_clipboard) (s : statics)
  (cb : BClipboard) (tr : list event) (o : outcome statics) :
  get_clipboard_object id s = Some cb ->
  exec (be_update_clipboard_count id s) tr o ->
  exists n, in_uint32 n /\ tr = [Event (BClipboard_SystemCount cb) n]
            /\ o = Returned (record_count id n s).
Proof.
  intros Hcb Hex.
  rewrite be_update_clipboard_count_unfold, Hcb in Hex; simpl in Hex.
  exec_call Hex. exec_ret Hex. exists x; auto.
Qed.

Section SetFacts.

Context {host : HostConstants}.

Lemma be_set_clipboard_data_runs (id : haiku_clipboard) (type : string)
  (data : pointer) (len : Z) (clear : bool) (s : statics) (cb : BClipboard)
  (tr : list event) (o : outcome statics) :
  get_clipboard_object id s = Some cb ->
  exec (be_set_clipboard_data id type data len clear s) tr o ->
  exists n rest,
    in_uint32 n /\
    tr = Event (BClipboard_SystemCount cb) n :: rest /\
    write_run cb type data len clear rest /\
    o = Returned (record_count id n s).
Proof.
  intros Hcb Hex; unfold be_set_clipboard_data in Hex.
  apply exec_bind in Hex
      as [(tr1 & tr2 & s' & -> & Hup & Hex) | (why & Hup & ->)];
    destruct (be_update_clipboard_count_runs _ _ _ _ _ Hcb Hup)
      as (n & Hn & -> & Heq); try discriminate.
  injection Heq as ->.
  rewrite record_count_objects, Hcb in Hex.
  apply exec_bind in Hex
      as [(tr1 & tr3 & [] & -> & Hw & Hex) | (why & Hw & ->)];
    apply be_set_clipboard_data_1_runs in Hw as [Heq Hrun];
    try discriminate.
  simpl in Hex; exec_ret Hex.
  exists n, tr1; rewrite app_nil_r; auto.
Qed.

(** C3: [be_set_clipboard_data (id, type, data, len, clear)] works on the
    clipboard object selected by [id].  Once that clipboard is locked and
    its message is there, the calls are, in this order: [Clear] exactly
    when [clear] is set; then, with data, [ReplaceData] under [type],
    followed by [AddData] exactly when [ReplaceData] found no entry of
    that name, and without data [RemoveName] of [type]; then [Commit];
    then [Unlock]. *)
Theorem be_set_clipboard_data_writes :
  forall (id : haiku_clipboard) (type : string) (data : pointer) (len : Z)
         (clear : bool) (s : statics) (cb : BClipboard)
         (tr : list event) (o : outcome statics),
    get_clipboard_object id s = Some cb ->
    exec (be_set_clipboard_data id type data len clear s) tr o ->
    exists n rest s',
      tr = Event (BClipboard_SystemCount cb) n :: rest /\
      o = Returned s' /\
      (rest = [Event (BClipboard_Lock cb) false]
       \/ exists pre,
           clear_part cb clear pre /\
           (rest = Event (BClipboard_Lock cb) true
                     :: pre ++ [Event (BClipboard_Data cb) NULL;
                                Event (BClipboard_Unlock cb) tt]
            \/ exists m edit rc,
                m <> NULL /\
                edit_part m type data len edit /\
                rest = Event (BClipboard_Lock cb) true
                         :: pre ++ Event (BClipboard_Data cb) m
                         :: edit ++ [Event (BClipboard_Commit cb) rc;
                                     Event (BClipboard_Unlock cb) tt])).
Proof.
  intros id type data len clear s cb tr o Hcb Hex.
  destruct (be_set_clipboard_data_runs _ _ _ _ _ _ _ _ _ Hcb Hex)
    as (n & rest & _ & -> & Hrun & ->).
  exists n, rest, (record_count id n s).
  split; [reflexivity|]. split; [reflexivity|].
  destruct Hrun as [| pre Hpre | pre edit m rc Hm Hpre Hedit].
  - left; reflexivity.
  - right; exists pre; auto.
  - right; exists pre; split; [assumption|].
    right; exists m, edit, rc; auto.
Qed.

End SetFacts.

Section OwnershipBeforeWrite.

Context {host : HostConstants}.

Lemma failed_write_stores_nothing (cb : BClipboard) (clear : bool)
  (rest : list event) :
  rest = [Event (BClipboard_Lock cb) false]
  \/ (exists pre,
         clear_part cb clear pre /\
         rest = Event (BClipboard_Lock cb) true
                  :: pre ++ [Event (BClipboard_Data cb) NULL;
                             Event (BClipboard_Unlock cb) tt]) ->
  existsb is_write rest = false.
Proof.
  intros [-> | (pre & Hpre & ->)]; [reflexivity|].
  unfold clear_part in Hpre; destruct clear.
  - destruct Hpre as (rc & ->); reflexivity.
  - subst pre; reflexivity.
Qed.

(** C9: [be_set_clipboard_data] reads the system count and records it,
    with the owned flag, before the write is attempted: in every run the
    count is read first and the returned state has the counter and the
    flag set, whatever becomes of the write.  There are runs where
    locking fails, and runs where the clipboard has no message; both end
    with ownership recorded although no call edited or committed the
    clipboard. *)
Theorem be_set_clipboard_data_owns_before_write :
  forall (id : haiku_clipboard) (type : string) (data : pointer) (len : Z)
         (clear : bool) (s : statics) (cb : BClipboard),
    get_clipboard_object id s = Some cb ->
    (forall tr o,
        exec (be_set_clipboard_data id type data len clear s) tr o ->
        exists n rest s',
          tr = Event (BClipboard_SystemCount cb) n :: rest /\
          exec (be_set_clipboard_data_1 (Some cb) type data len clear)
               rest (Returned tt) /\
          o = Returned s' /\
          stored_count id s' = n /\ owned_flag id s' = true)
    /\ (forall n, in_uint32 n ->
          exists s',
            exec (be_set_clipboard_data id type data len clear s)
                 [Event (BClipboard_SystemCount cb) n;
                  Event (BClipboard_Lock cb) false]
                 (Returned s') /\
            stored_count id s' = n /\ owned_flag id s' = true)
    /\ (forall n, in_uint32 n ->
          exists pre s',
            clear_part cb clear pre /\
            exec (be_set_clipboard_data id type data len clear s)
                 (Event (BClipboard_SystemCount cb) n
                    :: Event (BClipboard_Lock cb) true
                    :: pre ++ [Event (BClipboard_Data cb) NULL;
                               Event (BClipboard_Unlock cb) tt])
                 (Returned s') /\
            stored_count id s' = n /\ owned_flag id s' = true)
    /\ (forall rest,
          rest = [Event (BClipboard_Lock cb) false]
          \/ (exists pre,
                 clear_part cb clear pre /\
                 rest = Event (BClipboard_Lock cb) true
                          :: pre ++ [Event (BClipboard_Data cb) NULL;
                                     Event (BClipboard_Unlock cb) tt]) ->
          existsb is_write rest = false).
Proof.
  intros id type data len clear s cb Hcb.
  assert (Hrun : forall n rest,
             in_uint32 n ->
             exec (be_set_clipboard_data_1 (Some cb) type data len clear)
                  rest (Returned tt) ->
             exec (be_set_clipboard_data id type data len clear s)
                  (Event (BClipboard_SystemCount cb) n :: rest)
                  (Returned (record_count id n s))).
  { intros n rest Hn Hw; unfold be_set_clipboard_data.
    apply exec_bind; left.
    exists [Event (BClipboard_SystemCount cb) n], rest, (record_count id n s).
    split; [reflexivity|]. split.
    - rewrite be_update_clipboard_count_unfold, Hcb; simpl.
      exists n, []; auto.
    - rewrite record_count_objects, Hcb.
      apply exec_bind; left; exists rest, [], tt.
      rewrite app_nil_r; simpl; auto. }
  split; [| split; [| split]].
  - intros tr o Hex.
    unfold be_set_clipboard_data in Hex.
    apply exec_bind in Hex
        as [(tr1 & tr2 & s' & -> & Hup & Hex) | (why & Hup & ->)];
      destruct (be_update_clipboard_count_runs _ _ _ _ _ Hcb Hup)
        as (n & Hn & -> & Heq); try discriminate.
    injection Heq as ->.
    rewrite record_count_objects, Hcb in Hex.
    apply exec_bind in Hex
        as [(tr1 & tr3 & [] & -> & Hw & Hex) | (why & Hw & ->)].
    + simpl in Hex; exec_ret Hex.
      exists n, tr1, (record_count id n s).
      rewrite app_nil_r.
      destruct (record_count_own id n s); auto.
    + apply be_set_clipboard_data_1_runs in Hw as [Heq _]; discriminate.
  - intros n Hn; exists (record_count id n s).
    destruct (record_count_own id n s).
    split; [| auto].
    apply Hrun; [assumption|].
    unfold be_set_clipboard_data_1; simpl.
    exists false, []; simpl; auto.
  - intros n Hn.
    exists (if clear then [Event (BClipboard_Clear cb) 0] else []),
           (record_count id n s).
    destruct (record_count_own id n s).
    split; [destruct clear; simpl; eauto|].
    split; [| auto].
    apply Hrun; [assumption|].
    unfold be_set_clipboard_data_1; simpl.
    eexists true, _; split; [exact I|]; split; [reflexivity|].
    destruct clear; simpl.
    + eexists 0, _; split; [exact I|]; split; [reflexivity|].
      eexists NULL, _; split; [exact I|]; split; [reflexivity|]; simpl.
      eexists tt, _; split; [exact I|]; split; [reflexivity|]; simpl; auto.
    + eexists NULL, _; split; [exact I|]; split; [reflexivity|]; simpl.
      eexists tt, _; split; [exact I|]; split; [reflexivity|]; simpl; auto.
  - apply failed_write_stores_nothing.
Qed.

End OwnershipBeforeWrite.

(** ** The three clipboards are kept apart *)

Lemma all_calls_exec {R : Type} (Q : forall X, host_call X -> Prop)
  (p : Prog R) (tr : list event) (o : outcome R) :
  all_calls Q p -> exec p tr o ->
  Forall (fun e => match e with Event c _ => Q _ c end) tr.
Proof.
  revert tr; induction p as [r | X c k IH | why]; simpl; intros tr Hall Hex.
  - destruct Hex as [-> _]; constructor.
  - destruct Hall as [Hc Hk].
    destruct Hex as (x & tr' & _ & -> & Hex).
    constructor; [exact Hc | eapply IH; eauto].
  - destruct Hex as [-> _]; constructor.
Qed.

Lemma all_calls_bind {A B : Type} (Q : forall X, host_call X -> Prop)
  (p : Prog A) (f : A -> Prog B) :
  all_calls Q p -> (forall a, all_calls Q (f a)) -> all_calls Q (bind p f).
Proof.
  induction p as [r | X c k IH | why]; simpl; intros Hp Hf; auto.
  destruct Hp as [Hc Hk]; split; auto.
Qed.

Lemma all_calls_call {X : Type} (Q : forall X, host_call X -> Prop)
  (c : host_call X) : Q _ c -> all_calls Q (call c).
Proof. intros Hc; simpl; split; [exact Hc | intros; exact I]. Qed.

Lemma only_on_exec {R : Type} (cb : BClipboard_ptr) (p : Prog R)
  (tr : list event) (o : outcome R) :
  only_on cb p -> exec p tr o ->
  forall e target, In e tr -> clipboard_target e = Some target ->
                   cb = Some target.
Proof.
  intros Hon Hex e target Hin Htarget.
  pose proof (all_calls_exec _ _ _ _ Hon Hex) as Hall.
  rewrite Forall_forall in Hall; specialize (Hall e Hin).
  destruct e as [X c x]; apply Hall; exact Htarget.
Qed.

Lemma only_on_through {X : Type} (cb : BClipboard_ptr)
  (method : BClipboard -> host_call X) :
  (forall o, call_target (method o) = Some o) ->
  only_on cb (through cb method).
Proof.
  intros Hm; destruct cb as [o|]; simpl; [| exact I].
  split; [| intros; exact I].
  intros o' Ho'; rewrite Hm in Ho'; exact Ho'.
Qed.

Lemma quiet_through {X : Type} (cb : BClipboard_ptr)
  (method : BClipboard -> host_call X) :
  (forall o, is_disown (method o) = false) ->
  all_calls not_disown (through cb method).
Proof.
  intros Hm; destruct cb as [o|]; simpl; [| exact I].
  split; [apply Hm | intros; exact I].
Qed.

Create HintDb wrappers.

#[local] Hint Unfold
  be_update_clipboard_count be_clipboard_owner_p
  be_find_clipboard_data be_find_clipboard_data_1
  be_set_clipboard_data be_set_clipboard_data_1
  primary_owner_p secondary_owner_p clipboard_owner_p
  be_lock_clipboard_message be_unlock_clipboard
  be_start_watching_selection be_get_clipboard_count
  be_display_notification type_for_type my_team_id
  be_enum_message be_get_refs_data be_get_point_data be_get_message_data
  be_get_message_type be_set_message_type be_get_message_message
  be_create_simple_message be_add_message_data be_add_refs_data
  be_add_point_data be_add_message_message : wrappers.

Ltac all_calls_step :=
  match goal with
  | |- only_on _ _ => unfold only_on
  | |- all_calls _ (Ret _) => exact I
  | |- all_calls _ (Halt _) => exact I
  | |- all_calls (on_clipboard _) (through _ _) =>
      apply only_on_through; intros; reflexivity
  | |- all_calls not_disown (through _ _) =>
      apply quiet_through; intros; reflexivity
  | |- all_calls (on_clipboard _) (call _) =>
      apply all_calls_call; intros o Ho; discriminate Ho
  | |- all_calls not_disown (call _) =>
      apply all_calls_call; reflexivity
  | |- all_calls _ (Call _ _) =>
      split; [first [reflexivity | intros ? Ho; discriminate Ho] | intros]
  | |- all_calls _ (bind _ _) => apply all_calls_bind; [| intros]
  | |- all_calls _ (let _ := _ in _) => cbv zeta
  | |- all_calls _ (if ?b then _ else _) => destruct b
  | |- all_calls _ (match ?x with _ => _ end) => destruct x
  end.

Section Disjoint.

Context {host : HostConstants}.

Lemma be_find_clipboard_data_1_only_on (cb : BClipboard_ptr) (type : string)
  (len : option (cell Z)) :
  only_on cb (be_find_clipboard_data_1 cb type len).
Proof. unfold be_find_clipboard_data_1; repeat all_calls_step. Qed.

Lemma be_set_clipboard_data_1_only_on (cb : BClipboard_ptr) (type : string)
  (data : pointer) (len : Z) (clear : bool) :
  only_on cb (be_set_clipboard_data_1 cb type data len clear).
Proof. unfold be_set_clipboard_data_1; repeat all_calls_step. Qed.

Lemma be_update_clipboard_count_only_on (id : haiku_clipboard) (s : statics) :
  only_on (get_clipboard_object id s) (be_update_clipboard_count id s).
Proof. rewrite be_update_clipboard_count_unfold; repeat all_calls_step. Qed.

Lemma api_prog_only_on (a : api_call) (id : haiku_clipboard) (s : statics) :
  api_clipboard a = Some id ->
  only_on (get_clipboard_object id s) (api_prog a s).
Proof.
  destruct a; simpl; intros Hid; try discriminate; injection Hid as ->.
  - apply be_update_clipboard_count_only_on.
  - apply all_calls_bind; [| intros; exact I].
    apply be_find_clipboard_data_1_only_on.
  - unfold be_set_clipboard_data.
    rewrite be_update_clipboard_count_unfold.
    destruct (get_clipboard_object id s) as [o|] eqn:Hcb; simpl; [| exact I].
    split; [intros o' Ho'; injection Ho' as <-; reflexivity |].
    intros n; rewrite record_count_objects, Hcb.
    apply all_calls_bind; [| intros; exact I].
    apply be_set_clipboard_data_1_only_on.
  - apply all_calls_bind; [| intros; exact I].
    destruct id; simpl;
      unfold primary_owner_p, secondary_owner_p, clipboard_owner_p;
      repeat all_calls_step.
  - apply all_calls_bind; [| intros; exact I].
    unfold be_lock_clipboard_message; repeat all_calls_step.
  - apply all_calls_bind; [| intros; exact I].
    unfold be_unlock_clipboard; repeat all_calls_step.
  - apply all_calls_bind; [| intros; exact I].
    unfold be_start_watching_selection; repeat all_calls_step.
  - exact I.
  - apply all_calls_bind; [| intros; exact I].
    unfold be_get_clipboard_count; repeat all_calls_step.
Qed.

Lemma be_update_clipboard_count_returns (id : haiku_clipboard)
  (s s' : statics) (tr : list event) :
  exec (be_update_clipboard_count id s) tr (Returned s') ->
  exists n, in_uint32 n /\ s' = record_count id n s.
Proof.
  rewrite be_update_clipboard_count_unfold.
  destruct (get_clipboard_object id s) as [cb|]; simpl; intros Hex.
  - exec_call Hex. destruct Hex as [_ Heq]; injection Heq as Heq.
    exists x; auto.
  - destruct Hex as [_ Heq]; discriminate.
Qed.

Lemma be_set_clipboard_data_returns (id : haiku_clipboard) (type : string)
  (data : pointer) (len : Z) (clear : bool) (s s' : statics)
  (tr : list event) :
  exec (be_set_clipboard_data id type data len clear s) tr (Returned s') ->
  exists n, in_uint32 n /\ s' = record_count id n s.
Proof.
  unfold be_set_clipboard_data; intros Hex.
  apply exec_bind in Hex
      as [(tr1 & tr2 & s1 & -> & Hup & Hex) | (why & _ & Heq)];
    [| discriminate].
  apply be_update_clipboard_count_returns in Hup as (n & Hn & ->).
  apply exec_bind in Hex
      as [(tr3 & tr4 & [] & -> & _ & Hex) | (why & _ & Heq)];
    [| discriminate].
  destruct Hex as [_ Heq]; injection Heq as Heq.
  exists n; auto.
Qed.

(** C8: the three clipboards are kept apart.  [be_clipboard_init] makes
    the three pointers designate three different clipboards; every
    function that takes a clipboard identifier calls [BClipboard] methods
    on no other object than the one [get_clipboard_object] selects for
    that identifier; and [be_set_clipboard_data (id, ...)] and
    [be_update_clipboard_count (id)] leave the stored counters and owned
    flags of the two other identifiers as they were. *)
Theorem clipboards_kept_apart :
  (forall s id1 id2,
      get_clipboard_object id1 (be_clipboard_init s)
      = get_clipboard_object id2 (be_clipboard_init s) ->
      id1 = id2)
  /\ (forall a id s tr o,
        api_clipboard a = Some id ->
        exec (api_prog a s) tr o ->
        forall e target,
          In e tr -> clipboard_target e = Some target ->
          get_clipboard_object id s = Some target)
  /\ (forall id id' type data len clear s tr s',
        id' <> id ->
        exec (be_set_clipboard_data id type data len clear s) tr
             (Returned s') ->
        stored_count id' s' = stored_count id' s
        /\ owned_flag id' s' = owned_flag id' s)
  /\ (forall id id' s tr s',
        id' <> id ->
        exec (be_update_clipboard_count id s) tr (Returned s') ->
        stored_count id' s' = stored_count id' s
        /\ owned_flag id' s' = owned_flag id' s).
Proof.
  split; [| split; [| split]].
  - intros s [] []; simpl; intros Heq; try reflexivity; discriminate.
  - intros a id s tr o Hid Hex.
    eapply only_on_exec; [apply api_prog_only_on; exact Hid | exact Hex].
  - intros id id' type data len clear s tr s' Hne Hex.
    apply be_set_clipboard_data_returns in Hex as (n & _ & ->).
    apply record_count_other; exact Hne.
  - intros id id' s tr s' Hne Hex.
    apply be_update_clipboard_count_returns in Hex as (n & _ & ->).
    apply record_count_other; exact Hne.
Qed.

End Disjoint.

(** ** Sequences of calls *)

Lemma exec_then_ret {A B : Type} (p : Prog A) (b b' : B)
  (tr : list event) :
  exec (p ;; Ret b) tr (Returned b') -> b' = b.
Proof.
  intros Hex.
  apply exec_bind in Hex as [(tr1 & tr2 & a & _ & _ & [_ Heq]) | (why & _ & Heq)];
    [injection Heq as Heq; auto | discriminate].
Qed.

Lemma count_replies_app (cb : BClipboard) (tr1 tr2 : list event) :
  count_replies cb (tr1 ++ tr2) = count_replies cb tr1 ++ count_replies cb tr2.
Proof.
  induction tr1 as [| e tr1 IH]; simpl; [reflexivity|].
  destruct (count_reply cb e); simpl; rewrite IH; reflexivity.
Qed.

Lemma disowned_app (tr1 tr2 : list event) :
  disowned (tr1 ++ tr2) = disowned tr1 ++ disowned tr2.
Proof.
  induction tr1 as [| [X c x] tr1 IH]; simpl; [reflexivity|].
  destruct c; simpl; rewrite ?IH; reflexivity.
Qed.

(** The host only reports counts in the range of [uint32]. *)
Lemma exec_count_replies {R : Type} (cb : BClipboard) (p : Prog R)
  (tr : list event) (o : outcome R) :
  exec p tr o -> forall n, In n (count_replies cb tr) -> in_uint32 n.
Proof.
  revert tr; induction p as [r | X c k IH | why]; simpl; intros tr Hex.
  - destruct Hex as [-> _]; contradiction.
  - destruct Hex as (x & tr' & Hok & -> & Hex).
    specialize (IH _ _ Hex); simpl.
    destruct c; simpl; auto.
    destruct (BClipboard_eqb cb cb0); simpl; auto.
    intros n [<- | Hin]; auto.
  - destruct Hex as [-> _]; contradiction.
Qed.

Lemma nondecreasing_app (l1 l2 : list Z) :
  nondecreasing (l1 ++ l2) ->
  forall x y, In x l1 -> In y l2 -> x <= y.
Proof.
  induction l1 as [| a l1 IH]; simpl; [contradiction|].
  intros [Hle Hrest] x y [<- | Hx] Hy.
  - apply Hle, in_or_app; auto.
  - apply IH; assumption.
Qed.

Lemma initialised_init (s : statics) : initialised (be_clipboard_init s).
Proof. intros []; reflexivity. Qed.

Lemma initialised_record_count (id : haiku_clipboard) (n : Z) (s : statics) :
  initialised s -> initialised (record_count id n s).
Proof. intros Hs id'; rewrite record_count_objects; apply Hs. Qed.

Section SessionFacts.

Context {host : HostConstants}.

(** What [be_handle_clipboard_changed_message] can do to the static
    variables: clear owned flags of selections that have a recorded
    count, nothing else. *)
Lemma be_handle_clipboard_changed_message_keeps (s s' : statics)
  (tr : list event) :
  exec (be_handle_clipboard_changed_message s) tr (Returned s') ->
  (forall id, stored_count id s' = stored_count id s)
  /\ (forall id, get_clipboard_object id s' = get_clipboard_object id s)
  /\ last_notification_id s' = last_notification_id s
  /\ (forall id, owned_flag id s' = true -> owned_flag id s = true)
  /\ (forall id m, In (id, m) (disowned tr) ->
                   stored_count id s <> -1 /\ owned_flag id s = true).
Proof.
  unfold be_handle_clipboard_changed_message.
  destruct (system_clipboard s) as [cc|]; simpl;
    [| intros [_ Heq]; discriminate].
  intros Hex; exec_call Hex.
  destruct (primary s) as [cp|]; simpl in Hex;
    [| destruct Hex as [_ Heq]; discriminate].
  exec_call Hex.
  destruct (secondary s) as [cs|]; simpl in Hex;
    [| destruct Hex as [_ Heq]; discriminate].
  exec_call Hex.
  destruct (negb (count_clipboard s =? -1) && _ && owned_clipboard s) eqn:Ec;
    simpl in Hex; [exec_call Hex; clear Hok2 |];
    (destruct (negb (count_primary s =? -1) && _ && owned_primary s) eqn:Ep;
     simpl in Hex; [exec_call Hex; clear Hok2 |]);
    (destruct (negb (count_secondary s =? -1) && _ && owned_secondary s) eqn:Es;
     simpl in Hex; [exec_call Hex; clear Hok2 |]);
    destruct Hex as [-> Heq]; injection Heq as Heq; subst s';
    repeat match goal with
      | H : _ && _ = true |- _ => apply andb_true_iff in H as [? ?]
      | H : negb _ = true |- _ => apply negb_true_iff, Z.eqb_neq in H
      end;
    (split; [intros []; reflexivity|]);
    (split; [intros []; reflexivity|]);
    (split; [reflexivity|]);
    (split; [intros []; simpl; auto; discriminate|]);
    intros [] m; simpl; intuition congruence.
Qed.

End SessionFacts.

(** ** Notifications *)

Lemma type_for_type_valid (type : Z) :
  0 <= type <= 2 -> exists ty, type_for_type type = Ret ty.
Proof.
  intros Hty.
  assert (Hcases : type = 0 \/ type = 1 \/ type = 2) by lia.
  destruct Hcases as [-> | [-> | ->]]; simpl; eauto.
Qed.

Lemma type_for_type_invalid (type : Z) :
  ~ 0 <= type <= 2 -> type_for_type type = Halt abort_called.
Proof.
  intros Hty.
  destruct type as [| [p | [p | p |] |] | p]; simpl; try reflexivity; lia.
Qed.

Lemma be_display_notification_runs (title body : string) (supersedes : Z)
  (type : Z) (icon : option string) (s : statics) (tr : list event)
  (o : outcome (Z * statics)) :
  0 <= type <= 2 ->
  exec (be_display_notification title body supersedes type icon s) tr o ->
  exists id s' ty tid rc team icon_part rc',
    o = Returned (id, s') /\
    (if supersedes <? 0
     then id = wrap64 (last_notification_id s + 1)
          /\ s' = set_last_notification_id id s
     else id = supersedes /\ s' = s) /\
    tr = [Event (BNotification_new ty) tt;
          Event (BNotification_SetTitle title) tt;
          Event (BNotification_SetContent body) tt;
          Event find_thread tid;
          Event (get_thread_info tid) (rc, team);
          Event (BNotification_SetMessageID
                   (decimal team ++ "." ++ decimal id)) tt]
         ++ icon_part ++ [Event BNotification_Send rc'].
Proof.
  intros Hty Hex; unfold be_display_notification in Hex.
  destruct (type_for_type_valid type Hty) as (ty & Hty').
  rewrite Hty' in Hex; simpl in Hex.
  exec_call Hex.
  destruct (supersedes <? 0); simpl in Hex;
    exec_call Hex; exec_call Hex; exec_call Hex; exec_call Hex;
    match goal with p : (status_t * Z)%type |- _ => destruct p as [rc team] end;
    simpl in Hex; exec_call Hex;
    (destruct icon as [file |]; simpl in Hex;
     [ exec_call Hex;
       match type of Hex with
       | context [is_null ?b] => destruct (is_null b); simpl in Hex
       end;
       [| exec_call Hex; exec_call Hex ] |]);
    exec_call Hex; exec_ret Hex;
    repeat match goal with u : unit |- _ => destruct u end;
    do 6 eexists;
    match goal with
    | |- exists icon_part rc', _ /\ _ /\
           _ :: _ :: _ :: _ :: _ :: _ :: ?rest = _ =>
        exists (removelast rest)
    end;
    eexists; (split; [reflexivity|]);
    (split; [try split; reflexivity|]);
    reflexivity.
Qed.

Section SessionSteps.

Context {host : HostConstants}.

Lemma be_display_notification_returns (title body : string)
  (supersedes : Z) (type : Z) (icon : option string) (s s' : statics)
  (id : Z) (tr : list event) :
  exec (be_display_notification title body supersedes type icon s) tr
       (Returned (id, s')) ->
  0 <= type <= 2
  /\ (if supersedes <? 0
      then id = wrap64 (last_notification_id s + 1)
           /\ s' = set_last_notification_id id s
      else id = supersedes /\ s' = s).
Proof.
  intros Hex.
  assert (Hty : 0 <= type <= 2 \/ ~ 0 <= type <= 2) by lia.
  destruct Hty as [Hty | Hty].
  - split; [exact Hty|].
    destruct (be_display_notification_runs _ _ _ _ _ _ _ _ Hty Hex)
      as (id' & s'' & ty & tid & rc & team & icon_part & rc' & Heq & Hid & _).
    injection Heq as -> ->; exact Hid.
  - unfold be_display_notification in Hex.
    rewrite (type_for_type_invalid _ Hty) in Hex; simpl in Hex.
    destruct Hex as [_ Heq]; discriminate.
Qed.

Lemma api_prog_quiet (a : api_call) (s : statics) :
  a <> call_handle_clipboard_changed_message ->
  all_calls not_disown (api_prog a s).
Proof.
  destruct a; intros Ha; try congruence; cbn [api_prog];
    autounfold with wrappers;
    repeat all_calls_step.
Qed.

Lemma disowned_quiet (tr : list event) :
  Forall (fun e => match e with Event c _ => not_disown _ c end) tr ->
  disowned tr = [].
Proof.
  induction 1 as [| [X c x] tr Hc _ IH]; simpl; [reflexivity|].
  destruct c; simpl; auto; discriminate Hc.
Qed.

(** What one call does to the counter and the flag of [id]. *)
Lemma api_prog_effect (id : haiku_clipboard) (a : api_call)
  (s s' : statics) (tr : list event) :
  initialised s ->
  exec (api_prog a s) tr (Returned s') ->
  initialised s'
  /\ effect_on id (updates_count id a) s s' tr.
Proof.
  intros Hinit Hex.
  assert (Hquiet : a <> call_handle_clipboard_changed_message ->
                   disowned tr = []).
  { intros Ha; apply disowned_quiet.
    eapply all_calls_exec; [apply api_prog_quiet; exact Ha | exact Hex]. }
  assert (Hsame : s' = s -> a <> call_handle_clipboard_changed_message ->
                  updates_count id a = false ->
                  initialised s'
                  /\ effect_on id (updates_count id a) s s' tr).
  { intros -> Ha ->; unfold effect_on; rewrite (Hquiet Ha); simpl; intuition. }
  assert (Hrec : forall id0 n rest,
             in_uint32 n ->
             tr = Event (BClipboard_SystemCount (clipboard_named id0)) n
                    :: rest ->
             s' = record_count id0 n s ->
             disowned tr = [] ->
             initialised s'
             /\ effect_on id (haiku_clipboard_eqb id id0) s s' tr).
  { intros id0 n rest Hn Htr -> Hdis.
    split; [apply initialised_record_count; exact Hinit|].
    unfold effect_on; destruct (haiku_clipboard_eqb id id0) eqn:Heq.
    - apply haiku_clipboard_eqb_eq in Heq; subst id0.
      destruct (record_count_own id n s); eauto 8.
    - assert (Hne : id <> id0).
      { intros ->; destruct id0; discriminate. }
      destruct (record_count_other id0 id n s Hne) as [-> ->].
      rewrite Hdis; simpl; intuition. }
  destruct a; cbn [api_prog updates_count] in Hex |- *;
    try (apply Hsame; [eapply exec_then_ret; exact Hex
                      | discriminate | reflexivity]);
    unfold effect_on.
  - destruct Hex as [_ Heq]; injection Heq as Heq; subst s'.
    split; [apply initialised_init|].
    rewrite Hquiet by discriminate.
    simpl; destruct id; simpl; intuition.
  - destruct (be_update_clipboard_count_runs _ _ _ _ _ (Hinit id0) Hex)
      as (n & Hn & Htr & Heq).
    injection Heq as Heq.
    eapply Hrec; eauto. apply Hquiet; discriminate.
  - destruct (be_set_clipboard_data_runs _ _ _ _ _ _ _ _ _ (Hinit id0) Hex)
      as (n & rest & Hn & Htr & _ & Heq).
    injection Heq as Heq.
    eapply Hrec; eauto. apply Hquiet; discriminate.
  - destruct (be_handle_clipboard_changed_message_keeps _ _ _ Hex)
      as (Hcount & Hobj & _ & Hown & Hdis).
    split; [intros id'; rewrite Hobj; apply Hinit|].
    split; [apply Hcount|]. split; [apply Hown | apply Hdis].
  - destruct Hex as [_ Heq]; injection Heq as Heq.
    apply Hsame; [auto | discriminate | reflexivity].
  - apply exec_bind in Hex
        as [(tr1 & tr2 & [nid s1] & -> & Hd & [_ Heq]) | (why & _ & Heq)];
      [| discriminate].
    injection Heq as Heq; subst s1.
    apply be_display_notification_returns in Hd as [_ Hd].
    rewrite Hquiet by discriminate.
    destruct (supersedes <? 0); destruct Hd as [_ ->];
      (split; [intros id'; specialize (Hinit id'); destruct id'; exact Hinit|]);
      destruct id; simpl; intuition.
Qed.

End SessionSteps.

Section SessionRuns.

Context {host : HostConstants}.

Lemma session_cons (a : api_call) (rest : list api_call) (s s' : statics)
  (tr : list event) :
  exec (session (a :: rest) s) tr (Returned s') ->
  exists tr1 tr2 s1,
    tr = tr1 ++ tr2
    /\ exec (api_prog a s) tr1 (Returned s1)
    /\ exec (session rest s1) tr2 (Returned s').
Proof.
  simpl; intros Hex.
  apply exec_bind in Hex as [Hex | (why & _ & Heq)];
    [exact Hex | discriminate].
Qed.

(** After a sequence of calls the stored counter of [id] is the one it
    was before, or a count the host reported during the sequence. *)
Lemma session_counter (id : haiku_clipboard) (calls : list api_call) :
  forall (s s' : statics) (tr : list event),
    initialised s ->
    exec (session calls s) tr (Returned s') ->
    initialised s'
    /\ (stored_count id s' = stored_count id s
        \/ In (stored_count id s') (count_replies (clipboard_named id) tr)).
Proof.
  induction calls as [| a rest IH]; intros s s' tr Hinit Hex.
  - destruct Hex as [-> Heq]; injection Heq as Heq; subst s'; auto.
  - apply session_cons in Hex as (tr1 & tr2 & s1 & -> & Ha & Hrest).
    destruct (api_prog_effect id _ _ _ _ Hinit Ha) as [Hinit1 Heff].
    destruct (IH _ _ _ Hinit1 Hrest) as [Hinit' Hcount].
    split; [exact Hinit'|].
    rewrite count_replies_app.
    destruct Hcount as [Heq | Hin]; [| right; apply in_or_app; auto].
    rewrite Heq.
    unfold effect_on in Heff; destruct (updates_count id a).
    + destruct Heff as (n & rest' & _ & -> & <- & _).
      right; apply in_or_app; left.
      simpl; rewrite BClipboard_eqb_refl; left; reflexivity.
    + destruct Heff as [-> _]; left; reflexivity.
Qed.

(** Without [be_update_clipboard_count] or [be_set_clipboard_data] for
    [id], the counter of [id] stays, its flag is not raised, and the
    selection is only disowned if it had a recorded count. *)
Lemma session_never_updated (id : haiku_clipboard) (calls : list api_call) :
  forall (s s' : statics) (tr : list event),
    (forall a, In a calls -> updates_count id a = false) ->
    initialised s ->
    exec (session calls s) tr (Returned s') ->
    initialised s'
    /\ stored_count id s' = stored_count id s
    /\ (owned_flag id s' = true -> owned_flag id s = true)
    /\ (forall m, In (id, m) (disowned tr) ->
                  stored_count id s <> -1 /\ owned_flag id s = true).
Proof.
  induction calls as [| a rest IH]; intros s s' tr Hnever Hinit Hex.
  - destruct Hex as [-> Heq]; injection Heq as Heq; subst s'.
    simpl; intuition.
  - apply session_cons in Hex as (tr1 & tr2 & s1 & -> & Ha & Hrest).
    destruct (api_prog_effect id _ _ _ _ Hinit Ha) as [Hinit1 Heff].
    unfold effect_on in Heff; rewrite (Hnever a (or_introl eq_refl)) in Heff.
    destruct Heff as (Hc1 & Ho1 & Hd1).
    destruct (IH s1 s' tr2) as (Hinit' & Hc & Ho & Hd); auto.
    { intros a' Ha'; apply Hnever; right; exact Ha'. }
    split; [exact Hinit'|].
    split; [congruence|].
    split; [auto|].
    intros m Hin; rewrite disowned_app in Hin.
    apply in_app_or in Hin as [Hin | Hin]; [eauto|].
    destruct (Hd m Hin) as [Hne Hown]; split; [congruence | auto].
Qed.

(** C5: [be_update_clipboard_count (id)] reads the system count of the
    clipboard of [id], stores it as the counter of [id] and sets the
    owned flag of [id].  Consequently, along any sequence of calls made
    after initialisation during which the counts the host reports for
    that clipboard never decrease, the stored counter never decreases
    either: its value at any point of the sequence is at most its value
    at any later point. *)
Theorem be_update_clipboard_count_monotone :
  (forall id s cb tr o,
      get_clipboard_object id s = Some cb ->
      exec (be_update_clipboard_count id s) tr o ->
      exists n s',
        tr = [Event (BClipboard_SystemCount cb) n] /\
        o = Returned s' /\
        stored_count id s' = n /\ owned_flag id s' = true)
  /\ (forall id calls1 calls2 tr1 tr2 s1 s2,
        exec (session calls1 statics_after_init) tr1 (Returned s1) ->
        exec (session calls2 s1) tr2 (Returned s2) ->
        nondecreasing (count_replies (clipboard_named id) (tr1 ++ tr2)) ->
        stored_count id s1 <= stored_count id s2).
Proof.
  split.
  - intros id s cb tr o Hcb Hex.
    destruct (be_update_clipboard_count_runs _ _ _ _ _ Hcb Hex)
      as (n & _ & -> & ->).
    destruct (record_count_own id n s).
    exists n, (record_count id n s); auto.
  - intros id calls1 calls2 tr1 tr2 s1 s2 Hex1 Hex2 Hmono.
    rewrite count_replies_app in Hmono.
    destruct (session_counter id _ _ _ _ (initialised_init _) Hex1)
      as [Hinit1 H1].
    destruct (session_counter id _ _ _ _ Hinit1 Hex2) as [_ H2].
    destruct H2 as [-> | H2]; [apply Z.le_refl|].
    destruct H1 as [-> | H1].
    + apply (exec_count_replies _ _ _ _ Hex2) in H2.
      unfold in_uint32 in H2.
      destruct id; simpl in *; lia.
    + eapply nondecreasing_app; eauto.
Qed.

(** C10: start from the state after initialisation, where every counter
    is -1 and no flag is set, and make any sequence of calls none of
    which is [be_update_clipboard_count] or [be_set_clipboard_data] for
    [id].  Then the counter of [id] is still -1 and its flag still
    unset; no call of the sequence disowned [id]; [be_clipboard_owner_p
    (id)] returns false; [be_handle_clipboard_changed_message] does not
    disown [id]; and [be_selection_outdated_p (id, count)] is false for
    every [count] of at least -1.  In any state, a call other than those
    two, [be_handle_clipboard_changed_message] included, leaves the flag
    of [id] unset if it was unset. *)
Theorem never_updated_never_owned :
  (forall id, stored_count id statics_after_init = -1
              /\ owned_flag id statics_after_init = false)
  /\ (forall id calls tr s,
        (forall a, In a calls -> updates_count id a = false) ->
        exec (session calls statics_after_init) tr (Returned s) ->
        stored_count id s = -1
        /\ owned_flag id s = false
        /\ (forall m, ~ In (id, m) (disowned tr))
        /\ (forall tr' o,
               exec (be_clipboard_owner_p id s) tr' o ->
               tr' = [] /\ o = Returned false)
        /\ (forall tr' o,
               exec (be_handle_clipboard_changed_message s) tr' o ->
               exists s',
                 o = Returned s'
                 /\ stored_count id s' = -1
                 /\ owned_flag id s' = false
                 /\ forall m, ~ In (id, m) (disowned tr'))
        /\ (forall count,
               -1 <= count -> be_selection_outdated_p id count s = false))
  /\ (forall id a s tr s',
        initialised s ->
        updates_count id a = false ->
        exec (api_prog a s) tr (Returned s') ->
        owned_flag id s = false -> owned_flag id s' = false)
  /\ (forall id s tr s',
        exec (be_handle_clipboard_changed_message s) tr (Returned s') ->
        owned_flag id s = false -> owned_flag id s' = false).
Proof.
  split; [intros []; split; reflexivity|].
  split; [| split].
  - intros id calls tr s Hnever Hex.
    destruct (session_never_updated id _ _ _ _ Hnever
                (initialised_init _) Hex) as (Hinit & Hc & Ho & Hd).
    assert (Hc' : stored_count id s = -1) by (destruct id; exact Hc).
    assert (Ho' : owned_flag id s = false).
    { destruct (owned_flag id s); [| reflexivity].
      specialize (Ho eq_refl); destruct id; discriminate Ho. }
    split; [exact Hc'|]. split; [exact Ho'|].
    split.
    { intros m Hin; apply Hd in Hin as [Hne _]; destruct id; apply Hne;
        reflexivity. }
    split.
    { intros tr' o Hown.
      rewrite owner_p_unfold, Hc' in Hown; simpl in Hown; exact Hown. }
    split.
    { intros tr' o Hh.
      assert (Hret : exists s', o = Returned s').
      { unfold be_handle_clipboard_changed_message in Hh.
        rewrite (Hinit CLIPBOARD_CLIPBOARD : system_clipboard s = _),
          (Hinit CLIPBOARD_PRIMARY : primary s = _),
          (Hinit CLIPBOARD_SECONDARY : secondary s = _) in Hh.
        simpl in Hh.
        exec_call Hh; exec_call Hh; exec_call Hh.
        repeat match type of Hh with
          | context [if ?b then _ else _] =>
              destruct b; simpl in Hh; [exec_call Hh |]
          end;
          destruct Hh as [_ ->]; eauto. }
      destruct Hret as (s' & ->); exists s'.
      destruct (be_handle_clipboard_changed_message_keeps _ _ _ Hh)
        as (Hc2 & _ & _ & Ho2 & Hd2).
      split; [reflexivity|]. split; [rewrite Hc2; exact Hc'|].
      split.
      - destruct (owned_flag id s') eqn:E; [| reflexivity].
        rewrite (Ho2 _ E) in Ho'; discriminate.
      - intros m Hin; apply Hd2 in Hin as [Hne _]; auto. }
    intros count Hcount.
    destruct (be_selection_outdated_p id count s) eqn:E; [| reflexivity].
    apply be_selection_outdated_p_iff in E; lia.
  - intros id a s tr s' Hinit Ha Hex Hown.
    destruct (api_prog_effect id _ _ _ _ Hinit Hex) as [_ Heff].
    unfold effect_on in Heff; rewrite Ha in Heff.
    destruct Heff as (_ & Ho & _).
    destruct (owned_flag id s'); [| reflexivity].
    rewrite Ho in Hown; [discriminate | reflexivity].
  - intros id s tr s' Hex Hown.
    destruct (be_handle_clipboard_changed_message_keeps _ _ _ Hex)
      as (_ & _ & _ & Ho & _).
    destruct (owned_flag id s') eqn:E; [| reflexivity].
    rewrite (Ho _ E) in Hown; discriminate.
Qed.

End SessionRuns.

Section NotificationFacts.

Context {host : HostConstants}.

Lemma api_prog_notification (a : api_call) (s s' : statics)
  (tr : list event) :
  allocates_id a = false ->
  exec (api_prog a s) tr (Returned s') ->
  last_notification_id s' = last_notification_id s.
Proof.
  destruct a; cbn [api_prog allocates_id]; intros Ha Hex;
    try (apply exec_then_ret in Hex; subst s'; reflexivity).
  - destruct Hex as [_ Heq]; injection Heq as Heq; subst s'; reflexivity.
  - apply be_update_clipboard_count_returns in Hex as (n & _ & ->).
    apply record_count_notification.
  - apply be_set_clipboard_data_returns in Hex as (n & _ & ->).
    apply record_count_notification.
  - apply be_handle_clipboard_changed_message_keeps in Hex.
    tauto.
  - destruct Hex as [_ Heq]; injection Heq as Heq; subst s'; reflexivity.
  - apply exec_bind in Hex
        as [(tr1 & tr2 & [nid s1] & -> & Hd & [_ Heq]) | (why & _ & Heq)];
      [| discriminate].
    injection Heq as Heq; subst s1.
    apply be_display_notification_returns in Hd as [_ Hd].
    rewrite Ha in Hd; destruct Hd as [_ ->]; reflexivity.
Qed.

Lemma session_notification (calls : list api_call) :
  forall (s s' : statics) (tr : list event),
    (forall a, In a calls -> allocates_id a = false) ->
    exec (session calls s) tr (Returned s') ->
    last_notification_id s' = last_notification_id s.
Proof.
  induction calls as [| a rest IH]; intros s s' tr Hnone Hex.
  - destruct Hex as [_ Heq]; injection Heq as Heq; subst s'; reflexivity.
  - apply session_cons in Hex as (tr1 & tr2 & s1 & -> & Ha & Hrest).
    rewrite (IH _ _ _ (fun a' Ha' => Hnone a' (or_intror Ha')) Hrest).
    eapply api_prog_notification; [| exact Ha].
    apply Hnone; left; reflexivity.
Qed.

(** C7: for a [type] among 0, 1 and 2, [be_display_notification] returns
    the identifier under which the notification is sent.  With a
    non-negative [supersedes] that identifier is [supersedes] and
    [last_notification_id] keeps its value; with a negative one
    [last_notification_id] is incremented and its new value returned.
    Hence of two calls with negative [supersedes], between which no other
    identifier is allocated, the later returns the greater identifier,
    provided the increment of the later call does not overflow. *)
Theorem be_display_notification_identifier :
  (forall title body supersedes type icon s tr o,
      0 <= type <= 2 ->
      exec (be_display_notification title body supersedes type icon s) tr o ->
      exists id s',
        o = Returned (id, s')
        /\ (0 <= supersedes -> id = supersedes /\ s' = s)
        /\ (supersedes < 0 ->
            id = add64 (last_notification_id s) 1
            /\ s' = set_last_notification_id id s
            /\ (int64_min <= last_notification_id s < int64_max ->
                id = last_notification_id s + 1))
        /\ exists team calls rc,
            tr = calls ++ [Event BNotification_Send rc]
            /\ In (Event (BNotification_SetMessageID
                            (decimal team ++ "." ++ decimal id)) tt) calls)
  /\ (forall title1 body1 supersedes1 type1 icon1
             title2 body2 supersedes2 type2 icon2
             calls s s1 s2 s3 id1 id2 tr1 tr tr2,
        supersedes1 < 0 -> supersedes2 < 0 ->
        (forall a, In a calls -> allocates_id a = false) ->
        exec (be_display_notification title1 body1 supersedes1 type1 icon1 s)
             tr1 (Returned (id1, s1)) ->
        exec (session calls s1) tr (Returned s2) ->
        exec (be_display_notification title2 body2 supersedes2 type2 icon2 s2)
             tr2 (Returned (id2, s3)) ->
        id1 < int64_max ->
        id1 < id2).
Proof.
  split.
  - intros title body supersedes type icon s tr o Hty Hex.
    destruct (be_display_notification_runs _ _ _ _ _ _ _ _ Hty Hex)
      as (id & s' & ty & tid & rc & team & icon_part & rc' & -> & Hid & ->).
    exists id, s'; split; [reflexivity|].
    destruct (Z.ltb_spec supersedes 0) as [Hneg | Hpos].
    + destruct Hid as [-> ->].
      split; [lia|].
      split.
      * intros _; split; [reflexivity|]. split; [reflexivity|].
        apply add64_succ.
      * eexists team, _, rc'.
        rewrite app_assoc; split; [reflexivity|].
        apply in_or_app; left; simpl; auto 10.
    + destruct Hid as [-> ->].
      split; [auto|].
      split; [lia|].
      eexists team, _, rc'.
      rewrite app_assoc; split; [reflexivity|].
      apply in_or_app; left; simpl; auto 10.
  - intros title1 body1 supersedes1 type1 icon1
           title2 body2 supersedes2 type2 icon2
           calls s s1 s2 s3 id1 id2 tr1 tr tr2
           Hneg1 Hneg2 Hnone Hex1 Hses Hex2 Hroom.
    apply be_display_notification_returns in Hex1 as [_ H1].
    apply be_display_notification_returns in Hex2 as [_ H2].
    apply Z.ltb_lt in Hneg1, Hneg2; rewrite Hneg1 in H1; rewrite Hneg2 in H2.
    destruct H1 as [Hid1 ->], H2 as [Hid2 _].
    rewrite (session_notification _ _ _ _ Hnone Hses) in Hid2.
    simpl in Hid2.
    pose proof (wrap64_range (last_notification_id s + 1)) as Hr.
    rewrite <- Hid1 in Hr.
    rewrite wrap64_id in Hid2; [lia|].
    unfold in_int64 in *; lia.
Qed.

End NotificationFacts.

(** ** Message accessors *)

Ltac run_accessor H :=
  repeat first
    [ exec_call H
    | progress (repeat match goal with
                  | p : (_ * _)%type |- _ => destruct p
                  end; simpl in H)
    | match type of H with
      | context [?a =? B_OK] => destruct (a =? B_OK) eqn:?; simpl in H
      end ];
  exec_ret H.

Ltac settle_translation :=
  unfold translated, all_ok; simpl;
  repeat match goal with
    | E : (_ =? B_OK) = _ |- _ => rewrite E
    end;
  simpl; auto.

(** What the tests on the statuses read in the run told. *)
Ltac status_facts :=
  repeat match goal with
    | E : (?a =? B_OK) = true |- _ =>
        apply Z.eqb_eq in E; try subst a
    | E : (_ =? B_OK) = false |- _ => apply Z.eqb_neq in E
    end.

Section AccessorFacts.

Context {host : HostConstants}.

Lemma be_enum_message_runs (message : pointer) (tc : cell Z) (index : Z)
  (count : cell Z) (name_return : cell pointer) (tr : list event)
  (o : outcome (Z * (cell Z * cell Z * cell pointer))) :
  exec (be_enum_message message tc index count name_return) tr o ->
  exists r tc' name' rc name type w_count,
    o = Returned (r, (tc', store_to w_count count, name'))
    /\ tr = [Event (BMessage_GetInfo message B_ANY_TYPE index)
               (rc, name, type, w_count)]
    /\ translated r tr
    /\ (r <> 0 -> tc' = tc /\ name' = name_return)
    /\ (r = 0 -> tc' = Some (to_int32 type) /\ name' = Some name).
Proof.
  unfold be_enum_message; simpl; intros Hex.
  run_accessor Hex;
    do 7 eexists; (split; [reflexivity|]); (split; [reflexivity|]);
    (split; [settle_translation|]); split; intros; auto; congruence.
Qed.

Lemma be_get_refs_data_runs (message : pointer) (name : string) (index : Z)
  (path_buffer : cell pointer) (tr : list event)
  (o : outcome (Z * cell pointer)) :
  exec (be_get_refs_data message name index path_buffer) tr o ->
  exists r path_buffer',
    o = Returned (r, path_buffer')
    /\ translated r tr
    /\ (r <> 0 -> path_buffer' = path_buffer)
    /\ (r = 0 -> exists copy, path_buffer' = Some copy)
    /\ ((exists rc ref,
            rc <> B_OK
            /\ tr = [Event (BMessage_FindRef message name index) (rc, ref)])
        \/ (exists ref rc entry,
               rc <> B_OK
               /\ tr = [Event (BMessage_FindRef message name index)
                          (B_OK, ref);
                        Event (BEntry_SetTo ref false) (rc, entry)])
        \/ (exists ref entry rc path,
               rc <> B_OK
               /\ tr = [Event (BMessage_FindRef message name index)
                          (B_OK, ref);
                        Event (BEntry_SetTo ref false) (B_OK, entry);
                        Event (BEntry_GetPath entry) (rc, path)])
        \/ (exists ref entry path p copy,
               tr = [Event (BMessage_FindRef message name index) (B_OK, ref);
                     Event (BEntry_SetTo ref false) (B_OK, entry);
                     Event (BEntry_GetPath entry) (B_OK, path);
                     Event (BPath_Path path) p;
                     Event (strdup p) copy]
               /\ path_buffer' = Some copy)).
Proof.
  unfold be_get_refs_data; simpl; intros Hex.
  run_accessor Hex;
    do 2 eexists; (split; [reflexivity|]);
    (split; [settle_translation|]);
    (split; [intros; eauto; congruence|]);
    (split; [intros; eauto; congruence|]);
    status_facts.
  - do 3 right; do 5 eexists; split; reflexivity.
  - do 2 right; left; do 4 eexists; split; [eassumption | reflexivity].
  - right; left; do 3 eexists; split; [eassumption | reflexivity].
  - left; do 2 eexists; split; [eassumption | reflexivity].
Qed.

Lemma be_get_point_data_runs (message : pointer) (name : string) (index : Z)
  (x y : cell float) (tr : list event)
  (o : outcome (Z * (cell float * cell float))) :
  exec (be_get_point_data message name index x y) tr o ->
  exists r x' y' rc point,
    o = Returned (r, (x', y'))
    /\ tr = [Event (BMessage_FindPoint message name index) (rc, point)]
    /\ translated r tr
    /\ (r <> 0 -> x' = x /\ y' = y)
    /\ (r = 0 -> x' = Some (point_x point) /\ y' = Some (point_y point)).
Proof.
  unfold be_get_point_data; simpl; intros Hex.
  run_accessor Hex;
    do 5 eexists; (split; [reflexivity|]); (split; [reflexivity|]);
    (split; [settle_translation|]); split; intros; eauto; congruence.
Qed.

Lemma be_get_message_data_runs (message : pointer) (name : string)
  (type_code : Z) (index : Z) (buf_return : cell pointer)
  (size_return : cell Z) (tr : list event)
  (o : outcome (Z * (cell pointer * cell Z))) :
  exec (be_get_message_data message name type_code index
          buf_return size_return) tr o ->
  exists r rc w_buf w_size,
    o = Returned (r, (store_to w_buf buf_return, store_to w_size size_return))
    /\ tr = [Event (BMessage_FindData_at message name
                      (to_uint32 type_code) index)
               (rc, w_buf, w_size)]
    /\ translated r tr.
Proof.
  unfold be_get_message_data; simpl; intros Hex.
  run_accessor Hex;
    do 4 eexists; (split; [reflexivity|]); (split; [reflexivity|]);
    settle_translation.
Qed.

Lemma be_add_message_data_runs (message : pointer) (name : string)
  (type_code : Z) (buf : pointer) (buf_size : Z) (tr : list event)
  (o : outcome Z) :
  exec (be_add_message_data message name type_code buf buf_size) tr o ->
  exists r rc,
    o = Returned r
    /\ tr = [Event (BMessage_AddData message name (to_uint32 type_code)
                      buf buf_size) rc]
    /\ translated r tr.
Proof.
  unfold be_add_message_data; simpl; intros Hex.
  run_accessor Hex;
    do 2 eexists; (split; [reflexivity|]); (split; [reflexivity|]);
    settle_translation.
Qed.

Lemma be_add_refs_data_runs (message : pointer) (name filename : string)
  (tr : list event) (o : outcome Z) :
  exec (be_add_refs_data message name filename) tr o ->
  exists r,
    o = Returned r
    /\ translated r tr
    /\ ((exists entry rc,
            rc <> B_OK
            /\ tr = [Event (BEntry_new filename) entry;
                     Event (BEntry_InitCheck entry) rc])
        \/ (exists entry rc ref,
               rc <> B_OK
               /\ tr = [Event (BEntry_new filename) entry;
                        Event (BEntry_InitCheck entry) B_OK;
                        Event (BEntry_GetRef entry) (rc, ref)])
        \/ (exists entry ref rc,
               tr = [Event (BEntry_new filename) entry;
                     Event (BEntry_InitCheck entry) B_OK;
                     Event (BEntry_GetRef entry) (B_OK, ref);
                     Event (BMessage_AddRef message name ref) rc])).
Proof.
  unfold be_add_refs_data; simpl; intros Hex.
  run_accessor Hex;
    eexists; (split; [reflexivity|]); (split; [settle_translation|]);
    status_facts.
  - do 2 right; do 3 eexists; reflexivity.
  - do 2 right; do 3 eexists; reflexivity.
  - right; left; do 3 eexists; split; [eassumption | reflexivity].
  - left; do 2 eexists; split; [eassumption | reflexivity].
Qed.

Lemma be_add_point_data_runs (message : pointer) (name : string)
  (x y : float) (tr : list event) (o : outcome Z) :
  exec (be_add_point_data message name x y) tr o ->
  exists r rc,
    o = Returned r
    /\ tr = [Event (BMessage_AddPoint message name (mkBPoint x y)) rc]
    /\ translated r tr.
Proof.
  unfold be_add_point_data; simpl; intros Hex.
  run_accessor Hex;
    do 2 eexists; (split; [reflexivity|]); (split; [reflexivity|]);
    settle_translation.
Qed.

Lemma be_add_message_message_runs (message : pointer) (name : string)
  (data : pointer) (tr : list event) (o : outcome Z) :
  exec (be_add_message_message message name data) tr o ->
  exists r rc,
    o = Returned r
    /\ tr = [Event (BMessage_AddMessage message name data) rc]
    /\ translated r tr.
Proof.
  unfold be_add_message_message; simpl; intros Hex.
  run_accessor Hex;
    do 2 eexists; (split; [reflexivity|]); (split; [reflexivity|]);
    settle_translation.
Qed.

End AccessorFacts.

Section AccessorConvention.

Context {host : HostConstants}.

(** C4, as amended: each message and refs accessor returns 0 when every
    host call it makes reports [B_OK] and 1 as soon as one does not.  The
    stores an accessor performs itself ([*tc] and [*name_return] in
    [be_enum_message], [*path_buffer] in [be_get_refs_data], [*x] and
    [*y] in [be_get_point_data]) happen on the 0 path only.  The output
    pointers an accessor passes on to the host ([count] in
    [be_enum_message], [buf_return] and [size_return] in
    [be_get_message_data]) end up holding whatever the host call stored
    through them, on either path.

    The host calls whose statuses are translated are the accessor's own:
    every run of an accessor is one of the sequences of calls listed for
    it, made on the accessor's arguments and cut short at the first
    status that is not [B_OK].  [be_get_message_data] and
    [be_add_message_data] hand their [int32] type code to the host as
    the [uint32] it converts to, and [be_enum_message] stores the type
    code the host found as the [int32] it converts to. *)
Theorem message_accessors_translate_status :
  (forall message tc index count name_return tr o,
      exec (be_enum_message message tc index count name_return) tr o ->
      exists r tc' name' rc name type w_count,
        o = Returned (r, (tc', store_to w_count count, name'))
        /\ tr = [Event (BMessage_GetInfo message B_ANY_TYPE index)
                   (rc, name, type, w_count)]
        /\ translated r tr
        /\ (r <> 0 -> tc' = tc /\ name' = name_return)
        /\ (r = 0 -> tc' = Some (to_int32 type) /\ name' = Some name))
  /\ (forall message name index path_buffer tr o,
        exec (be_get_refs_data message name index path_buffer) tr o ->
        exists r path_buffer',
          o = Returned (r, path_buffer')
          /\ translated r tr
          /\ (r <> 0 -> path_buffer' = path_buffer)
          /\ (r = 0 -> exists copy, path_buffer' = Some copy)
          /\ ((exists rc ref,
                  rc <> B_OK
                  /\ tr = [Event (BMessage_FindRef message name index)
                             (rc, ref)])
              \/ (exists ref rc entry,
                     rc <> B_OK
                     /\ tr = [Event (BMessage_FindRef message name index)
                                (B_OK, ref);
                              Event (BEntry_SetTo ref false) (rc, entry)])
              \/ (exists ref entry rc path,
                     rc <> B_OK
                     /\ tr = [Event (BMessage_FindRef message name index)
                                (B_OK, ref);
                              Event (BEntry_SetTo ref false) (B_OK, entry);
                              Event (BEntry_GetPath entry) (rc, path)])
              \/ (exists ref entry path p copy,
                     tr = [Event (BMessage_FindRef message name index)
                             (B_OK, ref);
                           Event (BEntry_SetTo ref false) (B_OK, entry);
                           Event (BEntry_GetPath entry) (B_OK, path);
                           Event (BPath_Path path) p;
                           Event (strdup p) copy]
                     /\ path_buffer' = Some copy)))
  /\ (forall message name index x y tr o,
        exec (be_get_point_data message name index x y) tr o ->
        exists r x' y' rc point,
          o = Returned (r, (x', y'))
          /\ tr = [Event (BMessage_FindPoint message name index) (rc, point)]
          /\ translated r tr
          /\ (r <> 0 -> x' = x /\ y' = y)
          /\ (r = 0 ->
              x' = Some (point_x point) /\ y' = Some (point_y point)))
  /\ (forall message name type_code index buf_return size_return tr o,
        exec (be_get_message_data message name type_code index
                buf_return size_return) tr o ->
        exists r rc w_buf w_size,
          o = Returned (r, (store_to w_buf buf_return,
                            store_to w_size size_return))
          /\ tr = [Event (BMessage_FindData_at message name
                            (to_uint32 type_code) index)
                     (rc, w_buf, w_size)]
          /\ translated r tr)
  /\ (forall message name type_code buf buf_size tr o,
        exec (be_add_message_data message name type_code buf buf_size) tr o ->
        exists r rc,
          o = Returned r
          /\ tr = [Event (BMessage_AddData message name (to_uint32 type_code)
                            buf buf_size) rc]
          /\ translated r tr)
  /\ (forall message name filename tr o,
        exec (be_add_refs_data message name filename) tr o ->
        exists r,
          o = Returned r
          /\ translated r tr
          /\ ((exists entry rc,
                  rc <> B_OK
                  /\ tr = [Event (BEntry_new filename) entry;
                           Event (BEntry_InitCheck entry) rc])
              \/ (exists entry rc ref,
                     rc <> B_OK
                     /\ tr = [Event (BEntry_new filename) entry;
                              Event (BEntry_InitCheck entry) B_OK;
                              Event (BEntry_GetRef entry) (rc, ref)])
              \/ (exists entry ref rc,
                     tr = [Event (BEntry_new filename) entry;
                           Event (BEntry_InitCheck entry) B_OK;
                           Event (BEntry_GetRef entry) (B_OK, ref);
                           Event (BMessage_AddRef message name ref) rc])))
  /\ (forall message name x y tr o,
        exec (be_add_point_data message name x y) tr o ->
        exists r rc,
          o = Returned r
          /\ tr = [Event (BMessage_AddPoint message name (mkBPoint x y)) rc]
          /\ translated r tr)
  /\ (forall message name data tr o,
        exec (be_add_message_message message name data) tr o ->
        exists r rc,
          o = Returned r
          /\ tr = [Event (BMessage_AddMessage message name data) rc]
          /\ translated r tr).
Proof.
  split; [|split; [|split; [|split; [|split; [|split; [|split]]]]]]; intros.
  - eapply be_enum_message_runs; eassumption.
  - eapply be_get_refs_data_runs; eassumption.
  - eapply be_get_point_data_runs; eassumption.
  - eapply be_get_message_data_runs; eassumption.
  - eapply be_add_message_data_runs; eassumption.
  - eapply be_add_refs_data_runs; eassumption.
  - eapply be_add_point_data_runs; eassumption.
  - eapply be_add_message_message_runs; eassumption.
Qed.

End AccessorConvention.

(** C4 as stated fails for [be_get_message_data]: its output pointers go
    straight to [FindData], and a [FindData] that first stores [NULL]
    through [buf_return] and then fails (the behaviour
    [be_find_clipboard_data_1] relies on when it tests [ptr] without
    looking at the status) leaves the caller's cell changed although 1
    is returned. *)
Lemma be_get_message_data_stores_on_failure :
  ~ (forall message name type_code index buf_return size_return
            tr r buf' size',
        exec (be_get_message_data (host := haiku_constants)
                message name type_code index buf_return size_return)
             tr (Returned (r, (buf', size'))) ->
        r <> 0 -> buf' = buf_return /\ size' = size_return).
Proof.
  intros Hclaim.
  specialize (Hclaim 4096 "text/plain"%string 1296649541 0
                     (Some 8192) (Some 5)
                     [Event (BMessage_FindData_at 4096 "text/plain"
                               1296649541 0)
                            (-2147483641, Some NULL, None)]
                     1 (Some NULL) (Some 5)).
  destruct Hclaim as [Hbuf _].
  - simpl.
    exists (-2147483641, Some NULL, None), [].
    repeat split.
  - discriminate.
  - discriminate Hbuf.
Qed.

(** ** Reachable states *)

Section Reachable.

Context {host : HostConstants}.

(** After initialisation every stored counter is -1 or a count the host
    reported, so adding one to it never overflows. *)
Lemma session_counters_in_range (calls : list api_call) (tr : list event)
  (s : statics) :
  exec (session calls statics_after_init) tr (Returned s) ->
  forall id, -1 <= stored_count id s <= uint32_max.
Proof.
  intros Hex id.
  destruct (session_counter id _ _ _ _ (initialised_init _) Hex)
    as [_ [Heq | Hin]].
  - rewrite Heq; unfold uint32_max; destruct id; simpl; lia.
  - apply (exec_count_replies _ _ _ _ Hex) in Hin.
    unfold in_uint32 in Hin; lia.
Qed.

(** A [type] other than 0, 1 and 2 reaches the [abort] of
    [type_for_type] before anything else happens. *)
Lemma be_display_notification_aborts (title body : string)
  (supersedes type : Z) (icon : option string) (s : statics)
  (tr : list event) (o : outcome (Z * statics)) :
  ~ 0 <= type <= 2 ->
  exec (be_display_notification title body supersedes type icon s) tr o ->
  tr = [] /\ o = Stopped abort_called.
Proof.
  intros Hty Hex; unfold be_display_notification in Hex.
  rewrite (type_for_type_invalid _ Hty) in Hex; exact Hex.
Qed.

End Reachable.

(** * The properties on concrete runs *)

(** With a host that answers every call with zero, [NULL] or success. *)

Example owner_p_before_any_count :
  run_with (@some_reply)
    (be_clipboard_owner_p CLIPBOARD_PRIMARY statics_after_init)
  = ([], Returned false).
Proof. reflexivity. Qed.

Example owner_p_one_change_ahead :
  run_with (fun X c => match c in host_call X return X with
                       | BClipboard_SystemCount _ => 42
                       | c => some_reply c
                       end)
    (be_clipboard_owner_p CLIPBOARD_PRIMARY primary_recorded)
  = ([Event (BClipboard_SystemCount primary_cb) 42], Returned true).
Proof. reflexivity. Qed.

(** The counter is 0 and the host reports 1: owned.  It reports 0:
    not owned, and the host was asked. *)
Example owner_p_at_zero :
  run_with (fun X c => match c in host_call X return X with
                       | BClipboard_SystemCount _ => 1
                       | c => some_reply c
                       end)
    (be_clipboard_owner_p CLIPBOARD_SECONDARY
       (record_count CLIPBOARD_SECONDARY 0 statics_after_init))
  = ([Event (BClipboard_SystemCount secondary_cb) 1], Returned true)
  /\ run_with (@some_reply)
       (be_clipboard_owner_p CLIPBOARD_SECONDARY
          (record_count CLIPBOARD_SECONDARY 0 statics_after_init))
     = ([Event (BClipboard_SystemCount secondary_cb) 0], Returned false).
Proof. split; reflexivity. Qed.

(** A type code with the top bit set is stored in [*tc] as a negative
    [int32], and a negative [int32] type code reaches the host as the
    [uint32] above [2 ^ 31]. *)
Example enum_message_high_type_code :
  run_with (fun X c => match c in host_call X return X with
                       | BMessage_GetInfo _ _ _ =>
                           (0, 12288, 2147483649, Some 1)
                       | c => some_reply c
                       end)
    (be_enum_message (host := haiku_constants) 4096 None 0 None None)
  = ([Event (BMessage_GetInfo 4096 1095653716 0)
        (0, 12288, 2147483649, Some 1)],
     Returned (0, (Some (-2147483647), Some 1, Some 12288))).
Proof. reflexivity. Qed.

Example get_message_data_negative_type_code :
  fst (run_with (@some_reply)
         (be_get_message_data (host := haiku_constants)
            4096 "text" (-2147483647) 0 None None))
  = [Event (BMessage_FindData_at 4096 "text" 2147483649 0)
       (0, None, None)].
Proof. reflexivity. Qed.

Example outdated_after_recording :
  be_selection_outdated_p CLIPBOARD_PRIMARY 40 primary_recorded = true
  /\ be_selection_outdated_p CLIPBOARD_PRIMARY 41 primary_recorded = false
  /\ be_selection_outdated_p CLIPBOARD_SECONDARY 40 primary_recorded = false.
Proof. repeat split. Qed.

Example set_data_without_message :
  run_with (@some_reply)
    (be_set_clipboard_data (host := haiku_constants)
       CLIPBOARD_CLIPBOARD "text/plain" 8192 5 false statics_after_init)
  = ([Event (BClipboard_SystemCount system_cb) 0;
      Event (BClipboard_Lock system_cb) true;
      Event (BClipboard_Data system_cb) NULL;
      Event (BClipboard_Unlock system_cb) tt],
     Returned (record_count CLIPBOARD_CLIPBOARD 0 statics_after_init)).
Proof. reflexivity. Qed.

Example notification_of_unknown_type :
  run_with (@some_reply)
    (be_display_notification "title" "body" (-1) 3 None statics_after_init)
  = ([], Stopped abort_called).
Proof. reflexivity. Qed.

Example notification_identifier_text :
  fst (run_with (@some_reply)
         (be_display_notification "title" "body" 7 1 None statics_after_init))
  = [Event (BNotification_new B_IMPORTANT_NOTIFICATION) tt;
     Event (BNotification_SetTitle "title") tt;
     Event (BNotification_SetContent "body") tt;
     Event find_thread 0;
     Event (get_thread_info 0) (0, 0);
     Event (BNotification_SetMessageID "0.7") tt;
     Event BNotification_Send 0].
Proof. reflexivity. Qed.

Example before_init_is_undefined :
  run_with (@some_reply)
    (be_update_clipboard_count CLIPBOARD_PRIMARY statics_at_startup)
  = ([], Stopped undefined_behaviour).
Proof. reflexivity. Qed.

Ltac run_exec :=
  simpl;
  repeat first
    [ refine (conj eq_refl eq_refl)
    | refine (ex_intro _ _ (ex_intro _ _ (conj _ (conj eq_refl _))));
      [ first [ exact I | (unfold in_uint32, uint32_max; lia) ] | simpl ] ].

(** The host reports 42 for the primary selection while 41 is recorded:
    Emacs owns it.  Had it reported 43, it would not. *)
Lemma be_clipboard_owner_p_iff_witness :
  get_clipboard_object CLIPBOARD_PRIMARY primary_recorded = Some primary_cb
  /\ in_int64 (stored_count CLIPBOARD_PRIMARY primary_recorded)
  /\ exec (be_clipboard_owner_p CLIPBOARD_PRIMARY primary_recorded)
          [Event (BClipboard_SystemCount primary_cb) 42] (Returned true)
  /\ exec (be_clipboard_owner_p CLIPBOARD_PRIMARY primary_recorded)
          [Event (BClipboard_SystemCount primary_cb) 43] (Returned false)
  /\ exists r : bool,
      Returned true = Returned r
      /\ ((stored_count CLIPBOARD_PRIMARY primary_recorded < 0
           /\ [Event (BClipboard_SystemCount primary_cb) 42] = []
           /\ r = false)
          \/ (0 <= stored_count CLIPBOARD_PRIMARY primary_recorded
              /\ exists n,
                  in_uint32 n
                  /\ [Event (BClipboard_SystemCount primary_cb) 42]
                     = [Event (BClipboard_SystemCount primary_cb) n]
                  /\ r = (stored_count CLIPBOARD_PRIMARY primary_recorded + 1
                          =? n)))
      /\ (r = true <->
          0 <= stored_count CLIPBOARD_PRIMARY primary_recorded
          /\ count_replies primary_cb
               [Event (BClipboard_SystemCount primary_cb) 42]
             = [stored_count CLIPBOARD_PRIMARY primary_recorded + 1]).
Proof.
  assert (Hcb : get_clipboard_object CLIPBOARD_PRIMARY primary_recorded
                = Some primary_cb) by reflexivity.
  assert (Hrange : in_int64 (stored_count CLIPBOARD_PRIMARY primary_recorded))
    by (unfold in_int64, int64_min, int64_max; simpl; lia).
  assert (Hnonneg : 0 <= stored_count CLIPBOARD_PRIMARY primary_recorded)
    by (simpl; lia).
  assert (H42 : in_uint32 42) by (unfold in_uint32, uint32_max; lia).
  assert (H43 : in_uint32 43) by (unfold in_uint32, uint32_max; lia).
  pose proof (be_clipboard_owner_p_iff CLIPBOARD_PRIMARY primary_recorded
                primary_cb Hcb Hrange) as [Hall [_ Hrun]].
  split; [exact Hcb|]. split; [exact Hrange|].
  split; [exact (Hrun Hnonneg 42 H42)|].
  split; [exact (Hrun Hnonneg 43 H43)|].
  exact (Hall _ _ (Hrun Hnonneg 42 H42)).
Defined.

Lemma be_handle_clipboard_changed_message_disowns_witness :
  system_clipboard primary_recorded = Some system_cb
  /\ primary primary_recorded = Some primary_cb
  /\ secondary primary_recorded = Some secondary_cb
  /\ (forall id,
         int64_min <= stored_count id primary_recorded < int64_max)
  /\ exec (be_handle_clipboard_changed_message primary_recorded)
          primary_taken_trace
          (Returned (set_primary_state 41 false primary_recorded))
  /\ exists (n : haiku_clipboard -> Z) (s' : statics),
      Returned (set_primary_state 41 false primary_recorded) = Returned s' /\
      primary_taken_trace
      = [Event (BClipboard_SystemCount system_cb) (n CLIPBOARD_CLIPBOARD);
         Event (BClipboard_SystemCount primary_cb) (n CLIPBOARD_PRIMARY);
         Event (BClipboard_SystemCount secondary_cb) (n CLIPBOARD_SECONDARY)]
        ++ map disown_event (disowned primary_taken_trace) /\
      (forall id, stored_count id s' = stored_count id primary_recorded) /\
      (forall id m,
          In (id, m) (disowned primary_taken_trace)
          <-> lost id primary_recorded (n id) /\ m = n id) /\
      (forall id, lost id primary_recorded (n id) ->
                  owned_flag id s' = false) /\
      (forall id, ~ lost id primary_recorded (n id) ->
                  owned_flag id s' = owned_flag id primary_recorded) /\
      (forall id, n id = stored_count id primary_recorded + 1 ->
                  owned_flag id s' = owned_flag id primary_recorded /\
                  forall m, ~ In (id, m) (disowned primary_taken_trace)).
Proof.
  assert (Hrange : forall id,
             int64_min <= stored_count id primary_recorded < int64_max)
    by (intros []; unfold int64_min, int64_max; simpl; lia).
  assert (Hex : exec (be_handle_clipboard_changed_message primary_recorded)
                     primary_taken_trace
                     (Returned (set_primary_state 41 false primary_recorded)))
    by (unfold primary_taken_trace; run_exec).
  split; [reflexivity|]. split; [reflexivity|]. split; [reflexivity|].
  split; [exact Hrange|]. split; [exact Hex|].
  exact (be_handle_clipboard_changed_message_disowns primary_recorded
           system_cb primary_cb secondary_cb _ _
           eq_refl eq_refl eq_refl Hrange Hex).
Defined.

Lemma be_set_clipboard_data_writes_witness :
  get_clipboard_object CLIPBOARD_CLIPBOARD statics_after_init = Some system_cb
  /\ exec (be_set_clipboard_data (host := haiku_constants)
             CLIPBOARD_CLIPBOARD "text/plain" 8192 5 true statics_after_init)
          add_text_trace
          (Returned (record_count CLIPBOARD_CLIPBOARD 7 statics_after_init))
  /\ exists n rest s',
      add_text_trace = Event (BClipboard_SystemCount system_cb) n :: rest /\
      Returned (record_count CLIPBOARD_CLIPBOARD 7 statics_after_init)
      = Returned s' /\
      (rest = [Event (BClipboard_Lock system_cb) false]
       \/ exists pre,
           clear_part system_cb true pre /\
           (rest = Event (BClipboard_Lock system_cb) true
                     :: pre ++ [Event (BClipboard_Data system_cb) NULL;
                                Event (BClipboard_Unlock system_cb) tt]
            \/ exists m edit rc,
                m <> NULL /\
                edit_part (host := haiku_constants)
                  m "text/plain" 8192 5 edit /\
                rest = Event (BClipboard_Lock system_cb) true
                         :: pre ++ Event (BClipboard_Data system_cb) m
                         :: edit ++ [Event (BClipboard_Commit system_cb) rc;
                                     Event (BClipboard_Unlock system_cb) tt])).
Proof.
  assert (Hex : exec (be_set_clipboard_data (host := haiku_constants)
                        CLIPBOARD_CLIPBOARD "text/plain" 8192 5 true
                        statics_after_init)
                     add_text_trace
                     (Returned (record_count CLIPBOARD_CLIPBOARD 7
                                  statics_after_init)))
    by (unfold add_text_trace; run_exec).
  split; [reflexivity|]. split; [exact Hex|].
  exact (be_set_clipboard_data_writes (host := haiku_constants)
           CLIPBOARD_CLIPBOARD "text/plain" 8192 5 true statics_after_init
           system_cb _ _ eq_refl Hex).
Defined.

(** [be_add_message_data] called with the type code -1: the host sees
    4294967295, and its failure comes back as 1. *)
Lemma message_accessors_translate_status_witness :
  exec (be_add_message_data (host := haiku_constants) 4096 "text" (-1) 8192 5)
       [Event (BMessage_AddData 4096 "text" 4294967295 8192 5) (-2147483643)]
       (Returned 1)
  /\ exists r rc,
      Returned 1 = Returned r
      /\ [Event (BMessage_AddData 4096 "text" 4294967295 8192 5)
            (-2147483643)]
         = [Event (BMessage_AddData 4096 "text" (to_uint32 (-1)) 8192 5) rc]
      /\ translated (host := haiku_constants) r
           [Event (BMessage_AddData 4096 "text" 4294967295 8192 5)
              (-2147483643)].
Proof.
  assert (Hex : exec (be_add_message_data (host := haiku_constants)
                        4096 "text" (-1) 8192 5)
                     [Event (BMessage_AddData 4096 "text" 4294967295 8192 5)
                        (-2147483643)]
                     (Returned 1)) by run_exec.
  split; [exact Hex|].
  exact (proj1 (proj2 (proj2 (proj2 (proj2
           (message_accessors_translate_status (host := haiku_constants))))))
           4096 "text"%string (-1) 8192 5 _ _ Hex).
Defined.

Lemma be_update_clipboard_count_monotone_witness :
  exec (session (host := haiku_constants)
          [call_update_clipboard_count CLIPBOARD_PRIMARY] statics_after_init)
       [Event (BClipboard_SystemCount primary_cb) 41]
       (Returned primary_recorded)
  /\ exec (session (host := haiku_constants)
             [call_clipboard_owner_p CLIPBOARD_PRIMARY;
              call_update_clipboard_count CLIPBOARD_PRIMARY]
             primary_recorded)
          [Event (BClipboard_SystemCount primary_cb) 42;
           Event (BClipboard_SystemCount primary_cb) 42]
          (Returned (record_count CLIPBOARD_PRIMARY 42 primary_recorded))
  /\ nondecreasing
       (count_replies (clipboard_named CLIPBOARD_PRIMARY)
          ([Event (BClipboard_SystemCount primary_cb) 41]
             ++ [Event (BClipboard_SystemCount primary_cb) 42;
                 Event (BClipboard_SystemCount primary_cb) 42]))
  /\ stored_count CLIPBOARD_PRIMARY primary_recorded
     <= stored_count CLIPBOARD_PRIMARY
          (record_count CLIPBOARD_PRIMARY 42 primary_recorded).
Proof.
  assert (Hex1 : exec (session (host := haiku_constants)
                         [call_update_clipboard_count CLIPBOARD_PRIMARY]
                         statics_after_init)
                      [Event (BClipboard_SystemCount primary_cb) 41]
                      (Returned primary_recorded)) by run_exec.
  assert (Hex2 : exec (session (host := haiku_constants)
                         [call_clipboard_owner_p CLIPBOARD_PRIMARY;
                          call_update_clipboard_count CLIPBOARD_PRIMARY]
                         primary_recorded)
                      [Event (BClipboard_SystemCount primary_cb) 42;
                       Event (BClipboard_SystemCount primary_cb) 42]
                      (Returned (record_count CLIPBOARD_PRIMARY 42
                                   primary_recorded))) by run_exec.
  assert (Hmono : nondecreasing
       (count_replies (clipboard_named CLIPBOARD_PRIMARY)
          ([Event (BClipboard_SystemCount primary_cb) 41]
             ++ [Event (BClipboard_SystemCount primary_cb) 42;
                 Event (BClipboard_SystemCount primary_cb) 42])))
    by (simpl; intuition lia).
  split; [exact Hex1|]. split; [exact Hex2|]. split; [exact Hmono|].
  exact (proj2 (be_update_clipboard_count_monotone (host := haiku_constants))
           CLIPBOARD_PRIMARY _ _ _ _ _ _ Hex1 Hex2 Hmono).
Defined.

Lemma be_display_notification_identifier_witness :
  exec (be_display_notification "title" "body" (-1) 0 None statics_after_init)
       first_notification_trace
       (Returned (1, set_last_notification_id 1 statics_after_init))
  /\ exec (session (host := haiku_constants)
             [call_display_notification "other" "body" 1 1 None]
             (set_last_notification_id 1 statics_after_init))
          [Event (BNotification_new B_IMPORTANT_NOTIFICATION) tt;
           Event (BNotification_SetTitle "other") tt;
           Event (BNotification_SetContent "body") tt;
           Event find_thread 12;
           Event (get_thread_info 12) (0, 77);
           Event (BNotification_SetMessageID "77.1") tt;
           Event BNotification_Send 0]
          (Returned (set_last_notification_id 1 statics_after_init))
  /\ exec (be_display_notification "again" "body" (-1) 2 None
             (set_last_notification_id 1 statics_after_init))
          second_notification_trace
          (Returned (2, set_last_notification_id 2
                          (set_last_notification_id 1 statics_after_init)))
  /\ 1 < int64_max
  /\ 1 < 2.
Proof.
  assert (Hex1 : exec (be_display_notification "title" "body" (-1) 0 None
                         statics_after_init)
                      first_notification_trace
                      (Returned (1, set_last_notification_id 1
                                      statics_after_init)))
    by (unfold first_notification_trace; run_exec).
  assert (Hses : exec (session (host := haiku_constants)
             [call_display_notification "other" "body" 1 1 None]
             (set_last_notification_id 1 statics_after_init))
          [Event (BNotification_new B_IMPORTANT_NOTIFICATION) tt;
           Event (BNotification_SetTitle "other") tt;
           Event (BNotification_SetContent "body") tt;
           Event find_thread 12;
           Event (get_thread_info 12) (0, 77);
           Event (BNotification_SetMessageID "77.1") tt;
           Event BNotification_Send 0]
          (Returned (set_last_notification_id 1 statics_after_init)))
    by run_exec.
  assert (Hex2 : exec (be_display_notification "again" "body" (-1) 2 None
             (set_last_notification_id 1 statics_after_init))
          second_notification_trace
          (Returned (2, set_last_notification_id 2
                          (set_last_notification_id 1 statics_after_init))))
    by (unfold second_notification_trace; run_exec).
  assert (Hroom : 1 < int64_max) by (unfold int64_max; lia).
  assert (Hnone : forall a,
             In a [call_display_notification "other" "body" 1 1 None] ->
             allocates_id a = false).
  { intros a [<- | []]; reflexivity. }
  split; [exact Hex1|]. split; [exact Hses|]. split; [exact Hex2|].
  split; [exact Hroom|].
  exact (proj2 (be_display_notification_identifier (host := haiku_constants))
           _ _ (-1) _ _ _ _ (-1) _ _ _ _ _ _ _ _ _ _ _ _
           eq_refl eq_refl Hnone Hex1 Hses Hex2 Hroom).
Defined.

Lemma clipboards_kept_apart_witness :
  api_clipboard (call_set_clipboard_data CLIPBOARD_CLIPBOARD "text/plain"
                   8192 5 true) = Some CLIPBOARD_CLIPBOARD
  /\ exec (api_prog (host := haiku_constants)
             (call_set_clipboard_data CLIPBOARD_CLIPBOARD "text/plain"
                8192 5 true) statics_after_init)
          add_text_trace
          (Returned (record_count CLIPBOARD_CLIPBOARD 7 statics_after_init))
  /\ (forall e target,
         In e add_text_trace -> clipboard_target e = Some target ->
         get_clipboard_object CLIPBOARD_CLIPBOARD statics_after_init
         = Some target)
  /\ CLIPBOARD_PRIMARY <> CLIPBOARD_CLIPBOARD
  /\ stored_count CLIPBOARD_PRIMARY
       (record_count CLIPBOARD_CLIPBOARD 7 statics_after_init)
     = stored_count CLIPBOARD_PRIMARY statics_after_init
  /\ owned_flag CLIPBOARD_PRIMARY
       (record_count CLIPBOARD_CLIPBOARD 7 statics_after_init)
     = owned_flag CLIPBOARD_PRIMARY statics_after_init.
Proof.
  assert (Hex : exec (api_prog (host := haiku_constants)
             (call_set_clipboard_data CLIPBOARD_CLIPBOARD "text/plain"
                8192 5 true) statics_after_init)
          add_text_trace
          (Returned (record_count CLIPBOARD_CLIPBOARD 7 statics_after_init)))
    by (unfold add_text_trace; run_exec).
  assert (Hne : CLIPBOARD_PRIMARY <> CLIPBOARD_CLIPBOARD) by discriminate.
  destruct (clipboards_kept_apart (host := haiku_constants))
    as (_ & Hon & Hframe & _).
  split; [reflexivity|]. split; [exact Hex|].
  split; [exact (Hon (call_set_clipboard_data CLIPBOARD_CLIPBOARD
                         "text/plain"%string 8192 5 true)
                    CLIPBOARD_CLIPBOARD _ _ _ eq_refl Hex)|].
  split; [exact Hne|].
  exact (Hframe CLIPBOARD_CLIPBOARD CLIPBOARD_PRIMARY _ _ _ _ _ _ _ Hne Hex).
Defined.

Lemma be_set_clipboard_data_owns_before_write_witness :
  get_clipboard_object CLIPBOARD_CLIPBOARD statics_after_init = Some system_cb
  /\ in_uint32 9
  /\ exists s',
      exec (be_set_clipboard_data (host := haiku_constants)
              CLIPBOARD_CLIPBOARD "text/plain" 8192 5 true
              statics_after_init)
           [Event (BClipboard_SystemCount system_cb) 9;
            Event (BClipboard_Lock system_cb) false]
           (Returned s')
      /\ stored_count CLIPBOARD_CLIPBOARD s' = 9
      /\ owned_flag CLIPBOARD_CLIPBOARD s' = true.
Proof.
  assert (Hn : in_uint32 9) by (unfold in_uint32, uint32_max; lia).
  split; [reflexivity|]. split; [exact Hn|].
  exact (proj1 (proj2 (be_set_clipboard_data_owns_before_write
                         (host := haiku_constants)
                         CLIPBOARD_CLIPBOARD "text/plain" 8192 5 true
                         statics_after_init system_cb eq_refl))
           9 Hn).
Defined.

Lemma never_updated_never_owned_witness :
  (forall a, In a calls_without_primary ->
             updates_count CLIPBOARD_PRIMARY a = false)
  /\ exec (session (host := haiku_constants)
             calls_without_primary statics_after_init)
          trace_without_primary
          (Returned (record_count CLIPBOARD_SECONDARY 2 statics_after_init))
  /\ stored_count CLIPBOARD_PRIMARY
       (record_count CLIPBOARD_SECONDARY 2 statics_after_init) = -1
  /\ owned_flag CLIPBOARD_PRIMARY
       (record_count CLIPBOARD_SECONDARY 2 statics_after_init) = false.
Proof.
  assert (Hnever : forall a, In a calls_without_primary ->
                             updates_count CLIPBOARD_PRIMARY a = false).
  { intros a [<- | [<- | [<- | []]]]; reflexivity. }
  assert (Hex : exec (session (host := haiku_constants)
             calls_without_primary statics_after_init)
          trace_without_primary
          (Returned (record_count CLIPBOARD_SECONDARY 2 statics_after_init)))
    by (unfold trace_without_primary; run_exec).
  split; [exact Hnever|]. split; [exact Hex|].
  destruct (proj1 (proj2 (never_updated_never_owned
                            (host := haiku_constants)))
              CLIPBOARD_PRIMARY _ _ _ Hnever Hex) as (Hc & Ho & _).
  split; [exact Hc | exact Ho].
Defined.

(** * Further properties of the wrappers *)

(** Explores every path of a run, by cases on the host's replies. *)
Ltac explore H :=
  repeat first
    [ exec_call H
    | progress (repeat match goal with
                  | p : (_ * _)%type |- _ => destruct p
                  | u : unit |- _ => destruct u
                  end; simpl in H)
    | match type of H with
      | context [if negb ?b then _ else _] => destruct b eqn:?; simpl in H
      | context [if ?b then _ else _] => destruct b eqn:?; simpl in H
      end ];
  try exec_ret H.

(** ** Locking *)

Section LockFacts.

Context {host : HostConstants}.

Lemma be_find_clipboard_data_1_protocol (cb : BClipboard_ptr)
  (type : string) (len : option (cell Z)) (tr : list event)
  (o : outcome (pointer * option (cell Z))) :
  exec (be_find_clipboard_data_1 cb type len) tr o ->
  lock_protocol false tr = Some false.
Proof.
  unfold be_find_clipboard_data_1; destruct cb as [cb|]; simpl; intros Hex.
  - explore Hex; reflexivity.
  - exec_ret Hex; reflexivity.
Qed.

Lemma be_set_clipboard_data_1_protocol (cb : BClipboard_ptr)
  (type : string) (data : pointer) (len : Z) (clear : bool)
  (tr : list event) (o : outcome unit) :
  exec (be_set_clipboard_data_1 cb type data len clear) tr o ->
  lock_protocol false tr = Some false.
Proof.
  unfold be_set_clipboard_data_1; destruct cb as [cb|]; simpl; intros Hex.
  - explore Hex; reflexivity.
  - exec_ret Hex; reflexivity.
Qed.

End LockFacts.

Section LockDiscipline.

Context {host : HostConstants}.

Lemma lock_protocol_app (held held' : bool) (tr1 tr2 : list event) :
  lock_protocol held tr1 = Some held' ->
  lock_protocol held (tr1 ++ tr2) = lock_protocol held' tr2.
Proof.
  revert held; induction tr1 as [| e tr1 IH]; simpl; intros held Hp.
  - injection Hp as ->; reflexivity.
  - destruct (lock_step held e) as [h|]; [auto | discriminate].
Qed.

Lemma be_update_clipboard_count_protocol (id : haiku_clipboard)
  (s : statics) (held : bool) (tr : list event) (o : outcome statics) :
  exec (be_update_clipboard_count id s) tr o ->
  lock_protocol held tr = Some held.
Proof.
  rewrite be_update_clipboard_count_unfold.
  destruct (get_clipboard_object id s) as [cb|]; simpl; intros Hex.
  - exec_call Hex. exec_ret Hex. reflexivity.
  - exec_ret Hex. reflexivity.
Qed.

(** X1: [be_find_clipboard_data] and [be_set_clipboard_data] follow the
    locking protocol on every path.  They touch the clipboard's data
    ([Data], [Clear], [Commit], the message's entries, the copy out of
    the message) only between a successful [Lock] and the [Unlock], they
    never lock twice, and whatever the host answers they have released
    the lock when they return: after a failed [Lock] nothing is unlocked,
    after a successful one the clipboard is unlocked exactly once. *)
Theorem clipboard_access_follows_lock_protocol :
  (forall id type len s tr o,
      exec (be_find_clipboard_data id type len s) tr o ->
      lock_protocol false tr = Some false)
  /\ (forall id type data len clear s tr o,
        exec (be_set_clipboard_data id type data len clear s) tr o ->
        lock_protocol false tr = Some false).
Proof.
  split.
  - intros id type len s tr o Hex.
    eapply be_find_clipboard_data_1_protocol; exact Hex.
  - intros id type data len clear s tr o Hex.
    unfold be_set_clipboard_data in Hex.
    apply exec_bind in Hex
        as [(tr1 & tr2 & s' & -> & Hup & Hex) | (why & Hup & _)].
    + rewrite (lock_protocol_app false false)
        by (eapply be_update_clipboard_count_protocol; exact Hup).
      apply exec_bind in Hex
          as [(tr3 & tr4 & [] & -> & Hw & Hret) | (why & Hw & _)].
      * destruct Hret as [-> _]; rewrite app_nil_r.
        eapply be_set_clipboard_data_1_protocol; exact Hw.
      * eapply be_set_clipboard_data_1_protocol; exact Hw.
    + eapply be_update_clipboard_count_protocol; exact Hup.
Qed.

End LockDiscipline.

Lemma clipboard_access_follows_lock_protocol_witness :
  exec (be_find_clipboard_data (host := haiku_constants)
          CLIPBOARD_CLIPBOARD "text/plain" (Some None) statics_after_init)
       read_text_trace (Returned (16384, Some (Some 5)))
  /\ lock_protocol false read_text_trace = Some false
  /\ exec (be_set_clipboard_data (host := haiku_constants)
             CLIPBOARD_CLIPBOARD "text/plain" 8192 5 true statics_after_init)
          add_text_trace
          (Returned (record_count CLIPBOARD_CLIPBOARD 7 statics_after_init))
  /\ lock_protocol false add_text_trace = Some false.
Proof.
  assert (Hfind : exec (be_find_clipboard_data (host := haiku_constants)
                          CLIPBOARD_CLIPBOARD "text/plain" (Some None)
                          statics_after_init)
                       read_text_trace (Returned (16384, Some (Some 5))))
    by (unfold read_text_trace; run_exec).
  assert (Hset : exec (be_set_clipboard_data (host := haiku_constants)
                         CLIPBOARD_CLIPBOARD "text/plain" 8192 5 true
                         statics_after_init)
                      add_text_trace
                      (Returned (record_count CLIPBOARD_CLIPBOARD 7
                                   statics_after_init)))
    by (unfold add_text_trace; run_exec).
  destruct (clipboard_access_follows_lock_protocol (host := haiku_constants))
    as [Hf Hs].
  split; [exact Hfind|]. split; [exact (Hf _ _ _ _ _ _ Hfind)|].
  split; [exact Hset|]. exact (Hs _ _ _ _ _ _ _ _ Hset).
Defined.

(** ** Reading from a clipboard *)

Section FindFacts.

Context {host : HostConstants}.

(** X2: [be_find_clipboard_data] returns [NULL] and leaves [*len] alone
    when the clipboard cannot be locked, when it has no message, or when
    [FindData] leaves no data pointer.  Otherwise it stores the size
    [FindData] gave in [*len] (if [len] is not [NULL]) and returns the
    block [malloc] gave for that size, after a [memcpy] of that many
    bytes from the message into the block, made before the clipboard is
    unlocked.  The status [FindData] returns plays no part. *)
Theorem be_find_clipboard_data_result :
  forall id type len s cb tr o,
    get_clipboard_object id s = Some cb ->
    exec (be_find_clipboard_data id type len s) tr o ->
    exists value len',
      o = Returned (value, len')
      /\ ((value = NULL /\ len' = len
           /\ (tr = [Event (BClipboard_Lock cb) false]
               \/ tr = [Event (BClipboard_Lock cb) true;
                        Event (BClipboard_Data cb) NULL;
                        Event (BClipboard_Unlock cb) tt]
               \/ exists m rc nbytes,
                   m <> NULL
                   /\ tr = [Event (BClipboard_Lock cb) true;
                            Event (BClipboard_Data cb) m;
                            Event (BMessage_FindData m type B_MIME_TYPE)
                                  (rc, NULL, nbytes);
                            Event (BClipboard_Unlock cb) tt]))
          \/ exists m rc ptr nbytes,
              m <> NULL /\ ptr <> NULL
              /\ tr = [Event (BClipboard_Lock cb) true;
                       Event (BClipboard_Data cb) m;
                       Event (BMessage_FindData m type B_MIME_TYPE)
                             (rc, ptr, nbytes);
                       Event (malloc nbytes) value;
                       Event (memcpy value ptr nbytes) tt;
                       Event (BClipboard_Unlock cb) tt]
              /\ len' = match len with
                        | Some _ => Some (Some nbytes)
                        | None => None
                        end).
Proof.
  intros id type len s cb tr o Hcb Hex.
  unfold be_find_clipboard_data, be_find_clipboard_data_1 in Hex.
  rewrite Hcb in Hex; simpl in Hex.
  exec_call Hex. destruct x; simpl in Hex.
  2: { exec_ret Hex. exists NULL, len; split; [reflexivity|].
       left; auto. }
  exec_call Hex. rename x into m.
  destruct (is_null m) eqn:Hm; simpl in Hex.
  { apply is_null_true in Hm; subst m.
    exec_call Hex. exec_ret Hex. destruct x.
    exists NULL, len; split; [reflexivity|]. left; auto. }
  apply is_null_false in Hm.
  exec_call Hex. destruct x as [[rc ptr] nbytes]; simpl in Hex.
  destruct (is_null ptr) eqn:Hptr; simpl in Hex.
  { apply is_null_true in Hptr; subst ptr.
    exec_call Hex. exec_ret Hex. destruct x.
    exists NULL, len; split; [reflexivity|].
    left; split; [reflexivity|]. split; [reflexivity|].
    right; right; exists m, rc, nbytes; auto. }
  apply is_null_false in Hptr.
  exec_call Hex. rename x into value.
  exec_call Hex. exec_call Hex. exec_ret Hex. destruct x, x0.
  eexists value, _; split; [reflexivity|].
  right; exists m, rc, ptr, nbytes; auto.
Qed.

(** X3: the block [malloc] returns is never tested.  In every run of
    [be_find_clipboard_data] each [malloc] is directly followed by the
    [memcpy] into the block it returned; and when the entry is there and
    [malloc] returns [NULL], the run goes on with [memcpy] into [NULL]:
    the test made after [malloc] looks at the message pointer, which is
    known not to be [NULL] at that point. *)
Theorem be_find_clipboard_data_ignores_malloc_failure :
  forall id type len s cb,
    get_clipboard_object id s = Some cb ->
    (forall tr o,
        exec (be_find_clipboard_data id type len s) tr o ->
        copies_into_every_block tr = true)
    /\ (forall m rc ptr nbytes,
          m <> NULL -> ptr <> NULL ->
          exec (be_find_clipboard_data id type len s)
               [Event (BClipboard_Lock cb) true;
                Event (BClipboard_Data cb) m;
                Event (BMessage_FindData m type B_MIME_TYPE)
                      (rc, ptr, nbytes);
                Event (malloc nbytes) NULL;
                Event (memcpy NULL ptr nbytes) tt;
                Event (BClipboard_Unlock cb) tt]
               (Returned (NULL, match len with
                                | Some _ => Some (Some nbytes)
                                | None => None
                                end))).
Proof.
  intros id type len s cb Hcb; split.
  - intros tr o Hex.
    unfold be_find_clipboard_data, be_find_clipboard_data_1 in Hex.
    rewrite Hcb in Hex; simpl in Hex.
    explore Hex; simpl; rewrite ?Z.eqb_refl; reflexivity.
  - intros m rc ptr nbytes Hm Hptr.
    apply is_null_false in Hm, Hptr.
    unfold be_find_clipboard_data, be_find_clipboard_data_1.
    rewrite Hcb; simpl.
    eexists true, _; split; [exact I|]; split; [reflexivity|]; simpl.
    eexists m, _; split; [exact I|]; split; [reflexivity|]; simpl.
    rewrite Hm; simpl.
    eexists (rc, ptr, nbytes), _; split; [exact I|]; split; [reflexivity|].
    simpl; rewrite Hptr; simpl.
    eexists NULL, _; split; [exact I|]; split; [reflexivity|]; simpl.
    eexists tt, _; split; [exact I|]; split; [reflexivity|]; simpl.
    eexists tt, _; split; [exact I|]; split; [reflexivity|]; simpl.
    auto.
Qed.

End FindFacts.

(** ** Handing the clipboard's message to the caller *)

Section LockMessageFacts.

Context {host : HostConstants}.

(** X4: [be_lock_clipboard_message] returns 1 when the clipboard cannot
    be locked, and then does nothing else and leaves [*message_return]
    alone.  Otherwise it returns 0 with the lock held, having called
    [Clear] exactly when [clear] is set, and [*message_return] is what
    [Data] returned, which is not tested and may be [NULL].  A following
    [be_unlock_clipboard] on the same clipboard releases the lock, and
    between them the two calls commit the clipboard exactly when
    [discard] is false; with [discard] they call [Revert] instead. *)
Theorem be_lock_clipboard_message_then_unlock :
  forall id message_return clear discard s cb tr1 o1,
    get_clipboard_object id s = Some cb ->
    exec (be_lock_clipboard_message id message_return clear s) tr1 o1 ->
    (o1 = Returned (1, message_return)
     /\ tr1 = [Event (BClipboard_Lock cb) false])
    \/ (exists m pre,
           o1 = Returned (0, Some m)
           /\ clear_part cb clear pre
           /\ tr1 = Event (BClipboard_Lock cb) true
                      :: pre ++ [Event (BClipboard_Data cb) m]
           /\ lock_protocol false tr1 = Some true
           /\ forall tr2 o2,
               exec (be_unlock_clipboard id discard s) tr2 o2 ->
               o2 = Returned tt
               /\ lock_protocol false (tr1 ++ tr2) = Some false
               /\ existsb is_write (tr1 ++ tr2) = negb discard
               /\ exists rc,
                   tr2 = [Event (if discard
                                 then BClipboard_Revert cb
                                 else BClipboard_Commit cb) rc;
                          Event (BClipboard_Unlock cb) tt]).
Proof.
  intros id message_return clear discard s cb tr1 o1 Hcb Hex.
  unfold be_lock_clipboard_message in Hex; rewrite Hcb in Hex.
  simpl in Hex.
  exec_call Hex. destruct x; simpl in Hex.
  2: { exec_ret Hex; left; auto. }
  right.
  assert (Hunlock : forall tr2 o2,
             exec (be_unlock_clipboard id discard s) tr2 o2 ->
             o2 = Returned tt
             /\ exists rc,
                 tr2 = [Event (if discard
                               then BClipboard_Revert cb
                               else BClipboard_Commit cb) rc;
                        Event (BClipboard_Unlock cb) tt]).
  { intros tr2 o2 Hun.
    unfold be_unlock_clipboard in Hun; rewrite Hcb in Hun.
    destruct discard; simpl in Hun;
      exec_call Hun; exec_call Hun; exec_ret Hun; destruct x0;
      split; [reflexivity | exists x; reflexivity
             | reflexivity | exists x; reflexivity]. }
  destruct clear; simpl in Hex.
  - exec_call Hex. exec_call Hex. exec_ret Hex.
    exists x0, [Event (BClipboard_Clear cb) x].
    split; [reflexivity|]. split; [exists x; reflexivity|].
    split; [reflexivity|]. split; [reflexivity|].
    intros tr2 o2 Hun.
    destruct (Hunlock _ _ Hun) as [-> [rc ->]].
    split; [reflexivity|].
    destruct discard; simpl; eauto.
  - exec_call Hex. exec_ret Hex.
    exists x, [].
    split; [reflexivity|]. split; [reflexivity|].
    split; [reflexivity|]. split; [reflexivity|].
    intros tr2 o2 Hun.
    destruct (Hunlock _ _ Hun) as [-> [rc ->]].
    split; [reflexivity|].
    destruct discard; simpl; eauto.
Qed.

End LockMessageFacts.

(** ** Nested messages *)

Section NestedMessageFacts.

Context {host : HostConstants}.

(** X5: [be_get_message_message] allocates exactly one message and
    either returns it or deletes it, never both.  It returns [NULL]
    exactly when the allocation or [FindMessage] failed; when
    [FindMessage] fails the message just allocated is deleted before
    returning, and when the allocation fails [FindMessage] is not called
    and nothing is deleted. *)
Theorem be_get_message_message_owns_result :
  forall message name index tr o,
    exec (be_get_message_message message name index) tr o ->
    exists out result,
      o = Returned result
      /\ new_messages tr = [out]
      /\ ((out = NULL /\ result = NULL /\ deleted_messages tr = []
           /\ statuses tr = [])
          \/ (out <> NULL /\ result = out /\ deleted_messages tr = []
              /\ statuses tr = [B_OK])
          \/ (out <> NULL /\ result = NULL /\ deleted_messages tr = [out]
              /\ exists rc, rc <> B_OK /\ statuses tr = [rc])).
Proof.
  intros message name index tr o Hex.
  unfold be_get_message_message in Hex; simpl in Hex.
  exec_call Hex. rename x into out.
  destruct (is_null out) eqn:Hout; simpl in Hex.
  - apply is_null_true in Hout; subst out. exec_ret Hex.
    exists NULL, NULL; split; [reflexivity|]. split; [reflexivity|].
    left; auto.
  - apply is_null_false in Hout.
    exec_call Hex.
    destruct (Z.eqb_spec x B_OK) as [-> | Hrc]; simpl in Hex.
    + exec_ret Hex.
      exists out, out; split; [reflexivity|]. split; [reflexivity|].
      right; left; auto.
    + exec_call Hex. exec_ret Hex.
      exists out, NULL; split; [reflexivity|]. split; [reflexivity|].
      right; right.
      split; [assumption|]. split; [reflexivity|]. split; [reflexivity|].
      exists x; auto.
Qed.

End NestedMessageFacts.

(** ** File references *)

Section RefsFacts.

Context {host : HostConstants}.

(** X6: when [be_get_refs_data] returns 0, the string stored in
    [*path_buffer] is the [strdup] of the path of the entry set to the
    ref found under [name] at [index]: each host call receives what the
    previous one produced.  The result of [strdup] is stored untested, so
    0 can come with a [NULL] path.  When it returns 1, the first failing
    call was the last one made and no string was duplicated. *)
Theorem be_get_refs_data_path :
  forall message name index path_buffer,
    (forall tr o,
        exec (be_get_refs_data message name index path_buffer) tr o ->
        (exists ref entry path p copy,
            o = Returned (0, Some copy)
            /\ tr = [Event (BMessage_FindRef message name index) (B_OK, ref);
                     Event (BEntry_SetTo ref false) (B_OK, entry);
                     Event (BEntry_GetPath entry) (B_OK, path);
                     Event (BPath_Path path) p;
                     Event (strdup p) copy])
        \/ (o = Returned (1, path_buffer)
            /\ duplicated tr = []
            /\ exists oks rc,
                rc <> B_OK
                /\ statuses tr = oks ++ [rc]
                /\ Forall (fun ok => ok = B_OK) oks
                /\ (List.length oks <= 2)%nat))
    /\ (forall ref entry path p,
          exec (be_get_refs_data message name index path_buffer)
               [Event (BMessage_FindRef message name index) (B_OK, ref);
                Event (BEntry_SetTo ref false) (B_OK, entry);
                Event (BEntry_GetPath entry) (B_OK, path);
                Event (BPath_Path path) p;
                Event (strdup p) NULL]
               (Returned (0, Some NULL))).
Proof.
  intros message name index path_buffer; split.
  - intros tr o Hex.
    unfold be_get_refs_data in Hex; simpl in Hex.
    exec_call Hex. destruct x as [rc1 ref].
    destruct (Z.eqb_spec rc1 B_OK) as [-> | H1]; simpl in Hex.
    2: { exec_ret Hex; right.
         split; [reflexivity|]. split; [reflexivity|].
         exists [], rc1; simpl;
           repeat split; auto; lia. }
    exec_call Hex. destruct x as [rc2 entry].
    destruct (Z.eqb_spec rc2 B_OK) as [-> | H2]; simpl in Hex.
    2: { exec_ret Hex; right.
         split; [reflexivity|]. split; [reflexivity|].
         exists [B_OK], rc2; simpl;
           repeat split; auto; lia. }
    exec_call Hex. destruct x as [rc3 path].
    destruct (Z.eqb_spec rc3 B_OK) as [-> | H3]; simpl in Hex.
    2: { exec_ret Hex; right.
         split; [reflexivity|]. split; [reflexivity|].
         exists [B_OK; B_OK], rc3; simpl;
           repeat split; auto; lia. }
    exec_call Hex. exec_call Hex. exec_ret Hex.
    left; exists ref, entry, path, x, x0; auto.
  - intros ref entry path p.
    unfold be_get_refs_data; simpl.
    eexists (B_OK, ref), _; split; [exact I|]; split; [reflexivity|].
    rewrite Z.eqb_refl; simpl.
    eexists (B_OK, entry), _; split; [exact I|]; split; [reflexivity|].
    rewrite Z.eqb_refl; simpl.
    eexists (B_OK, path), _; split; [exact I|]; split; [reflexivity|].
    rewrite Z.eqb_refl; simpl.
    eexists p, _; split; [exact I|]; split; [reflexivity|]; simpl.
    eexists NULL, _; split; [exact I|]; split; [reflexivity|]; simpl.
    auto.
Qed.

(** X7: [be_add_refs_data] touches the message only after the entry for
    [filename] has initialised and yielded a ref: either it returns 1
    without any call on the message, or it made exactly the calls
    [BEntry (filename)], [InitCheck], [GetRef] and [AddRef] of the ref
    obtained, under [name], and returns 0 or 1 as [AddRef] did or did
    not return [B_OK]. *)
Theorem be_add_refs_data_touches_message_last :
  forall message name filename tr o,
    exec (be_add_refs_data message name filename) tr o ->
    (o = Returned 1 /\ existsb touches_message tr = false)
    \/ (exists entry ref rc,
           tr = [Event (BEntry_new filename) entry;
                 Event (BEntry_InitCheck entry) B_OK;
                 Event (BEntry_GetRef entry) (B_OK, ref);
                 Event (BMessage_AddRef message name ref) rc]
           /\ o = Returned (if rc =? B_OK then 0 else 1)).
Proof.
  intros message name filename tr o Hex.
  unfold be_add_refs_data in Hex; simpl in Hex.
  exec_call Hex. rename x into entry.
  exec_call Hex.
  destruct (Z.eqb_spec x B_OK) as [-> | H1]; simpl in Hex.
  2: { exec_ret Hex; left; auto. }
  exec_call Hex. destruct x as [rc2 ref].
  destruct (Z.eqb_spec rc2 B_OK) as [-> | H2]; simpl in Hex.
  2: { exec_ret Hex; left; auto. }
  exec_call Hex. exec_ret Hex.
  right; exists entry, ref, x; split; [reflexivity|].
  destruct (x =? B_OK); reflexivity.
Qed.

End RefsFacts.

(** ** Ownership after a write *)

Section OwnerAfterWrite.

Context {host : HostConstants}.

Lemma owner_p_after_recording (id : haiku_clipboard) (s : statics)
  (cb : BClipboard) (n : Z) (tr : list event) (o : outcome bool) :
  get_clipboard_object id s = Some cb ->
  in_uint32 n ->
  exec (be_clipboard_owner_p id (record_count id n s)) tr o ->
  exists m,
    in_uint32 m
    /\ tr = [Event (BClipboard_SystemCount cb) m]
    /\ o = Returned (n + 1 =? m).
Proof.
  intros Hcb Hn Hex.
  rewrite owner_p_unfold, record_count_objects, Hcb in Hex.
  destruct (record_count_own id n s) as [Hc _]; rewrite Hc in Hex.
  assert (Hle : (0 <=? n) = true)
    by (apply Z.leb_le; unfold in_uint32 in Hn; lia).
  rewrite Hle in Hex; simpl in Hex.
  exec_call Hex. exec_ret Hex.
  exists x; split; [assumption|]. split; [reflexivity|].
  rewrite add64_succ_eqb_uint32; auto.
  unfold in_uint32, uint32_max, in_int64, int64_min, int64_max in *; lia.
Qed.

(** X8: after [be_set_clipboard_data] or [be_update_clipboard_count]
    for [id], [be_clipboard_owner_p (id)] asks the host for the system
    count again and answers true exactly when that count is one more
    than the count read at the start of the earlier call.  So ownership
    is reported once the count has moved by the one change the write
    commits, and is not reported while the count has not moved (a write
    that did not commit) or has moved further. *)
Theorem owner_p_after_write :
  forall id s cb,
    get_clipboard_object id s = Some cb ->
    (forall type data len clear tr1 s1 tr2 o,
        exec (be_set_clipboard_data id type data len clear s) tr1
             (Returned s1) ->
        exec (be_clipboard_owner_p id s1) tr2 o ->
        exists n rest m,
          tr1 = Event (BClipboard_SystemCount cb) n :: rest
          /\ tr2 = [Event (BClipboard_SystemCount cb) m]
          /\ o = Returned (n + 1 =? m))
    /\ (forall tr1 s1 tr2 o,
          exec (be_update_clipboard_count id s) tr1 (Returned s1) ->
          exec (be_clipboard_owner_p id s1) tr2 o ->
          exists n m,
            tr1 = [Event (BClipboard_SystemCount cb) n]
            /\ tr2 = [Event (BClipboard_SystemCount cb) m]
            /\ o = Returned (n + 1 =? m)).
Proof.
  intros id s cb Hcb; split.
  - intros type data len clear tr1 s1 tr2 o Hset Hown.
    destruct (be_set_clipboard_data_runs _ _ _ _ _ _ _ _ _ Hcb Hset)
      as (n & rest & Hn & -> & _ & Heq).
    injection Heq as ->.
    destruct (owner_p_after_recording _ _ _ _ _ _ Hcb Hn Hown)
      as (m & _ & -> & ->).
    exists n, rest, m; auto.
  - intros tr1 s1 tr2 o Hup Hown.
    destruct (be_update_clipboard_count_runs _ _ _ _ _ Hcb Hup)
      as (n & Hn & -> & Heq).
    injection Heq as ->.
    destruct (owner_p_after_recording _ _ _ _ _ _ Hcb Hn Hown)
      as (m & _ & -> & ->).
    exists n, m; auto.
Qed.

End OwnerAfterWrite.

(** ** Disowning happens once *)

Lemma disowned_of_app (id : haiku_clipboard) (tr1 tr2 : list event) :
  disowned_of id (tr1 ++ tr2) = disowned_of id tr1 ++ disowned_of id tr2.
Proof. unfold disowned_of; rewrite disowned_app; apply filter_app. Qed.

Lemma disowned_of_none (id : haiku_clipboard) (tr : list event) :
  (forall m, ~ In (id, m) (disowned tr)) -> disowned_of id tr = [].
Proof.
  unfold disowned_of; induction (disowned tr) as [| [id' m] l IH];
    simpl; intros Hnone; [reflexivity|].
  destruct (haiku_clipboard_eqb id' id) eqn:E.
  - apply haiku_clipboard_eqb_eq in E; subst id'.
    exfalso; apply (Hnone m); left; reflexivity.
  - apply IH; intros m' Hin; apply (Hnone m'); right; exact Hin.
Qed.

Section DisownOnce.

Context {host : HostConstants}.

Lemma be_handle_clipboard_changed_message_once (id : haiku_clipboard)
  (s s' : statics) (tr : list event) :
  exec (be_handle_clipboard_changed_message s) tr (Returned s') ->
  (List.length (disowned_of id tr) <= 1)%nat
  /\ (disowned_of id tr <> [] -> owned_flag id s' = false).
Proof.
  unfold be_handle_clipboard_changed_message.
  destruct (system_clipboard s) as [cc|]; simpl;
    [| intros [_ Heq]; discriminate].
  intros Hex; exec_call Hex.
  destruct (primary s) as [cp|]; simpl in Hex;
    [| destruct Hex as [_ Heq]; discriminate].
  exec_call Hex.
  destruct (secondary s) as [cs|]; simpl in Hex;
    [| destruct Hex as [_ Heq]; discriminate].
  exec_call Hex.
  destruct (negb (count_clipboard s =? -1) && _ && owned_clipboard s) eqn:Ec;
    simpl in Hex; [exec_call Hex; clear Hok2 |];
    (destruct (negb (count_primary s =? -1) && _ && owned_primary s) eqn:Ep;
     simpl in Hex; [exec_call Hex; clear Hok2 |]);
    (destruct (negb (count_secondary s =? -1) && _ && owned_secondary s) eqn:Es;
     simpl in Hex; [exec_call Hex; clear Hok2 |]);
    destruct Hex as [-> Heq]; injection Heq as Heq; subst s';
    destruct id; unfold disowned_of; simpl;
    (split; [lia | intros Hne; try reflexivity; congruence]).
Qed.

Lemma api_prog_disowns_once (id : haiku_clipboard) (a : api_call)
  (s s' : statics) (tr : list event) :
  initialised s ->
  updates_count id a = false ->
  exec (api_prog a s) tr (Returned s') ->
  initialised s'
  /\ (List.length (disowned_of id tr) <= 1)%nat
  /\ (disowned_of id tr <> [] -> owned_flag id s' = false)
  /\ (owned_flag id s = false ->
      disowned_of id tr = [] /\ owned_flag id s' = false).
Proof.
  intros Hinit Ha Hex.
  destruct (api_prog_effect id _ _ _ _ Hinit Hex) as [Hinit' Heff].
  unfold effect_on in Heff; rewrite Ha in Heff.
  destruct Heff as (_ & Hown & Hdis).
  split; [exact Hinit'|].
  assert (Hunowned : owned_flag id s = false ->
                     disowned_of id tr = [] /\ owned_flag id s' = false).
  { intros Hs; split.
    - apply disowned_of_none; intros m Hin.
      apply Hdis in Hin as [_ Hin]; congruence.
    - destruct (owned_flag id s'); [| reflexivity].
      rewrite Hown in Hs; [discriminate | reflexivity]. }
  assert (Hhandle : a = call_handle_clipboard_changed_message
                    \/ a <> call_handle_clipboard_changed_message).
  { destruct a; (left; reflexivity) || (right; discriminate). }
  destruct Hhandle as [-> | Hother].
  - destruct (be_handle_clipboard_changed_message_once id _ _ _ Hex).
    auto.
  - assert (Hquiet : disowned tr = []).
    { apply disowned_quiet.
      eapply all_calls_exec; [apply api_prog_quiet; exact Hother | exact Hex]. }
    unfold disowned_of in *; rewrite Hquiet in *; simpl.
    split; [lia|]. split; [congruence | exact Hunowned].
Qed.

(** X9: between two recordings of its count a selection is disowned at
    most once.  Along any sequence of calls made after initialisation
    that contains no [be_update_clipboard_count] and no
    [be_set_clipboard_data] for [id], [haiku_selection_disowned] is
    called for [id] at most once, however many change notifications
    arrive and whatever counts the host reports; once it has been
    called the owned flag of [id] is down, and it stays down. *)
Theorem selection_disowned_at_most_once :
  forall id calls s tr s',
    initialised s ->
    (forall a, In a calls -> updates_count id a = false) ->
    exec (session calls s) tr (Returned s') ->
    (List.length (disowned_of id tr) <= 1)%nat
    /\ (disowned_of id tr <> [] -> owned_flag id s' = false)
    /\ (owned_flag id s = false ->
        disowned_of id tr = [] /\ owned_flag id s' = false).
Proof.
  intros id calls; induction calls as [| a rest IH];
    intros s tr s' Hinit Hnever Hex.
  - destruct Hex as [-> Heq]; injection Heq as Heq; subst s'.
    unfold disowned_of; simpl.
    split; [lia|]. split; [congruence | auto].
  - apply session_cons in Hex as (tr1 & tr2 & s1 & -> & Ha & Hrest).
    destruct (api_prog_disowns_once id _ _ _ _ Hinit
                (Hnever a (or_introl eq_refl)) Ha)
      as (Hinit1 & Hlen1 & Hdown1 & Hun1).
    destruct (IH s1 tr2 s' Hinit1
                (fun a' Ha' => Hnever a' (or_intror Ha')) Hrest)
      as (Hlen2 & Hdown2 & Hun2).
    rewrite disowned_of_app.
    destruct (disowned_of id tr1) as [| d l] eqn:E1; simpl.
    + split; [exact Hlen2|]. split; [exact Hdown2|].
      intros Hs; destruct (Hun1 Hs) as [_ Hs1]; exact (Hun2 Hs1).
    + assert (Hs1 : owned_flag id s1 = false)
        by (apply Hdown1; discriminate).
      destruct (Hun2 Hs1) as [E2 Hs'].
      rewrite E2, app_nil_r.
      split; [exact Hlen1|]. split; [intros _; exact Hs'|].
      intros Hs; destruct (Hun1 Hs) as [Habs _]; discriminate Habs.
Qed.

End DisownOnce.

(** ** What every reachable state satisfies *)

Section Bookkeeping.

Context {host : HostConstants}.

Lemma api_prog_bookkeeping (a : api_call) (s s' : statics)
  (tr : list event) :
  bookkeeping_ok s ->
  exec (api_prog a s) tr (Returned s') ->
  bookkeeping_ok s'.
Proof.
  intros [Hinit Hok] Hex; split.
  - apply (api_prog_effect CLIPBOARD_PRIMARY _ _ _ _ Hinit Hex).
  - intros id.
    destruct (api_prog_effect id _ _ _ _ Hinit Hex) as [_ Heff].
    unfold effect_on in Heff; destruct (updates_count id a).
    + destruct Heff as (n & rest & Hn & _ & -> & _); auto.
    + destruct Heff as (-> & Hown & _).
      destruct (Hok id) as [Hc Ho]; auto.
Qed.

(** X10: the bookkeeping invariant.  It holds once [be_clipboard_init]
    has run, and every sequence of calls into the file keeps it: the
    three pointers stay set, each stored counter is -1 or a [uint32]
    count, and an owned flag is only up for a selection with a recorded
    count.  In such a state adding one to a stored counter, as the
    ownership tests do, never overflows [int64]. *)
Theorem bookkeeping_invariant :
  bookkeeping_ok statics_after_init
  /\ (forall calls s tr s',
        bookkeeping_ok s ->
        exec (session calls s) tr (Returned s') ->
        bookkeeping_ok s'
        /\ forall id, add64 (stored_count id s') 1 = stored_count id s' + 1).
Proof.
  split.
  - split; [apply initialised_init|].
    intros []; simpl; split; auto; discriminate.
  - intros calls; induction calls as [| a rest IH]; intros s tr s' Hok Hex.
    + destruct Hex as [_ Heq]; injection Heq as Heq; subst s'.
      split; [exact Hok|].
      intros id; apply add64_succ.
      destruct Hok as [_ Hok]; destruct (Hok id) as [[Hc | Hc] _];
        unfold in_uint32, uint32_max, int64_min, int64_max in *; lia.
    + apply session_cons in Hex as (tr1 & tr2 & s1 & -> & Ha & Hrest).
      eapply IH; [| exact Hrest].
      eapply api_prog_bookkeeping; eassumption.
Qed.

End Bookkeeping.

(** ** Notifications and the rest of the file *)

Section NotificationFrame.

Context {host : HostConstants}.

Lemma be_display_notification_no_clipboard (title body : string)
  (supersedes type : Z) (icon : option string) (s : statics) :
  only_on None
    (be_display_notification title body supersedes type icon s).
Proof.
  unfold be_display_notification, type_for_type, my_team_id.
  destruct (supersedes <? 0); repeat all_calls_step.
Qed.

(** X11: notifications and clipboards do not interfere.
    [be_display_notification] calls no [BClipboard] method and returns
    with the clipboard pointers, the stored counters and the owned flags
    as they were; and no sequence of calls into the file changes
    [last_notification_id] unless it contains a
    [be_display_notification] with a negative [supersedes]. *)
Theorem notifications_apart_from_clipboards :
  (forall title body supersedes type icon s tr id s',
      exec (be_display_notification title body supersedes type icon s) tr
           (Returned (id, s')) ->
      (forall e, In e tr -> clipboard_target e = None)
      /\ forall cid,
          get_clipboard_object cid s' = get_clipboard_object cid s
          /\ stored_count cid s' = stored_count cid s
          /\ owned_flag cid s' = owned_flag cid s)
  /\ (forall calls s tr s',
        (forall a, In a calls -> allocates_id a = false) ->
        exec (session calls s) tr (Returned s') ->
        last_notification_id s' = last_notification_id s).
Proof.
  split.
  - intros title body supersedes type icon s tr id s' Hex; split.
    + intros e Hin.
      destruct (clipboard_target e) as [target|] eqn:E; [| reflexivity].
      pose proof (only_on_exec _ _ _ _
                    (be_display_notification_no_clipboard _ _ _ _ _ _)
                    Hex e target Hin E) as Habs.
      discriminate Habs.
    + apply be_display_notification_returns in Hex as [_ Hid].
      destruct (supersedes <? 0); destruct Hid as [_ ->];
        intros []; auto.
  - intros calls s tr s' Hnone Hex.
    eapply session_notification; eassumption.
Qed.

(** X12: the urgency of a notification.  [be_display_notification]
    creates the notification as an information, important or error
    notification for [type] 0, 1 or 2, before any other host call, and
    then returns.  For any other [type] it calls [abort] without having
    made a host call. *)
Theorem be_display_notification_urgency :
  forall title body supersedes type icon s tr o,
    exec (be_display_notification title body supersedes type icon s) tr o ->
    match urgency_of type with
    | Some urgency =>
        0 <= type <= 2
        /\ (exists rest, tr = Event (BNotification_new urgency) tt :: rest)
        /\ exists id s', o = Returned (id, s')
    | None =>
        ~ 0 <= type <= 2 /\ tr = [] /\ o = Stopped abort_called
    end.
Proof.
  intros title body supersedes type icon s tr o Hex.
  assert (Hcases : type = 0 \/ type = 1 \/ type = 2 \/ ~ 0 <= type <= 2)
    by lia.
  destruct Hcases as [-> | [-> | [-> | Hty]]].
  1-3: simpl;
    match type of Hex with
    | exec (be_display_notification _ _ _ ?n _ _) _ _ =>
        assert (Hty : 0 <= n <= 2) by lia
    end;
    (split; [exact Hty|]);
    destruct (be_display_notification_runs _ _ _ _ _ _ _ _ Hty Hex)
      as (id & s' & ty & tid & rc & team & icon_part & rc' & -> & _ & _);
    (split; [| eauto]);
    unfold be_display_notification in Hex; simpl in Hex;
    exec_call Hex; destruct x; eauto.
  assert (Hnone : urgency_of type = None).
  { unfold urgency_of.
    destruct (Z.eqb_spec type 0); [lia|].
    destruct (Z.eqb_spec type 1); [lia|].
    destruct (Z.eqb_spec type 2); [lia | reflexivity]. }
  rewrite Hnone; split; [exact Hty|].
  unfold be_display_notification in Hex.
  rewrite (type_for_type_invalid _ Hty) in Hex; exact Hex.
Qed.

(** X13: an identifier that was allocated can be superseded.  With
    [last_notification_id] non-negative and below the top of [intmax_t],
    a call with negative [supersedes] returns a positive identifier, and
    a later call given that identifier as [supersedes] returns the same
    identifier and allocates nothing.  At the top of the range the
    increment wraps: the identifier returned is the least [intmax_t],
    and a call given it as [supersedes] takes it for a request to
    allocate and returns another one. *)
Theorem allocated_identifier_supersedes :
  forall title1 body1 supersedes1 type1 icon1
         title2 body2 type2 icon2 s tr1 id s1 tr2 o,
    supersedes1 < 0 ->
    0 <= type2 <= 2 ->
    exec (be_display_notification title1 body1 supersedes1 type1 icon1 s)
         tr1 (Returned (id, s1)) ->
    exec (be_display_notification title2 body2 id type2 icon2 s1) tr2 o ->
    (0 <= last_notification_id s < int64_max ->
     0 < id /\ o = Returned (id, s1))
    /\ (last_notification_id s = int64_max ->
        id = int64_min
        /\ o = Returned (int64_min + 1,
                         set_last_notification_id (int64_min + 1) s1)).
Proof.
  intros title1 body1 supersedes1 type1 icon1 title2 body2 type2 icon2
         s tr1 id s1 tr2 o Hneg Hty2 Hex1 Hex2.
  apply be_display_notification_returns in Hex1 as [_ H1].
  apply Z.ltb_lt in Hneg; rewrite Hneg in H1; destruct H1 as [Hid Hs1].
  destruct (be_display_notification_runs _ _ _ _ _ _ _ _ Hty2 Hex2)
    as (id2 & s2 & ty & tid & rc & team & icon_part & rc' & -> & H2 & _).
  split.
  - intros Hrange.
    rewrite wrap64_id in Hid
      by (unfold in_int64, int64_min, int64_max in *; lia).
    assert (Hpos : (id <? 0) = false) by (apply Z.ltb_ge; lia).
    rewrite Hpos in H2; destruct H2 as [-> ->].
    split; [lia | reflexivity].
  - intros Htop; rewrite Htop in Hid.
    assert (Hmin : id = int64_min) by (rewrite Hid; reflexivity).
    subst id; rewrite Hmin in *.
    split; [reflexivity|].
    change (int64_min <? 0) with true in H2.
    destruct H2 as [-> ->].
    rewrite Hs1; reflexivity.
Qed.

End NotificationFrame.

(** ** Message identifiers *)

Lemma has_dot_uint (u : Decimal.uint) :
  has_dot (NilEmpty.string_of_uint u) = false.
Proof. induction u; simpl; auto. Qed.

Lemma has_dot_decimal (z : Z) : has_dot (decimal z) = false.
Proof.
  unfold decimal, NilZero.string_of_int, NilZero.string_of_uint.
  destruct (Z.to_int z) as [u | u]; destruct u; simpl;
    auto using has_dot_uint.
Qed.

Lemma decimal_inj (a b : Z) : decimal a = decimal b -> a = b.
Proof.
  unfold decimal; intros Heq.
  assert (Hnonnil : forall z, Z.to_int z <> Decimal.Pos Decimal.Nil
                              /\ Z.to_int z <> Decimal.Neg Decimal.Nil).
  { intros [| p | p]; simpl; split; try discriminate;
      intros Habs; injection Habs as Habs;
      exact (DecimalPos.Unsigned.to_uint_nonnil p Habs). }
  apply DecimalZ.to_int_inj.
  destruct (Hnonnil a) as [Ha1 Ha2], (Hnonnil b) as [Hb1 Hb2].
  pose proof (NilZero.isi _ Ha1 Ha2) as Ia.
  pose proof (NilZero.isi _ Hb1 Hb2) as Ib.
  rewrite Heq, Ib in Ia; injection Ia as Ia; symmetry; exact Ia.
Qed.

Lemma dot_separates (a b c d : string) :
  has_dot a = false -> has_dot c = false ->
  (a ++ "." ++ b = c ++ "." ++ d)%string ->
  a = c /\ b = d.
Proof.
  revert c; induction a as [| x a IH]; intros [| y c]; simpl.
  - intros _ _ Heq; injection Heq as Heq; auto.
  - intros _ Hc Heq; injection Heq as Hx _.
    apply orb_false_iff in Hc as [Hy _].
    rewrite <- Hx in Hy; discriminate Hy.
  - intros Ha _ Heq; injection Heq as Hx _.
    apply orb_false_iff in Ha as [Hy _].
    rewrite Hx in Hy; discriminate Hy.
  - intros Ha Hc Heq; injection Heq as -> Heq.
    apply orb_false_iff in Ha as [_ Ha].
    apply orb_false_iff in Hc as [_ Hc].
    destruct (IH c Ha Hc Heq) as [-> ->]; auto.
Qed.

Section MessageIds.

Context {host : HostConstants}.

Lemma be_display_notification_message_id (title body : string)
  (supersedes type : Z) (icon : option string) (s s' : statics)
  (id : Z) (tr : list event) :
  exec (be_display_notification title body supersedes type icon s) tr
       (Returned (id, s')) ->
  exists team,
    teams tr = [team]
    /\ message_ids tr = [(decimal team ++ "." ++ decimal id)%string].
Proof.
  intros Hex.
  destruct (be_display_notification_returns _ _ _ _ _ _ _ _ _ Hex)
    as [Hty _].
  unfold be_display_notification in Hex.
  destruct (type_for_type_valid type Hty) as (ty & Hty').
  rewrite Hty' in Hex; simpl in Hex.
  exec_call Hex.
  destruct (supersedes <? 0); simpl in Hex;
    exec_call Hex; exec_call Hex; exec_call Hex; exec_call Hex;
    match goal with p : (status_t * Z)%type |- _ => destruct p as [rc team] end;
    simpl in Hex; exec_call Hex;
    (destruct icon as [file |]; simpl in Hex;
     [ exec_call Hex;
       match type of Hex with
       | context [is_null ?b] => destruct (is_null b); simpl in Hex
       end;
       [| exec_call Hex; exec_call Hex ] |]);
    exec_call Hex; destruct Hex as [-> Heq]; injection Heq as <- _;
    exists team; split; reflexivity.
Qed.

(** X14: the message ID tells notifications apart.  The identifier
    [be_display_notification] gives the host is the decimal text of the
    team, a dot, and the decimal text of the identifier it returns; that
    text determines both numbers.  So two notifications are sent under
    the same message ID only when they come from the same team and the
    two calls return the same identifier. *)
Theorem message_id_determines_notification :
  (forall team1 id1 team2 id2,
      (decimal team1 ++ "." ++ decimal id1
       = decimal team2 ++ "." ++ decimal id2)%string ->
      team1 = team2 /\ id1 = id2)
  /\ (forall title1 body1 supersedes1 type1 icon1 s1 tr1 id1 s1'
             title2 body2 supersedes2 type2 icon2 s2 tr2 id2 s2',
        exec (be_display_notification title1 body1 supersedes1 type1 icon1 s1)
             tr1 (Returned (id1, s1')) ->
        exec (be_display_notification title2 body2 supersedes2 type2 icon2 s2)
             tr2 (Returned (id2, s2')) ->
        message_ids tr1 = message_ids tr2 ->
        teams tr1 = teams tr2 /\ id1 = id2).
Proof.
  assert (Hinj : forall team1 id1 team2 id2,
             (decimal team1 ++ "." ++ decimal id1
              = decimal team2 ++ "." ++ decimal id2)%string ->
             team1 = team2 /\ id1 = id2).
  { intros team1 id1 team2 id2 Heq.
    apply dot_separates in Heq as [Ht Hi]; auto using has_dot_decimal.
    split; apply decimal_inj; assumption. }
  split; [exact Hinj|].
  intros title1 body1 supersedes1 type1 icon1 s1 tr1 id1 s1'
         title2 body2 supersedes2 type2 icon2 s2 tr2 id2 s2' Hex1 Hex2 Heq.
  apply be_display_notification_message_id in Hex1 as (team1 & Ht1 & Hm1).
  apply be_display_notification_message_id in Hex2 as (team2 & Ht2 & Hm2).
  rewrite Hm1, Hm2 in Heq; injection Heq as Heq.
  apply Hinj in Heq as [-> ->].
  rewrite Ht1, Ht2; auto.
Qed.

End MessageIds.

(** ** Functions that only look *)

Lemma all_calls_through {X : Type} (Q : forall X, host_call X -> Prop)
  (cb : BClipboard_ptr) (method : BClipboard -> host_call X) :
  (forall o, Q _ (method o)) -> all_calls Q (through cb method).
Proof.
  intros Hm; destruct cb as [o|]; simpl; [| exact I].
  split; [apply Hm | intros; exact I].
Qed.

Lemma no_modification_in (tr : list event) :
  Forall (fun e => match e with Event c _ => not_modification _ c end) tr ->
  existsb modifies tr = false.
Proof.
  induction 1 as [| [X c x] tr Hc _ IH]; simpl; [reflexivity|].
  rewrite IH; unfold not_modification in Hc; rewrite Hc; reflexivity.
Qed.

Ltac looks_only :=
  repeat match goal with
    | |- all_calls _ (Ret _) => exact I
    | |- all_calls _ (Halt _) => exact I
    | |- all_calls _ (through _ _) =>
        apply all_calls_through; intros; reflexivity
    | |- all_calls _ (call _) => apply all_calls_call; reflexivity
    | |- all_calls _ (Call _ _) => split; [reflexivity | intros]
    | |- all_calls _ (bind _ _) => apply all_calls_bind; [| intros]
    | |- all_calls _ (if ?b then _ else _) => destruct b
    | |- all_calls _ (match ?x with _ => _ end) => destruct x
    end.

Section Readers.

Context {host : HostConstants}.

(** X15: the functions that read leave the clipboards alone.  No run of
    [be_find_clipboard_data], [be_clipboard_owner_p],
    [be_get_clipboard_count], [be_start_watching_selection] or
    [be_handle_clipboard_changed_message] clears, commits or reverts a
    clipboard or replaces, adds or removes an entry of a message,
    whatever the host answers. *)
Theorem readers_modify_no_clipboard :
  (forall id type len s tr o,
      exec (be_find_clipboard_data id type len s) tr o ->
      existsb modifies tr = false)
  /\ (forall id s tr o,
        exec (be_clipboard_owner_p id s) tr o ->
        existsb modifies tr = false)
  /\ (forall id s tr o,
        exec (be_get_clipboard_count id s) tr o ->
        existsb modifies tr = false)
  /\ (forall id s tr o,
        exec (be_start_watching_selection id s) tr o ->
        existsb modifies tr = false)
  /\ (forall s tr o,
        exec (be_handle_clipboard_changed_message s) tr o ->
        existsb modifies tr = false).
Proof.
  repeat split; intros;
    apply no_modification_in;
    (eapply all_calls_exec; [| eassumption]);
    autounfold with wrappers;
    unfold be_handle_clipboard_changed_message;
    looks_only.
Qed.

End Readers.

(** ** The two ownership tests agree *)

Section TestsAgree.

Context {host : HostConstants}.

Lemma be_handle_clipboard_changed_message_ahead (id : haiku_clipboard)
  (s : statics) (tr : list event) (o : outcome statics) (m : Z) :
  (forall id', int64_min <= stored_count id' s < int64_max) ->
  exec (be_handle_clipboard_changed_message s) tr o ->
  In (id, m) (disowned tr) ->
  m > stored_count id s + 1.
Proof.
  intros Hrange.
  pose proof (Hrange CLIPBOARD_CLIPBOARD) as Rc.
  pose proof (Hrange CLIPBOARD_PRIMARY) as Rp.
  pose proof (Hrange CLIPBOARD_SECONDARY) as Rs.
  simpl in Rc, Rp, Rs.
  unfold be_handle_clipboard_changed_message.
  destruct (system_clipboard s) as [cc|]; simpl;
    [| intros [-> _] []].
  intros Hex; exec_call Hex.
  destruct (primary s) as [cp|]; simpl in Hex;
    [| destruct Hex as [-> _]; intros []].
  exec_call Hex.
  destruct (secondary s) as [cs|]; simpl in Hex;
    [| destruct Hex as [-> _]; intros []].
  exec_call Hex.
  destruct (negb (count_clipboard s =? -1) && _ && owned_clipboard s) eqn:Ec;
    simpl in Hex; [exec_call Hex; clear Hok2 |];
    (destruct (negb (count_primary s =? -1) && _ && owned_primary s) eqn:Ep;
     simpl in Hex; [exec_call Hex; clear Hok2 |]);
    (destruct (negb (count_secondary s =? -1) && _ && owned_secondary s) eqn:Es;
     simpl in Hex; [exec_call Hex; clear Hok2 |]);
    destruct Hex as [-> _];
    repeat match goal with
      | H : _ && _ = true |- _ => apply andb_true_iff in H as [? ?]
      | H : (_ >? add64 _ 1) = true |- _ =>
          rewrite add64_succ in H by assumption; apply Z.gtb_gt in H
      end;
    simpl; intros Hin;
    repeat match goal with
      | H : _ \/ _ |- _ => destruct H
      | H : (_, _) = (_, _) |- _ => injection H as ? ?; subst
      | H : False |- _ => destruct H
      end;
    simpl; (assumption || discriminate).
Qed.

(** X16: the two ownership tests agree.  With stored counters below the
    top of [int64], if [be_handle_clipboard_changed_message] disowns
    [id] on reading the count [m], then [be_clipboard_owner_p (id)],
    asked in the same state and told the same count, answers false: a
    selection the file would report as owned is never disowned. *)
Theorem disowned_selection_is_not_owned :
  forall id s cb m tr o tr' o',
    get_clipboard_object id s = Some cb ->
    (forall id', int64_min <= stored_count id' s < int64_max) ->
    exec (be_handle_clipboard_changed_message s) tr o ->
    In (id, m) (disowned tr) ->
    exec (be_clipboard_owner_p id s) tr' o' ->
    count_replies cb tr' = [m] ->
    o' = Returned false.
Proof.
  intros id s cb m tr o tr' o' Hcb Hrange Hex Hin Hown Hm.
  pose proof (be_handle_clipboard_changed_message_ahead
                _ _ _ _ _ Hrange Hex Hin) as Hahead.
  rewrite owner_p_unfold, Hcb in Hown.
  destruct (0 <=? stored_count id s); simpl in Hown.
  - exec_call Hown. exec_ret Hown.
    rewrite count_replies_report in Hm; injection Hm as ->.
    rewrite add64_succ by apply Hrange.
    f_equal; apply Z.eqb_neq; lia.
  - exec_ret Hown; reflexivity.
Qed.

End TestsAgree.

(** * The further properties on concrete runs *)

Lemma be_find_clipboard_data_result_witness :
  get_clipboard_object CLIPBOARD_CLIPBOARD statics_after_init = Some system_cb
  /\ exec (be_find_clipboard_data (host := haiku_constants)
             CLIPBOARD_CLIPBOARD "text/plain" (Some None) statics_after_init)
          read_text_trace (Returned (16384, Some (Some 5)))
  /\ exists value len',
      Returned (16384, Some (Some 5)) = Returned (value, len').
Proof.
  assert (Hex : exec (be_find_clipboard_data (host := haiku_constants)
                        CLIPBOARD_CLIPBOARD "text/plain" (Some None)
                        statics_after_init)
                     read_text_trace (Returned (16384, Some (Some 5))))
    by (unfold read_text_trace; run_exec).
  split; [reflexivity|]. split; [exact Hex|].
  destruct (be_find_clipboard_data_result (host := haiku_constants)
              CLIPBOARD_CLIPBOARD "text/plain" (Some None)
              statics_after_init system_cb _ _ eq_refl Hex)
    as (value & len' & Heq & _).
  exists value, len'; exact Heq.
Defined.

Lemma be_find_clipboard_data_ignores_malloc_failure_witness :
  get_clipboard_object CLIPBOARD_CLIPBOARD statics_after_init = Some system_cb
  /\ 4096 <> NULL /\ 12288 <> NULL
  /\ exec (be_find_clipboard_data (host := haiku_constants)
             CLIPBOARD_CLIPBOARD "text/plain" (Some None) statics_after_init)
          [Event (BClipboard_Lock system_cb) true;
           Event (BClipboard_Data system_cb) 4096;
           Event (BMessage_FindData 4096 "text/plain" 1296649541)
                 (0, 12288, 5);
           Event (malloc 5) NULL;
           Event (memcpy NULL 12288 5) tt;
           Event (BClipboard_Unlock system_cb) tt]
          (Returned (NULL, Some (Some 5))).
Proof.
  assert (Hm : 4096 <> NULL) by discriminate.
  assert (Hptr : 12288 <> NULL) by discriminate.
  split; [reflexivity|]. split; [exact Hm|]. split; [exact Hptr|].
  exact (proj2 (be_find_clipboard_data_ignores_malloc_failure
                  (host := haiku_constants)
                  CLIPBOARD_CLIPBOARD "text/plain" (Some None)
                  statics_after_init system_cb eq_refl)
           4096 0 12288 5 Hm Hptr).
Defined.

Lemma be_lock_clipboard_message_then_unlock_witness :
  get_clipboard_object CLIPBOARD_PRIMARY statics_after_init = Some primary_cb
  /\ exec (be_lock_clipboard_message CLIPBOARD_PRIMARY None true
             statics_after_init)
          lock_primary_trace (Returned (0, Some 4096))
  /\ exec (be_unlock_clipboard CLIPBOARD_PRIMARY true statics_after_init)
          discard_primary_trace (Returned tt)
  /\ lock_protocol false (lock_primary_trace ++ discard_primary_trace)
     = Some false
  /\ existsb is_write (lock_primary_trace ++ discard_primary_trace) = false.
Proof.
  assert (Hlock : exec (be_lock_clipboard_message CLIPBOARD_PRIMARY None true
                          statics_after_init)
                       lock_primary_trace (Returned (0, Some 4096)))
    by (unfold lock_primary_trace; run_exec).
  assert (Hunlock : exec (be_unlock_clipboard CLIPBOARD_PRIMARY true
                            statics_after_init)
                         discard_primary_trace (Returned tt))
    by (unfold discard_primary_trace; run_exec).
  split; [reflexivity|]. split; [exact Hlock|]. split; [exact Hunlock|].
  destruct (be_lock_clipboard_message_then_unlock
              CLIPBOARD_PRIMARY None true true statics_after_init primary_cb
              _ _ eq_refl Hlock)
    as [[Habs _] | (m & pre & _ & _ & _ & _ & Hthen)].
  - discriminate Habs.
  - destruct (Hthen _ _ Hunlock) as (_ & Hprotocol & Hwrite & _).
    split; [exact Hprotocol | exact Hwrite].
Defined.

Lemma be_get_message_message_owns_result_witness :
  exec (be_get_message_message (host := haiku_constants)
          4096 "be:originator" 0)
       missing_message_trace (Returned NULL)
  /\ exists out result,
      Returned NULL = Returned result
      /\ new_messages missing_message_trace = [out].
Proof.
  assert (Hex : exec (be_get_message_message (host := haiku_constants)
                        4096 "be:originator" 0)
                     missing_message_trace (Returned NULL))
    by (unfold missing_message_trace; run_exec).
  split; [exact Hex|].
  destruct (be_get_message_message_owns_result (host := haiku_constants)
              _ _ _ _ _ Hex) as (out & result & Heq & Hnew & _).
  exists out, result; split; [exact Heq | exact Hnew].
Defined.

Lemma be_get_refs_data_path_witness :
  exec (be_get_refs_data (host := haiku_constants) 4096 "refs" 0 None)
       refs_path_trace (Returned (0, Some 28672))
  /\ exec (be_get_refs_data (host := haiku_constants) 4096 "refs" 0 None)
          [Event (BMessage_FindRef 4096 "refs" 0) (0, mk_entry_ref 1);
           Event (BEntry_SetTo (mk_entry_ref 1) false) (0, mk_BEntry 2);
           Event (BEntry_GetPath (mk_BEntry 2)) (0, mk_BPath 3);
           Event (BPath_Path (mk_BPath 3)) 24576;
           Event (strdup 24576) NULL]
          (Returned (0, Some NULL)).
Proof.
  split.
  - unfold refs_path_trace; run_exec.
  - exact (proj2 (be_get_refs_data_path (host := haiku_constants)
                    4096 "refs"%string 0 None)
             (mk_entry_ref 1) (mk_BEntry 2) (mk_BPath 3) 24576).
Defined.

Lemma be_add_refs_data_touches_message_last_witness :
  exec (be_add_refs_data (host := haiku_constants)
          4096 "refs" "/nonexistent")
       missing_file_trace (Returned 1)
  /\ ((Returned 1 = Returned 1
       /\ existsb touches_message missing_file_trace = false)
      \/ exists entry ref rc,
          missing_file_trace
          = [Event (BEntry_new "/nonexistent") entry;
             Event (BEntry_InitCheck entry) 0;
             Event (BEntry_GetRef entry) (0, ref);
             Event (BMessage_AddRef 4096 "refs" ref) rc]
          /\ Returned 1 = Returned (if rc =? 0 then 0 else 1)).
Proof.
  assert (Hex : exec (be_add_refs_data (host := haiku_constants)
                        4096 "refs" "/nonexistent")
                     missing_file_trace (Returned 1))
    by (unfold missing_file_trace; run_exec).
  split; [exact Hex|].
  exact (be_add_refs_data_touches_message_last (host := haiku_constants)
           _ _ _ _ _ Hex).
Defined.

Lemma owner_p_after_write_witness :
  get_clipboard_object CLIPBOARD_CLIPBOARD statics_after_init = Some system_cb
  /\ exec (be_set_clipboard_data (host := haiku_constants)
             CLIPBOARD_CLIPBOARD "text/plain" 8192 5 true statics_after_init)
          add_text_trace
          (Returned (record_count CLIPBOARD_CLIPBOARD 7 statics_after_init))
  /\ exec (be_clipboard_owner_p CLIPBOARD_CLIPBOARD
             (record_count CLIPBOARD_CLIPBOARD 7 statics_after_init))
          [Event (BClipboard_SystemCount system_cb) 8] (Returned true)
  /\ exists n rest m,
      add_text_trace = Event (BClipboard_SystemCount system_cb) n :: rest
      /\ [Event (BClipboard_SystemCount system_cb) 8]
         = [Event (BClipboard_SystemCount system_cb) m]
      /\ Returned true = Returned (n + 1 =? m).
Proof.
  assert (Hset : exec (be_set_clipboard_data (host := haiku_constants)
                         CLIPBOARD_CLIPBOARD "text/plain" 8192 5 true
                         statics_after_init)
                      add_text_trace
                      (Returned (record_count CLIPBOARD_CLIPBOARD 7
                                   statics_after_init)))
    by (unfold add_text_trace; run_exec).
  assert (Hown : exec (be_clipboard_owner_p CLIPBOARD_CLIPBOARD
                         (record_count CLIPBOARD_CLIPBOARD 7
                            statics_after_init))
                      [Event (BClipboard_SystemCount system_cb) 8]
                      (Returned true)) by run_exec.
  split; [reflexivity|]. split; [exact Hset|]. split; [exact Hown|].
  exact (proj1 (owner_p_after_write (host := haiku_constants)
                  CLIPBOARD_CLIPBOARD statics_after_init system_cb eq_refl)
           _ _ _ _ _ _ _ _ Hset Hown).
Defined.

Lemma selection_disowned_at_most_once_witness :
  initialised primary_recorded
  /\ (forall a, In a two_notifications ->
                updates_count CLIPBOARD_PRIMARY a = false)
  /\ exec (session (host := haiku_constants) two_notifications
             primary_recorded)
          two_notifications_trace (Returned primary_disowned)
  /\ (List.length (disowned_of CLIPBOARD_PRIMARY two_notifications_trace)
      <= 1)%nat
  /\ (disowned_of CLIPBOARD_PRIMARY two_notifications_trace <> [] ->
      owned_flag CLIPBOARD_PRIMARY primary_disowned = false).
Proof.
  assert (Hinit : initialised primary_recorded) by (intros []; reflexivity).
  assert (Hnever : forall a, In a two_notifications ->
                             updates_count CLIPBOARD_PRIMARY a = false).
  { intros a [<- | [<- | []]]; reflexivity. }
  assert (Hex : exec (session (host := haiku_constants) two_notifications
                        primary_recorded)
                     two_notifications_trace (Returned primary_disowned))
    by (unfold two_notifications_trace; run_exec).
  split; [exact Hinit|]. split; [exact Hnever|]. split; [exact Hex|].
  destruct (selection_disowned_at_most_once (host := haiku_constants)
              CLIPBOARD_PRIMARY _ _ _ _ Hinit Hnever Hex)
    as (Hlen & Hdown & _).
  split; [exact Hlen | exact Hdown].
Defined.

Lemma bookkeeping_invariant_witness :
  bookkeeping_ok statics_after_init
  /\ exec (session (host := haiku_constants)
             calls_without_primary statics_after_init)
          trace_without_primary
          (Returned (record_count CLIPBOARD_SECONDARY 2 statics_after_init))
  /\ bookkeeping_ok (record_count CLIPBOARD_SECONDARY 2 statics_after_init).
Proof.
  assert (Hex : exec (session (host := haiku_constants)
                        calls_without_primary statics_after_init)
                     trace_without_primary
                     (Returned (record_count CLIPBOARD_SECONDARY 2
                                  statics_after_init)))
    by (unfold trace_without_primary; run_exec).
  destruct (bookkeeping_invariant (host := haiku_constants))
    as [Hstart Hkeep].
  split; [exact Hstart|]. split; [exact Hex|].
  exact (proj1 (Hkeep _ _ _ _ Hstart Hex)).
Defined.

Lemma notifications_apart_from_clipboards_witness :
  exec (be_display_notification "title" "body" (-1) 0 None primary_recorded)
       first_notification_trace
       (Returned (1, set_last_notification_id 1 primary_recorded))
  /\ forall cid,
      get_clipboard_object cid (set_last_notification_id 1 primary_recorded)
      = get_clipboard_object cid primary_recorded
      /\ stored_count cid (set_last_notification_id 1 primary_recorded)
         = stored_count cid primary_recorded
      /\ owned_flag cid (set_last_notification_id 1 primary_recorded)
         = owned_flag cid primary_recorded.
Proof.
  assert (Hex : exec (be_display_notification "title" "body" (-1) 0 None
                        primary_recorded)
                     first_notification_trace
                     (Returned (1, set_last_notification_id 1
                                     primary_recorded)))
    by (unfold first_notification_trace; run_exec).
  split; [exact Hex|].
  exact (proj2 (proj1 (notifications_apart_from_clipboards
                         (host := haiku_constants))
                  _ _ _ _ _ _ _ _ _ Hex)).
Defined.

Lemma be_display_notification_urgency_witness :
  exec (be_display_notification "title" "body" (-1) 0 None statics_after_init)
       first_notification_trace
       (Returned (1, set_last_notification_id 1 statics_after_init))
  /\ 0 <= 0 <= 2
  /\ exists rest,
      first_notification_trace
      = Event (BNotification_new B_INFORMATION_NOTIFICATION) tt :: rest.
Proof.
  assert (Hex : exec (be_display_notification "title" "body" (-1) 0 None
                        statics_after_init)
                     first_notification_trace
                     (Returned (1, set_last_notification_id 1
                                     statics_after_init)))
    by (unfold first_notification_trace; run_exec).
  split; [exact Hex|].
  destruct (be_display_notification_urgency _ _ _ _ _ _ _ _ Hex)
    as (Hty & Hfirst & _).
  split; [exact Hty | exact Hfirst].
Defined.

Lemma allocated_identifier_supersedes_witness :
  -1 < 0
  /\ 0 <= 1 <= 2
  /\ exec (be_display_notification "title" "body" (-1) 0 None
             statics_after_init)
          first_notification_trace
          (Returned (1, set_last_notification_id 1 statics_after_init))
  /\ exec (be_display_notification "other" "body" 1 1 None
             (set_last_notification_id 1 statics_after_init))
          [Event (BNotification_new B_IMPORTANT_NOTIFICATION) tt;
           Event (BNotification_SetTitle "other") tt;
           Event (BNotification_SetContent "body") tt;
           Event find_thread 12;
           Event (get_thread_info 12) (0, 77);
           Event (BNotification_SetMessageID "77.1") tt;
           Event BNotification_Send 0]
          (Returned (1, set_last_notification_id 1 statics_after_init))
  /\ 0 <= last_notification_id statics_after_init < int64_max
  /\ 0 < 1.
Proof.
  assert (Hneg : -1 < 0) by lia.
  assert (Hty : 0 <= 1 <= 2) by lia.
  assert (Hex1 : exec (be_display_notification "title" "body" (-1) 0 None
                         statics_after_init)
                      first_notification_trace
                      (Returned (1, set_last_notification_id 1
                                      statics_after_init)))
    by (unfold first_notification_trace; run_exec).
  assert (Hex2 : exec (be_display_notification "other" "body" 1 1 None
             (set_last_notification_id 1 statics_after_init))
          [Event (BNotification_new B_IMPORTANT_NOTIFICATION) tt;
           Event (BNotification_SetTitle "other") tt;
           Event (BNotification_SetContent "body") tt;
           Event find_thread 12;
           Event (get_thread_info 12) (0, 77);
           Event (BNotification_SetMessageID "77.1") tt;
           Event BNotification_Send 0]
          (Returned (1, set_last_notification_id 1 statics_after_init)))
    by run_exec.
  assert (Hrange : 0 <= last_notification_id statics_after_init < int64_max)
    by (unfold int64_max; simpl; lia).
  split; [exact Hneg|]. split; [exact Hty|]. split; [exact Hex1|].
  split; [exact Hex2|]. split; [exact Hrange|].
  exact (proj1 (proj1 (allocated_identifier_supersedes
                         _ _ _ _ _ _ _ _ _ _ _ _ _ _ _
                         Hneg Hty Hex1 Hex2) Hrange)).
Defined.

Lemma message_id_determines_notification_witness :
  exec (be_display_notification "title" "body" (-1) 0 None statics_after_init)
       first_notification_trace
       (Returned (1, set_last_notification_id 1 statics_after_init))
  /\ exec (be_display_notification "other" "body" 1 1 None
             (set_last_notification_id 1 statics_after_init))
          [Event (BNotification_new B_IMPORTANT_NOTIFICATION) tt;
           Event (BNotification_SetTitle "other") tt;
           Event (BNotification_SetContent "body") tt;
           Event find_thread 12;
           Event (get_thread_info 12) (0, 77);
           Event (BNotification_SetMessageID "77.1") tt;
           Event BNotification_Send 0]
          (Returned (1, set_last_notification_id 1 statics_after_init))
  /\ message_ids first_notification_trace = ["77.1"%string]
  /\ 1 = 1.
Proof.
  assert (Hex1 : exec (be_display_notification "title" "body" (-1) 0 None
                         statics_after_init)
                      first_notification_trace
                      (Returned (1, set_last_notification_id 1
                                      statics_after_init)))
    by (unfold first_notification_trace; run_exec).
  assert (Hex2 : exec (be_display_notification "other" "body" 1 1 None
             (set_last_notification_id 1 statics_after_init))
          [Event (BNotification_new B_IMPORTANT_NOTIFICATION) tt;
           Event (BNotification_SetTitle "other") tt;
           Event (BNotification_SetContent "body") tt;
           Event find_thread 12;
           Event (get_thread_info 12) (0, 77);
           Event (BNotification_SetMessageID "77.1") tt;
           Event BNotification_Send 0]
          (Returned (1, set_last_notification_id 1 statics_after_init)))
    by run_exec.
  split; [exact Hex1|]. split; [exact Hex2|]. split; [reflexivity|].
  exact (proj2 (proj2 message_id_determines_notification
                  _ _ _ _ _ _ _ _ _ _ _ _ _ _ _ _ _ _
                  Hex1 Hex2 eq_refl)).
Defined.

Lemma readers_modify_no_clipboard_witness :
  exec (be_find_clipboard_data (host := haiku_constants)
          CLIPBOARD_CLIPBOARD "text/plain" (Some None) statics_after_init)
       read_text_trace (Returned (16384, Some (Some 5)))
  /\ existsb modifies read_text_trace = false.
Proof.
  assert (Hex : exec (be_find_clipboard_data (host := haiku_constants)
                        CLIPBOARD_CLIPBOARD "text/plain" (Some None)
                        statics_after_init)
                     read_text_trace (Returned (16384, Some (Some 5))))
    by (unfold read_text_trace; run_exec).
  split; [exact Hex|].
  exact (proj1 (readers_modify_no_clipboard (host := haiku_constants))
           _ _ _ _ _ _ Hex).
Defined.

Lemma disowned_selection_is_not_owned_witness :
  get_clipboard_object CLIPBOARD_PRIMARY primary_recorded = Some primary_cb
  /\ (forall id',
         int64_min <= stored_count id' primary_recorded < int64_max)
  /\ exec (be_handle_clipboard_changed_message primary_recorded)
          primary_taken_trace (Returned primary_disowned)
  /\ In (CLIPBOARD_PRIMARY, 43) (disowned primary_taken_trace)
  /\ exec (be_clipboard_owner_p CLIPBOARD_PRIMARY primary_recorded)
          [Event (BClipboard_SystemCount primary_cb) 43] (Returned false)
  /\ count_replies primary_cb [Event (BClipboard_SystemCount primary_cb) 43]
     = [43]
  /\ Returned false = Returned false.
Proof.
  assert (Hrange : forall id',
             int64_min <= stored_count id' primary_recorded < int64_max)
    by (intros []; unfold int64_min, int64_max; simpl; lia).
  assert (Hex : exec (be_handle_clipboard_changed_message primary_recorded)
                     primary_taken_trace (Returned primary_disowned))
    by (unfold primary_taken_trace; run_exec).
  assert (Hin : In (CLIPBOARD_PRIMARY, 43) (disowned primary_taken_trace))
    by (simpl; auto).
  assert (Hown : exec (be_clipboard_owner_p CLIPBOARD_PRIMARY
                         primary_recorded)
                      [Event (BClipboard_SystemCount primary_cb) 43]
                      (Returned false)) by run_exec.
  split; [reflexivity|]. split; [exact Hrange|]. split; [exact Hex|].
  split; [exact Hin|]. split; [exact Hown|]. split; [reflexivity|].
  exact (disowned_selection_is_not_owned CLIPBOARD_PRIMARY primary_recorded
           primary_cb 43 _ _ _ _ eq_refl Hrange Hex Hin Hown eq_refl).
Defined.
